(** * The serial command line of the Laureline firmware (src/cmdline.c)

    A shallow embedding of the command-line interpreter: the byte-driven
    input state machine [cli_feed], the command table with its binary
    search, the typed variable table with its print and set routines, and
    the command handlers.

    The file-scope globals of cmdline.c and the configuration record become
    one [state] record that is threaded through a small state-and-fault
    monad.  Everything the module sends to its collaborators (the serial
    port, the EEPROM driver, the scheduler delay, the reset register) is
    appended to an event trace.  An access outside [cl_buf] is undefined
    behaviour in C; here it stops the computation with a [Fault]. *)

From Stdlib Require Import ZArith String Ascii List Lia Bool Sorted.
From stdpp Require Import base tactics list strings.
Import ListNotations.

Local Open Scope Z_scope.

(** ** Characters *)

Definition NUL : ascii := "000"%char.
Definition EOT : ascii := "004"%char.
Definition BS : ascii := "008"%char.
Definition TAB : ascii := "009"%char.
Definition LF : ascii := "010"%char.
Definition FF : ascii := "012"%char.
Definition CR : ascii := "013"%char.
Definition ESC : ascii := "027"%char.
Definition SP : ascii := " "%char.
Definition DEL : ascii := "127"%char.

(** The numeric value of a [char].  Only equality tests and the range test
    [c >= 32 && c <= 126] are made on it, and they come out the same
    whether [char] is signed or not. *)
Definition code (c : ascii) : Z := Z.of_N (N_of_ascii c).

Definition crlf : string := String CR (String LF EmptyString).

(** ** The C library functions the module calls *)

Module Libc.

Definition tolower (c : ascii) : Z :=
  let n := code c in
  if (65 <=? n) && (n <=? 90) then n + 32 else n.

(** The character a [char*] points at; the end of a string reads as NUL. *)
Definition hd_char (s : string) : ascii :=
  match s with EmptyString => NUL | String c _ => c end.

Definition tl_str (s : string) : string :=
  match s with EmptyString => EmptyString | String _ t => t end.

Fixpoint strlen (s : string) : nat :=
  match s with
  | EmptyString => O
  | String c t => if Ascii.eqb c NUL then O else S (strlen t)
  end.

Fixpoint strncasecmp (a b : string) (n : nat) : Z :=
  match n with
  | O => 0
  | S n' =>
      let ca := hd_char a in
      let cb := hd_char b in
      let d := tolower ca - tolower cb in
      if d =? 0
      then if code ca =? 0 then 0
           else strncasecmp (tl_str a) (tl_str b) n'
      else d
  end.

(** [strstr h n]: the suffix of [h] that starts at the first occurrence
    of [n]. *)
Fixpoint strstr (h n : string) : option string :=
  if String.prefix n h then Some h
  else match h with
       | EmptyString => None
       | String _ t => strstr t n
       end.

(** The NUL-terminated string that starts at the head of a memory region;
    [None] when the region ends before a NUL is met. *)
Fixpoint cstr_at (mem : list ascii) : option string :=
  match mem with
  | [] => None
  | c :: t =>
      if Ascii.eqb c NUL then Some EmptyString
      else option_map (String c) (cstr_at t)
  end.

(** [vsnprintf buf size ...]: at most [size - 1] characters of the
    formatted text [s], then a NUL; the rest of [buf] is left alone. *)
Definition vsnprintf (buf : list ascii) (size : nat) (s : string)
  : list ascii :=
  match size with
  | O => buf
  | S m =>
      let out := take m (list_ascii_of_string s) in
      out ++ NUL :: drop (S (length out)) buf
  end.

Definition to_int32 (z : Z) : Z := (z + 2 ^ 31) mod 2 ^ 32 - 2 ^ 31.

Definition digit (d : Z) : ascii :=
  match d with
  | 0 => "0" | 1 => "1" | 2 => "2" | 3 => "3" | 4 => "4"
  | 5 => "5" | 6 => "6" | 7 => "7" | 8 => "8" | _ => "9"
  end%char.

(** Decimal digits of [v], most significant first, in front of [acc].
    Ten rounds are enough for every 32-bit value. *)
Fixpoint utoa (rounds : nat) (v : Z) (acc : string) : string :=
  match rounds with
  | O => acc
  | S r =>
      let acc' := String (digit (v mod 10)) acc in
      if v / 10 =? 0 then acc' else utoa r (v / 10) acc'
  end.

(** The conversions [%u] and [%d] of an [unsigned int] and an [int]. *)
Definition fmt_u (v : Z) : string :=
  utoa 10 (v mod 2 ^ 32) EmptyString.

Definition fmt_d (v : Z) : string :=
  let i := to_int32 v in
  if i <? 0 then String "-"%char (utoa 10 (- i) EmptyString)
  else utoa 10 i EmptyString.

(** The characters of a region up to its first NUL, or all of them. *)
Fixpoint cut (l : list ascii) : string :=
  match l with
  | [] => EmptyString
  | c :: t => if Ascii.eqb c NUL then EmptyString else String c (cut t)
  end.

(** [bsearch]: the halving loop over [lower, upper).  The comparison
    function is already applied to the key.  [fuel] bounds the number of
    iterations; [bsearch] provides more than the loop can use. *)
Fixpoint bsearch_loop {A : Type} (fuel : nat) (compar : A -> Z)
    (base : list A) (lower upper : nat) : option A :=
  match fuel with
  | O => None
  | S fuel' =>
      if (lower <? upper)%nat then
        let index := ((lower + upper) / 2)%nat in
        match nth_error base index with
        | None => None
        | Some current =>
            let result := compar current in
            if result <? 0 then
              bsearch_loop fuel' compar base lower index
            else if 0 <? result then
              bsearch_loop fuel' compar base (S index) upper
            else Some current
        end
      else None
  end.

Definition bsearch {A : Type} (compar : A -> Z) (base : list A)
  : option A :=
  bsearch_loop (S (length base)) compar base O (length base).

End Libc.
Import Libc.

(** ** Data *)

Definition serial_t := Z.

(** Modelled from the spec: the configuration record [cfg], whose
    declaration is in a header that is not among the sources.  The four
    fields that [value_table] points at and the version field are 32-bit
    words; [cfg_rest] stands for the remaining bytes of the EEPROM
    image. *)
Record cfg_t := {
  version : Z;
  gps_baud_rate : Z;
  ip_addr : Z;
  ip_gateway : Z;
  ip_netmask : Z;
  cfg_rest : list Z
}.

Inductive event :=
| Ev_serial_puts (port : serial_t) (s : string)
| Ev_serial_putc (port : serial_t) (c : ascii)
| Ev_eeprom_write_cfg (image : cfg_t) (result : Z)
| Ev_CoTickDelay (ticks : Z)
| Ev_AIRCR (value : Z).

(** What the headers and the other modules provide: constants, macros and
    the collaborators whose answer the module consumes.  The two
    collaborators that return a value answer as a function of everything
    that has happened so far. *)
Class Platform := {
  BOARD_REV : string;
  CFG_VERSION : Z;
  EERR_OK : Z;
  EERR_TIMEOUT : Z;
  EERR_NACK : Z;
  EERR_FAULT : Z;
  S2ST : Z -> Z;
  system_frequency : Z;
  atoi_decimal : string -> Z;
  eeprom_write_cfg : list event -> cfg_t -> Z;
  uptime_format : list event -> string
}.

Definition VERSION : string := "1.2.3.4".

Definition CL_BUF_SIZE : Z := 64.
Definition FMT_BUF_SIZE : nat := 64.

(** The globals of cmdline.c, the configuration record and the trace. *)
Record state := {
  cl_enabled : Z;
  cl_out : serial_t;
  cl_buf : list ascii;
  fmt_buf : list ascii;
  cl_count : Z;
  cfg : cfg_t;
  trace : list event
}.

Definition set_cl_enabled (v : Z) (st : state) : state :=
  {| cl_enabled := v; cl_out := cl_out st; cl_buf := cl_buf st;
     fmt_buf := fmt_buf st; cl_count := cl_count st; cfg := cfg st;
     trace := trace st |}.

Definition set_cl_out (v : serial_t) (st : state) : state :=
  {| cl_enabled := cl_enabled st; cl_out := v; cl_buf := cl_buf st;
     fmt_buf := fmt_buf st; cl_count := cl_count st; cfg := cfg st;
     trace := trace st |}.

Definition set_cl_buf (v : list ascii) (st : state) : state :=
  {| cl_enabled := cl_enabled st; cl_out := cl_out st; cl_buf := v;
     fmt_buf := fmt_buf st; cl_count := cl_count st; cfg := cfg st;
     trace := trace st |}.

Definition set_fmt_buf (v : list ascii) (st : state) : state :=
  {| cl_enabled := cl_enabled st; cl_out := cl_out st; cl_buf := cl_buf st;
     fmt_buf := v; cl_count := cl_count st; cfg := cfg st;
     trace := trace st |}.

Definition set_cl_count (v : Z) (st : state) : state :=
  {| cl_enabled := cl_enabled st; cl_out := cl_out st; cl_buf := cl_buf st;
     fmt_buf := fmt_buf st; cl_count := v; cfg := cfg st;
     trace := trace st |}.

Definition set_cfg (v : cfg_t) (st : state) : state :=
  {| cl_enabled := cl_enabled st; cl_out := cl_out st; cl_buf := cl_buf st;
     fmt_buf := fmt_buf st; cl_count := cl_count st; cfg := v;
     trace := trace st |}.

Definition emit (e : event) (st : state) : state :=
  {| cl_enabled := cl_enabled st; cl_out := cl_out st; cl_buf := cl_buf st;
     fmt_buf := fmt_buf st; cl_count := cl_count st; cfg := cfg st;
     trace := trace st ++ [e] |}.

(** The state at reset: zero-initialised globals. *)
Definition init_state (c : cfg_t) : state :=
  {| cl_enabled := 0; cl_out := 0;
     cl_buf := replicate 64 NUL; fmt_buf := replicate 64 NUL;
     cl_count := 0; cfg := c; trace := [] |}.

(** ** The state-and-fault monad *)

Inductive fault :=
| OutOfBoundsWrite (index : Z)
| OutOfBoundsRead.

Inductive result (A : Type) :=
| Ok (a : A)
| Fault (f : fault).
Arguments Ok {A} a.
Arguments Fault {A} f.

Definition M (A : Type) : Type := state -> result (A * state).

Definition ret {A : Type} (a : A) : M A := fun st => Ok (a, st).

Definition bind {A B : Type} (m : M A) (k : A -> M B) : M B :=
  fun st =>
    match m st with
    | Ok (a, st') => k a st'
    | Fault f => Fault f
    end.

Definition raise {A : Type} (f : fault) : M A := fun _ => Fault f.

Definition get : M state := fun st => Ok (st, st).

Definition modify (f : state -> state) : M unit := fun st => Ok (tt, f st).

Declare Scope cli_scope.
Delimit Scope cli_scope with cli.
Bind Scope cli_scope with M.
Notation "x <- m ;; k" := (bind m (fun x => k))
  (at level 20, m at level 99, k at level 200, only parsing) : cli_scope.
Notation "m ;; k" := (bind m (fun _ => k))
  (at level 100, k at level 200, right associativity, only parsing)
  : cli_scope.
Local Open Scope cli_scope.

(** ** Access to the buffers and to the configuration record *)

(** [cl_buf[i] = c]. *)
Definition buf_store (i : Z) (c : ascii) : M unit :=
  fun st =>
    if (0 <=? i) && (i <? CL_BUF_SIZE)
    then Ok (tt, set_cl_buf (<[Z.to_nat i := c]> (cl_buf st)) st)
    else Fault (OutOfBoundsWrite i).

(** [cl_buf[i]]. *)
Definition buf_load (i : Z) : M ascii :=
  fun st =>
    match cl_buf st !! Z.to_nat i with
    | Some c => if 0 <=? i then Ok (c, st) else Fault OutOfBoundsRead
    | None => Fault OutOfBoundsRead
    end.

(** The C string a pointer [cl_buf + off] designates. *)
Definition buf_cstr (off : nat) : M string :=
  fun st =>
    match cstr_at (drop off (cl_buf st)) with
    | Some s => Ok (s, st)
    | None => Fault OutOfBoundsRead
    end.

(** The places in [cfg] that [value_table] points at. *)
Inductive cfg_ptr :=
| P_gps_baud_rate
| P_ip_addr
| P_ip_gateway
| P_ip_netmask.

Definition load_u32 (p : cfg_ptr) (c : cfg_t) : Z :=
  match p with
  | P_gps_baud_rate => gps_baud_rate c
  | P_ip_addr => ip_addr c
  | P_ip_gateway => ip_gateway c
  | P_ip_netmask => ip_netmask c
  end.

Definition store_u32 (p : cfg_ptr) (v : Z) (c : cfg_t) : cfg_t :=
  match p with
  | P_gps_baud_rate =>
      {| version := version c; gps_baud_rate := v; ip_addr := ip_addr c;
         ip_gateway := ip_gateway c; ip_netmask := ip_netmask c;
         cfg_rest := cfg_rest c |}
  | P_ip_addr =>
      {| version := version c; gps_baud_rate := gps_baud_rate c;
         ip_addr := v; ip_gateway := ip_gateway c;
         ip_netmask := ip_netmask c; cfg_rest := cfg_rest c |}
  | P_ip_gateway =>
      {| version := version c; gps_baud_rate := gps_baud_rate c;
         ip_addr := ip_addr c; ip_gateway := v;
         ip_netmask := ip_netmask c; cfg_rest := cfg_rest c |}
  | P_ip_netmask =>
      {| version := version c; gps_baud_rate := gps_baud_rate c;
         ip_addr := ip_addr c; ip_gateway := ip_gateway c;
         ip_netmask := v; cfg_rest := cfg_rest c |}
  end.

(** Byte [k] in memory of a 32-bit word; the target is a little-endian
    Cortex-M. *)
Definition byte_at (w : Z) (k : Z) : Z :=
  Z.land (Z.shiftr w (8 * k)) 255.

Definition load_u8 (p : cfg_ptr) (c : cfg_t) : Z :=
  byte_at (load_u32 p c) 0.

Definition store_u8 (p : cfg_ptr) (b : Z) (c : cfg_t) : cfg_t :=
  store_u32 p (Z.lor (Z.ldiff (load_u32 p c) 255) b) c.

(** ** The tables *)

Inductive cmd_func :=
| F_cliDefaults
| F_cliExit
| F_cliHelp
| F_cliInfo
| F_cliSave
| F_cliSet
| F_cliUptime
| F_cliVersion.

Record clicmd_t := {
  name : string;
  param : string;
  func : cmd_func
}.

Inductive vartype_e :=
| VAR_UINT32
| VAR_BOOL
| VAR_IP4.

Record clivalue_t := {
  var_name : string;
  var_type : vartype_e;
  var_ptr : cfg_ptr
}.

Definition cmd_table : list clicmd_t := [
  {| name := "defaults"; param := "reset to factory defaults and reboot";
     func := F_cliDefaults |};
  {| name := "exit"; param := "leave command mode"; func := F_cliExit |};
  {| name := "help"; param := ""; func := F_cliHelp |};
  {| name := "info"; param := "show runtime information";
     func := F_cliInfo |};
  {| name := "save"; param := "save changes and reboot";
     func := F_cliSave |};
  {| name := "set"; param := "name=value or blank or * for list";
     func := F_cliSet |};
  {| name := "uptime"; param := "show the system uptime";
     func := F_cliUptime |};
  {| name := "version"; param := "show version"; func := F_cliVersion |}
].

Definition value_table : list clivalue_t := [
  {| var_name := "gps_baud_rate"; var_type := VAR_UINT32;
     var_ptr := P_gps_baud_rate |};
  {| var_name := "ip_addr"; var_type := VAR_IP4; var_ptr := P_ip_addr |};
  {| var_name := "ip_gateway"; var_type := VAR_IP4;
     var_ptr := P_ip_gateway |};
  {| var_name := "ip_netmask"; var_type := VAR_IP4;
     var_ptr := P_ip_netmask |}
].

(** ** The program *)

Section Program.

Context `{Platform}.

(** *** Initialization and UART handling *)

Definition cli_set_output (output : serial_t) : M unit :=
  modify (set_cl_out output).

Definition serial_puts (s : string) : M unit :=
  modify (fun st => emit (Ev_serial_puts (cl_out st) s) st).

Definition serial_putc (c : ascii) : M unit :=
  modify (fun st => emit (Ev_serial_putc (cl_out st) c) st).

Definition uartPrint (value : string) : M unit :=
  serial_puts value.

(** [text] is the expansion of the format with its arguments, before the
    size bound is applied. *)
Definition uart_printf (text : string) : M unit :=
  modify (fun st =>
            set_fmt_buf (vsnprintf (fmt_buf st) FMT_BUF_SIZE text) st) ;;
  st <- get ;;
  match cstr_at (fmt_buf st) with
  | Some s => serial_puts s
  | None => raise OutOfBoundsRead
  end.

(** *** Command-line helpers *)

Definition cliPrompt : M unit :=
  modify (set_cl_count 0) ;;
  modify (set_cl_enabled 1) ;;
  uartPrint (crlf +:+ "# ").

Definition cliCompare (a : string) (b : clicmd_t) : Z :=
  strncasecmp a (name b) (strlen (name b)).

Definition cliPrintVar (var : clivalue_t) (full : Z) : M unit :=
  st <- get ;;
  match var_type var with
  | VAR_UINT32 => uart_printf (fmt_u (load_u32 (var_ptr var) (cfg st)))
  | VAR_BOOL =>
      uart_printf
        (fmt_u (if load_u8 (var_ptr var) (cfg st) =? 0 then 0 else 1))
  | VAR_IP4 =>
      let addr := byte_at (load_u32 (var_ptr var) (cfg st)) in
      uart_printf (fmt_d (addr 0) +:+ "." +:+ fmt_d (addr 1) +:+ "."
                   +:+ fmt_d (addr 2) +:+ "." +:+ fmt_d (addr 3))
  end.

(** The loop of the [VAR_IP4] case of [cliSetVar]: [val] is a
    [uint32_t], [val2] a [uint8_t]; the result is the final [val]. *)
Fixpoint ip4_scan (str : string) (val val2 : Z) : Z :=
  match str with
  | EmptyString => Z.lor (Z.shiftl val 8 mod 2 ^ 32) val2
  | String c rest =>
      if Ascii.eqb c NUL then Z.lor (Z.shiftl val 8 mod 2 ^ 32) val2
      else if Ascii.eqb c "."%char then
        ip4_scan rest (Z.lor (Z.shiftl val 8 mod 2 ^ 32) val2) 0
      else if (code "0"%char <=? code c) && (code c <=? code "9"%char)
      then ip4_scan rest val ((val2 * 10 + (code c - code "0"%char))
                              mod 2 ^ 8)
      else ip4_scan rest val val2
  end.

(** In the [VAR_IP4] case the source computes [val] and stops there: the
    line that would store it is commented out. *)
Definition cliSetVar (var : clivalue_t) (str : string) : M unit :=
  match var_type var with
  | VAR_UINT32 =>
      modify (fun st =>
                set_cfg (store_u32 (var_ptr var)
                           (atoi_decimal str mod 2 ^ 32) (cfg st)) st)
  | VAR_BOOL =>
      modify (fun st =>
                set_cfg (store_u8 (var_ptr var)
                           (if atoi_decimal str =? 0 then 0 else 1)
                           (cfg st)) st)
  | VAR_IP4 =>
      let val := ip4_scan str 0 0 in
      ret tt
  end.

(** *** Command implementation *)

Definition call_eeprom_write_cfg : M Z :=
  fun st =>
    let r := eeprom_write_cfg (trace st) (cfg st) in
    Ok (r, emit (Ev_eeprom_write_cfg (cfg st) r) st).

Definition CoTickDelay (ticks : Z) : M unit :=
  modify (emit (Ev_CoTickDelay ticks)).

Definition write_AIRCR (v : Z) : M unit :=
  modify (emit (Ev_AIRCR v)).

Definition cliWriteConfig : M unit :=
  uartPrint ("Writing EEPROM..." +:+ crlf) ;;
  result <- call_eeprom_write_cfg ;;
  if result =? EERR_TIMEOUT then
    uartPrint ("ERROR: timeout while writing EEPROM" +:+ crlf)
  else if result =? EERR_NACK then
    uartPrint ("ERROR: EEPROM is faulty or missing" +:+ crlf)
  else if result =? EERR_FAULT then
    uartPrint ("ERROR: EEPROM is faulty" +:+ crlf)
  else if negb (result =? EERR_OK) then
    uartPrint ("FAIL: unable to write EEPROM" +:+ crlf)
  else
    uartPrint ("OK" +:+ crlf) ;;
    CoTickDelay (S2ST 1) ;;
    write_AIRCR (Z.lor 0x05FA0000 0x04).

(** Modelled from the spec: [cfg_bytes] and [EEPROM_CFG_SIZE] are declared
    in a header that is not among the sources; the [memset] zeroes the
    whole raw image of the record, and only the version field is set
    again. *)
Definition cfg_defaults (c : cfg_t) : cfg_t :=
  {| version := CFG_VERSION; gps_baud_rate := 0; ip_addr := 0;
     ip_gateway := 0; ip_netmask := 0;
     cfg_rest := replicate (length (cfg_rest c)) 0 |}.

Definition cliDefaults (cmdline : nat) : M unit :=
  modify (fun st => set_cfg (cfg_defaults (cfg st)) st) ;;
  cliWriteConfig.

Definition cliExit (cmdline : nat) : M unit :=
  modify (set_cl_count 0) ;;
  modify (set_cl_enabled 0) ;;
  uartPrint ("Exiting cmdline mode." +:+ crlf
             +:+ "Configuration changes have not been saved." +:+ crlf
             +:+ "Press Enter to enable cmdline." +:+ crlf).

Fixpoint cliHelp_loop (tbl : list clicmd_t) : M unit :=
  match tbl with
  | [] => ret tt
  | c :: rest =>
      uart_printf (name c +:+ String TAB (param c) +:+ crlf) ;;
      cliHelp_loop rest
  end.

Definition cliHelp (cmdline : nat) : M unit :=
  uartPrint ("Available commands:" +:+ crlf) ;;
  cliHelp_loop cmd_table.

Definition cliUptime (cmdline : nat) : M unit :=
  uartPrint "Uptime:         " ;;
  st <- get ;;
  uartPrint (uptime_format (trace st)) ;;
  uartPrint crlf.

Definition cliVersion (cmdline : nat) : M unit :=
  uartPrint ("Hardware:       " +:+ BOARD_REV +:+ crlf
             +:+ "Software:       " +:+ VERSION +:+ crlf).

Definition cli_print_hwaddr : M unit :=
  uartPrint "MAC Address:    " ;;
  uartPrint crlf.

Definition cliInfo (cmdline : nat) : M unit :=
  cliVersion O ;;
  cli_print_hwaddr ;;
  cliUptime O ;;
  uart_printf ("System clock:   " +:+ fmt_d (to_int32 system_frequency)
               +:+ " Hz (nominal)" +:+ crlf).

Definition cliSave (cmdline : nat) : M unit :=
  cliWriteConfig.

Fixpoint cliSet_list (tbl : list clivalue_t) (len : Z) : M unit :=
  match tbl with
  | [] => ret tt
  | val :: rest =>
      uart_printf (var_name val +:+ " = ") ;;
      cliPrintVar val len ;;
      uartPrint crlf ;;
      cliSet_list rest len
  end.

Fixpoint cliSet_assign (tbl : list clivalue_t) (cmdline eqptr : string)
  : M unit :=
  match tbl with
  | [] => uartPrint ("ERR: Unknown variable name" +:+ crlf)
  | val :: rest =>
      if strncasecmp cmdline (var_name val) (strlen (var_name val)) =? 0
      then
        cliSetVar val eqptr ;;
        uart_printf (var_name val +:+ " set to ") ;;
        cliPrintVar val 0
      else cliSet_assign rest cmdline eqptr
  end.

(** The loop that steps [eqptr] over spaces. *)
Fixpoint skip_spaces (s : string) : string :=
  match s with
  | String c t => if Ascii.eqb c SP then skip_spaces t else s
  | EmptyString => s
  end.

(** [cmdline] is a pointer into [cl_buf], given by its offset.  The
    adjustments the source makes to [len] in the assignment branch are
    never read and are left out. *)
Definition cliSet (cmdline : nat) : M unit :=
  text <- buf_cstr cmdline ;;
  let len := Z.of_nat (strlen text) in
  if (len =? 0) || ((len =? 1) && Ascii.eqb (hd_char text) "*"%char)
  then
    uartPrint ("Current settings:" +:+ crlf) ;;
    cliSet_list value_table len
  else
    match strstr text "=" with
    | Some eq => cliSet_assign value_table text (skip_spaces (tl_str eq))
    | None => ret tt
    end.

Definition call_func (f : cmd_func) : nat -> M unit :=
  match f with
  | F_cliDefaults => cliDefaults
  | F_cliExit => cliExit
  | F_cliHelp => cliHelp
  | F_cliInfo => cliInfo
  | F_cliSave => cliSave
  | F_cliSet => cliSet
  | F_cliUptime => cliUptime
  | F_cliVersion => cliVersion
  end.

(** *** The input state machine *)

(** [if (cl_enabled) cliPrompt(); cl_buf[0] = c;] *)
Definition cli_feed_eol (c : ascii) : M unit :=
  st <- get ;;
  (if negb (cl_enabled st =? 0) then cliPrompt else ret tt) ;;
  buf_store 0 c.

(** The body of [if (cl_count)] in the line-end branch. *)
Definition cli_feed_enter : M unit :=
  uartPrint crlf ;;
  st <- get ;;
  buf_store (cl_count st) NUL ;;
  target <- buf_cstr O ;;
  match bsearch (cliCompare target) cmd_table with
  | Some cmd => call_func (func cmd) (strlen (name cmd) + 1)%nat
  | None => uartPrint ("ERR: Unknown command, try 'help'" +:+ crlf)
  end ;;
  modify (set_cl_buf (replicate (Z.to_nat CL_BUF_SIZE) NUL)).

Definition cli_feed (c : ascii) : M unit :=
  fun st =>
    if (cl_enabled st =? 0) && negb (Ascii.eqb c CR)
       && negb (Ascii.eqb c LF)
    then Ok (tt, st)
    else
      (modify (set_cl_enabled 1) ;;
       st <- get ;;
       if Ascii.eqb c TAB || Ascii.eqb c "?"%char then
         ret tt
       else if (cl_count st =? 0) && Ascii.eqb c EOT then
         cliExit O
       else if Ascii.eqb c FF then
         uartPrint (String ESC "[2J" +:+ String ESC "[1;1H") ;;
         cliPrompt
       else if Ascii.eqb c LF || Ascii.eqb c CR then
         if negb (cl_count st =? 0) then
           cli_feed_enter ;;
           cli_feed_eol c
         else
           after_cr <- (if Ascii.eqb c LF
                        then c0 <- buf_load 0 ;; ret (Ascii.eqb c0 CR)
                        else ret false) ;;
           if after_cr then ret tt
           else cli_feed_eol c
       else if Ascii.eqb c BS || Ascii.eqb c DEL then
         if negb (cl_count st =? 0) then
           let n := (cl_count st - 1) mod 2 ^ 8 in
           modify (set_cl_count n) ;;
           buf_store n NUL ;;
           uartPrint (String BS (String SP (String BS EmptyString)))
         else ret tt
       else if (cl_count st <? CL_BUF_SIZE)
               && (32 <=? code c) && (code c <=? 126) then
         if (cl_count st =? 0) && (code c =? 32) then ret tt
         else
           buf_store (cl_count st) c ;;
           modify (set_cl_count ((cl_count st + 1) mod 2 ^ 8)) ;;
           serial_putc c
       else ret tt) st.

(** Feeding a sequence of bytes, one call of [cli_feed] for each. *)
Fixpoint cli_feed_all (bytes : list ascii) : M unit :=
  match bytes with
  | [] => ret tt
  | c :: rest => cli_feed c ;; cli_feed_all rest
  end.

Definition cli_banner : M unit :=
  uartPrint (crlf +:+ crlf +:+ "Laureline GPS NTP Server" +:+ crlf) ;;
  cliVersion O ;;
  cli_print_hwaddr ;;
  uartPrint (crlf +:+ "Press Enter to enable command-line" +:+ crlf).

End Program.

(** ** Definitions used by the statements *)

(** No NUL inside the string: it is a C string as it stands. *)
Fixpoint nul_free (s : string) : Prop :=
  match s with
  | EmptyString => True
  | String c t => c <> NUL /\ nul_free t
  end.

(** What [uart_printf] sends for the expanded format [text]. *)
Definition printf_text (text : string) : string :=
  cut (take (FMT_BUF_SIZE - 1) (list_ascii_of_string text)).

(** The expanded format that [cliPrintVar] hands to [uart_printf]. *)
Definition var_text (var : clivalue_t) (c : cfg_t) : string :=
  match var_type var with
  | VAR_UINT32 => fmt_u (load_u32 (var_ptr var) c)
  | VAR_BOOL => fmt_u (if load_u8 (var_ptr var) c =? 0 then 0 else 1)
  | VAR_IP4 =>
      let addr := byte_at (load_u32 (var_ptr var) c) in
      fmt_d (addr 0) +:+ "." +:+ fmt_d (addr 1) +:+ "."
      +:+ fmt_d (addr 2) +:+ "." +:+ fmt_d (addr 3)
  end.

(** The test [cliSet] makes on each entry of [value_table]. *)
Definition var_matches (cmdline : string) (val : clivalue_t) : bool :=
  strncasecmp cmdline (var_name val) (strlen (var_name val)) =? 0.

(** The order [bsearch] relies on, seen from one key: once an entry
    compares as not greater than the key, every later entry compares as
    smaller. *)
Definition key_sorted {A : Type} (compar : A -> Z) (a b : A) : Prop :=
  compar a <= 0 -> compar b < 0.

(** The invariant of the line state. *)
Record wf (st : state) : Prop := {
  wf_buf : length (cl_buf st) = 64%nat;
  wf_count : 0 <= cl_count st <= CL_BUF_SIZE;
  wf_disabled : cl_enabled st = 0 -> cl_count st = 0
}.

(** A computation that changes neither the line state nor the output
    port. *)
Definition keeps_line {A : Type} (m : M A) : Prop :=
  forall st a st',
    m st = Ok (a, st') ->
    cl_buf st' = cl_buf st /\ cl_count st' = cl_count st
    /\ cl_enabled st' = cl_enabled st /\ cl_out st' = cl_out st.

(** Modelled from the spec: [atoi_decimal] of util.c, which is not among
    the sources; the leading decimal digits of the text, read as an
    unsigned number, the scan stopping at the first other character. *)
Fixpoint atoi_digits (s : string) (acc : Z) : Z :=
  match s with
  | EmptyString => acc
  | String c t =>
      if (code "0"%char <=? code c) && (code c <=? code "9"%char)
      then atoi_digits t (acc * 10 + (code c - code "0"%char))
      else acc
  end.

(** A board to run the program on. *)
Definition demo_board : Platform := {|
  BOARD_REV := "7";
  CFG_VERSION := 3;
  EERR_OK := 0;
  EERR_TIMEOUT := -1;
  EERR_NACK := -2;
  EERR_FAULT := -3;
  S2ST := fun s => s * 1000;
  system_frequency := 72000000;
  atoi_decimal := fun s => atoi_digits s 0;
  eeprom_write_cfg := fun _ _ => 0;
  uptime_format := fun _ => "0 days"%string
|}.

Definition demo_cfg : cfg_t :=
  {| version := 3; gps_baud_rate := 0; ip_addr := 0; ip_gateway := 0;
     ip_netmask := 0; cfg_rest := [] |}.

(** The state once Enter has been pressed on a fresh console. *)
Definition demo_prompt : state :=
  {| cl_enabled := 1; cl_out := 0;
     cl_buf := CR :: replicate 63 NUL; fmt_buf := replicate 64 NUL;
     cl_count := 0; cfg := demo_cfg;
     trace := [Ev_serial_puts 0 (crlf +:+ "# ")] |}.

(** The characters held in the line buffer, as the search sees them once
    the sentinel is in place. *)
Definition held_line (st : state) : string :=
  cut (take (Z.to_nat (cl_count st)) (cl_buf st)).

Definition eerr_distinct `{Platform} : Prop :=
  EERR_NACK <> EERR_TIMEOUT
  /\ EERR_FAULT <> EERR_TIMEOUT /\ EERR_FAULT <> EERR_NACK
  /\ EERR_OK <> EERR_TIMEOUT /\ EERR_OK <> EERR_NACK
  /\ EERR_OK <> EERR_FAULT.

(** A line in progress: [hi] typed at the prompt. *)
Definition demo_typed : state :=
  {| cl_enabled := 1; cl_out := 0;
     cl_buf := "h"%char :: "i"%char :: replicate 62 NUL;
     fmt_buf := replicate 64 NUL;
     cl_count := 2; cfg := demo_cfg;
     trace := [Ev_serial_puts 0 (crlf +:+ "# "); Ev_serial_putc 0 "h";
               Ev_serial_putc 0 "i"] |}.

(** The line [set gps_baud_rate=9600], held and terminated. *)
Definition demo_set_line : state :=
  {| cl_enabled := 1; cl_out := 0;
     cl_buf := list_ascii_of_string "set gps_baud_rate=9600"
               ++ replicate 42 NUL;
     fmt_buf := replicate 64 NUL;
     cl_count := 22; cfg := demo_cfg; trace := [] |}.

Definition demo_long_text : string :=
  "0123456789012345678901234567890123456789012345678901234567890123456789".

(** What [cliSetVar] leaves in the configuration record. *)
Definition var_store `{Platform} (var : clivalue_t) (str : string)
    (c : cfg_t) : cfg_t :=
  match var_type var with
  | VAR_UINT32 => store_u32 (var_ptr var) (atoi_decimal str mod 2 ^ 32) c
  | VAR_BOOL =>
      store_u8 (var_ptr var) (if atoi_decimal str =? 0 then 0 else 1) c
  | VAR_IP4 => c
  end.

(** The three writes [cliSet] makes for one variable of the listing. *)
Definition listing_line (port : serial_t) (c : cfg_t) (val : clivalue_t)
  : list event :=
  [Ev_serial_puts port (var_name val +:+ " = ");
   Ev_serial_puts port (var_text val c);
   Ev_serial_puts port crlf].

(** The state after one printable byte has been taken in. *)
Definition type_char (st : state) (c : ascii) : state :=
  emit (Ev_serial_putc (cl_out st) c)
    (set_cl_count (cl_count st + 1)
       (set_cl_buf (<[Z.to_nat (cl_count st) := c]> (cl_buf st))
          (set_cl_enabled 1 st))).

(** What [cliHelp] sends. *)
Definition help_listing (port : serial_t) : list event :=
  Ev_serial_puts port ("Available commands:" +:+ crlf)
  :: map (fun c => Ev_serial_puts port
                     (name c +:+ String TAB (param c) +:+ crlf))
       cmd_table.

(** The commands by name, each with the handler its entry of [cmd_table]
    points at. *)
Definition named_handlers `{Platform} : list (string * (nat -> M unit)) :=
  [("defaults"%string, cliDefaults); ("exit"%string, cliExit);
   ("help"%string, cliHelp); ("info"%string, cliInfo);
   ("save"%string, cliSave); ("set"%string, cliSet);
   ("uptime"%string, cliUptime); ("version"%string, cliVersion)].

(** ** Definitions used by the further properties *)

(** The last cell of the line buffer holds NUL. *)
Definition last_clear (st : state) : Prop :=
  cl_buf st !! 63%nat = Some NUL.

(** No run of bytes between two line ends is longer than the buffer can
    take: [room] more bytes may come before the next line end, and 63
    after each line end. *)
Fixpoint short_lines (room : nat) (bytes : list ascii) : Prop :=
  match bytes with
  | [] => True
  | c :: rest =>
      if Ascii.eqb c CR || Ascii.eqb c LF then short_lines 63 rest
      else match room with
           | O => False
           | S r => short_lines r rest
           end
  end.

Definition serial_event (e : event) : Prop :=
  match e with
  | Ev_serial_puts _ _ | Ev_serial_putc _ _ => True
  | _ => False
  end.

(** A computation that always returns. *)
Definition returns {A : Type} (m : M A) : Prop :=
  forall st, exists a st', m st = Ok (a, st').

(** A computation whose every run relates the state before to the state
    after by [R]. *)
Definition respects (R : state -> state -> Prop) {A : Type} (m : M A)
  : Prop :=
  forall st a st', m st = Ok (a, st') -> R st st'.

(** Only serial output is added to the trace. *)
Definition serial_step (st st' : state) : Prop :=
  exists new, trace st' = trace st ++ new /\ List.Forall serial_event new.

(** The configuration record is left alone. *)
Definition cfg_step (st st' : state) : Prop := cfg st' = cfg st.

(** The handler a byte sets off: the one the search finds for the held
    line when the byte is a line end and characters are held. *)
Definition dispatched `{Platform} (c : ascii) (st : state)
  : option cmd_func :=
  if (Ascii.eqb c CR || Ascii.eqb c LF) && negb (cl_count st =? 0)
  then option_map func (bsearch (cliCompare (held_line st)) cmd_table)
  else None.

Definition exit_notice : string :=
  "Exiting cmdline mode." +:+ crlf
  +:+ "Configuration changes have not been saved." +:+ crlf
  +:+ "Press Enter to enable cmdline." +:+ crlf.

(** The characters held in the line are printable, none is a question
    mark, and the first is not a space. *)
Definition line_ok (st : state) : Prop :=
  List.Forall (fun c => 32 <= code c <= 126 /\ c <> "?"%char)
    (take (Z.to_nat (cl_count st)) (cl_buf st))
  /\ (0 < cl_count st -> cl_buf st !! O <> Some SP).

(** Every cell from the count on, the first cell apart, holds NUL. *)
Definition tail_clear (st : state) : Prop :=
  forall i : nat,
    (Z.to_nat (cl_count st) <= i)%nat -> (1 <= i)%nat ->
    (i < length (cl_buf st))%nat ->
    cl_buf st !! i = Some NUL.

(** The number a string of decimal digits denotes, continuing from
    [acc]. *)
Fixpoint decimal (s : string) (acc : Z) : Z :=
  match s with
  | EmptyString => acc
  | String c t => decimal t (acc * 10 + (code c - code "0"%char))
  end.

Fixpoint all_digits (s : string) : Prop :=
  match s with
  | EmptyString => True
  | String c t => code "0"%char <= code c <= code "9"%char /\ all_digits t
  end.

Fixpoint all_digitsb (s : string) : bool :=
  match s with
  | EmptyString => true
  | String c t =>
      (code "0"%char <=? code c) && (code c <=? code "9"%char)
      && all_digitsb t
  end.

(** An event that, when it is serial output, goes to port [p]. *)
Definition on_port (p : serial_t) (e : event) : Prop :=
  match e with
  | Ev_serial_puts q _ | Ev_serial_putc q _ => q = p
  | _ => True
  end.

(** The output port is kept and all serial output goes to it. *)
Definition port_step (st st' : state) : Prop :=
  cl_out st' = cl_out st
  /\ exists new,
       trace st' = trace st ++ new /\ List.Forall (on_port (cl_out st)) new.

(** What [cliInfo] sends before it asks for the uptime. *)
Definition info_head `{Platform} (port : serial_t) : list event :=
  [Ev_serial_puts port ("Hardware:       " +:+ BOARD_REV +:+ crlf
                        +:+ "Software:       " +:+ VERSION +:+ crlf);
   Ev_serial_puts port "MAC Address:    ";
   Ev_serial_puts port crlf;
   Ev_serial_puts port "Uptime:         "].

(** What [cliInfo] sends, when the uptime text is [up]. *)
Definition info_report `{Platform} (port : serial_t) (up : string)
  : list event :=
  info_head port
  ++ [Ev_serial_puts port up;
      Ev_serial_puts port crlf;
      Ev_serial_puts port ("System clock:   "
                           +:+ fmt_d (to_int32 system_frequency)
                           +:+ " Hz (nominal)" +:+ crlf)].

(** A text with every letter in lower case, as [strncasecmp] sees
    it. *)
Definition folded (s : string) : list Z :=
  map tolower (list_ascii_of_string s).

(** The line [set gps_baud_rate], held and terminated: no [=]. *)
Definition demo_noeq_line : state :=
  {| cl_enabled := 1; cl_out := 0;
     cl_buf := list_ascii_of_string "set gps_baud_rate"
               ++ replicate 47 NUL;
     fmt_buf := replicate 64 NUL;
     cl_count := 17; cfg := demo_cfg; trace := [] |}.

(** A reset request stands in the list only behind an EEPROM write that
    answered [EERR_OK]. *)
Definition reset_after_write `{Platform} (new : list event) : Prop :=
  forall pre v post,
    new = pre ++ Ev_AIRCR v :: post ->
    exists img, In (Ev_eeprom_write_cfg img EERR_OK) pre.

(** The line [save], held at the prompt. *)
Definition demo_save_line : state :=
  {| cl_enabled := 1; cl_out := 0;
     cl_buf := list_ascii_of_string "save" ++ replicate 60 NUL;
     fmt_buf := replicate 64 NUL;
     cl_count := 4; cfg := demo_cfg; trace := [] |}.

(** * Properties *)

(** ** The C library models *)

Section LibcFacts.

Lemma cstr_at_app_nul (l r : list ascii) :
  cstr_at (l ++ NUL :: r) = Some (cut l).
Proof.
  induction l as [|c l IH]; simpl; [reflexivity|].
  destruct (Ascii.eqb c NUL); [reflexivity|].
  rewrite IH. reflexivity.
Qed.

Lemma cut_length (l : list ascii) :
  (String.length (cut l) <= length l)%nat.
Proof.
  induction l as [|c l IH]; simpl; [lia|].
  destruct (Ascii.eqb c NUL); simpl; lia.
Qed.

Lemma cut_nul_free (l : list ascii) : nul_free (cut l).
Proof.
  induction l as [|c l IH]; simpl; [exact I|].
  destruct (Ascii.eqb c NUL) eqn:E; simpl; [exact I|].
  split; [|exact IH]. apply Ascii.eqb_neq. exact E.
Qed.

Lemma cut_take_nul_free (s : string) (n : nat) :
  nul_free s -> (String.length s <= n)%nat ->
  cut (take n (list_ascii_of_string s)) = s.
Proof.
  revert n. induction s as [|c s IH]; intros n Hs Hn.
  - destruct n; reflexivity.
  - destruct n as [|n]; simpl in Hn; [lia|].
    destruct Hs as [Hc Hs]. simpl.
    apply Ascii.eqb_neq in Hc. rewrite Hc.
    f_equal. apply IH; [exact Hs | lia].
Qed.

Lemma cstr_at_nul_free (mem : list ascii) (s : string) :
  cstr_at mem = Some s -> nul_free s.
Proof.
  revert s. induction mem as [|c mem IH]; intros s; simpl; [discriminate|].
  destruct (Ascii.eqb c NUL) eqn:E.
  - intros [= <-]. exact I.
  - destruct (cstr_at mem) as [t|]; simpl; [|discriminate].
    intros [= <-].
    split; [apply Ascii.eqb_neq; exact E | apply IH; reflexivity].
Qed.

Lemma nul_free_strlen (s : string) :
  nul_free s -> strlen s = String.length s.
Proof.
  induction s as [|c s IH]; simpl; [reflexivity|].
  intros [Hc Hs]. apply Ascii.eqb_neq in Hc. rewrite Hc, IH; auto.
Qed.

Lemma nul_free_app (s t : string) :
  nul_free s -> nul_free t -> nul_free (s +:+ t).
Proof.
  induction s as [|c s IH]; simpl; [auto|].
  intros [Hc Hs] Ht. split; auto.
Qed.

Lemma length_app_str (s t : string) :
  String.length (s +:+ t) = (String.length s + String.length t)%nat.
Proof.
  induction s as [|c s IH]; simpl; [reflexivity|]. rewrite IH. reflexivity.
Qed.

Lemma digit_not_nul (d : Z) : digit d <> NUL.
Proof.
  unfold digit. repeat case_match; discriminate.
Qed.

Lemma utoa_nul_free (r : nat) (v : Z) (acc : string) :
  nul_free acc -> nul_free (utoa r v acc).
Proof.
  revert v acc. induction r as [|r IH]; intros v acc Hacc; simpl; [exact Hacc|].
  assert (nul_free (String (digit (v mod 10)) acc))
    by (split; [apply digit_not_nul | exact Hacc]).
  destruct (v / 10 =? 0); [assumption | apply IH; assumption].
Qed.

Lemma utoa_length (r : nat) (v : Z) (acc : string) :
  (String.length (utoa r v acc) <= r + String.length acc)%nat.
Proof.
  revert v acc. induction r as [|r IH]; intros v acc; simpl; [lia|].
  destruct (v / 10 =? 0); simpl; [lia|].
  etransitivity; [apply IH|]. simpl. lia.
Qed.

(** Ten rounds lose no digit of a value below [10 ^ 10]: more rounds
    give the same text. *)
Lemma utoa_rounds (r k : nat) (v : Z) (acc : string) :
  0 <= v < 10 ^ Z.of_nat (S r) ->
  utoa (S r + k) v acc = utoa (S r) v acc.
Proof.
  revert v acc. induction r as [|r IH]; intros v acc Hv.
  - cbn [Nat.add utoa].
    replace (v / 10 =? 0) with true; [reflexivity|].
    symmetry. apply Z.eqb_eq. apply Z.div_small.
    change (10 ^ Z.of_nat 1) with 10 in Hv. lia.
  - change (S (S r) + k)%nat with (S (S r + k)). cbn [utoa].
    destruct (v / 10 =? 0); [reflexivity|].
    apply IH. rewrite Nat2Z.inj_succ, Z.pow_succ_r in Hv by lia.
    split; [apply Z.div_pos; lia|].
    apply Z.div_lt_upper_bound; lia.
Qed.

Lemma fmt_u_rounds (k : nat) (v : Z) :
  utoa (10 + k) (v mod 2 ^ 32) EmptyString = fmt_u v.
Proof.
  unfold fmt_u. apply (utoa_rounds 9 k).
  pose proof (Z.mod_pos_bound v (2 ^ 32) ltac:(lia)).
  change (10 ^ Z.of_nat 10) with 10000000000.
  change (2 ^ 32) with 4294967296 in *. lia.
Qed.

Example fmt_u_9600 : fmt_u 9600 = "9600"%string.
Proof. reflexivity. Qed.

Example fmt_u_wraps : fmt_u (2 ^ 32 + 7) = "7"%string.
Proof. reflexivity. Qed.

Example fmt_d_octet : fmt_d 255 = "255"%string.
Proof. reflexivity. Qed.

Example fmt_d_negative : fmt_d (-12) = "-12"%string.
Proof. reflexivity. Qed.

Example strncasecmp_case : strncasecmp "HeLp me" "help" 4 = 0.
Proof. reflexivity. Qed.

Example strncasecmp_short : strncasecmp "h" "help" 4 = -101.
Proof. reflexivity. Qed.

Example strstr_first : strstr "a=b=c" "=" = Some "=b=c"%string.
Proof. reflexivity. Qed.

Lemma fmt_u_nul_free (v : Z) : nul_free (fmt_u v).
Proof. apply utoa_nul_free. exact I. Qed.

Lemma fmt_u_length (v : Z) : (String.length (fmt_u v) <= 10)%nat.
Proof.
  unfold fmt_u. etransitivity; [apply utoa_length|]. simpl. lia.
Qed.

Lemma fmt_d_nul_free (v : Z) : nul_free (fmt_d v).
Proof.
  unfold fmt_d. destruct (to_int32 v <? 0).
  - split; [discriminate | apply utoa_nul_free; exact I].
  - apply utoa_nul_free. exact I.
Qed.

Lemma fmt_d_length (v : Z) : (String.length (fmt_d v) <= 11)%nat.
Proof.
  unfold fmt_d. destruct (to_int32 v <? 0); simpl.
  - pose proof (utoa_length 10 (- to_int32 v) EmptyString). simpl in *. lia.
  - pose proof (utoa_length 10 (to_int32 v) EmptyString). simpl in *. lia.
Qed.

(** *** Binary search *)

Context {A : Type} (compar : A -> Z).

Lemma bsearch_loop_sound (base : list A) (fuel lower upper : nat) (e : A) :
  bsearch_loop fuel compar base lower upper = Some e ->
  In e base /\ compar e = 0.
Proof.
  revert lower upper.
  induction fuel as [|fuel IH]; intros lower upper; cbn [bsearch_loop]; [done|].
  destruct (lower <? upper)%nat; [|done].
  destruct (nth_error base ((lower + upper) / 2)) as [current|] eqn:Hn;
    [|done].
  destruct (compar current <? 0) eqn:Hlt; [apply IH|].
  destruct (0 <? compar current) eqn:Hgt; [apply IH|].
  intros [= <-]. split; [eapply nth_error_In; eassumption | lia].
Qed.

Lemma bsearch_loop_fuel (base : list A) (f1 f2 lower upper : nat) :
  (upper - lower < f1)%nat -> (upper - lower < f2)%nat ->
  bsearch_loop f1 compar base lower upper
  = bsearch_loop f2 compar base lower upper.
Proof.
  revert f2 lower upper.
  induction f1 as [|f1 IH]; intros f2 lower upper H1 H2; [lia|].
  destruct f2 as [|f2]; [lia|]. cbn [bsearch_loop].
  destruct (lower <? upper)%nat eqn:Hlu; [|reflexivity].
  apply Nat.ltb_lt in Hlu.
  assert (lower <= (lower + upper) / 2 < upper)%nat as Hmid.
  { split.
    - apply Nat.div_le_lower_bound; lia.
    - apply Nat.Div0.div_lt_upper_bound; lia. }
  destruct (nth_error base ((lower + upper) / 2)) as [current|];
    [|reflexivity].
  destruct (compar current <? 0); [apply IH; lia|].
  destruct (0 <? compar current); [apply IH; lia | reflexivity].
Qed.

Lemma sorted_nth (base : list A) (i j : nat) (a b : A) :
  StronglySorted (key_sorted compar) base ->
  (i < j)%nat -> nth_error base i = Some a -> nth_error base j = Some b ->
  key_sorted compar a b.
Proof.
  intros Hs. revert i j.
  induction Hs as [|x l Hs IH Hall]; intros i j Hij Hi Hj.
  - destruct i; discriminate.
  - destruct j as [|j]; [lia|]. simpl in Hj.
    destruct i as [|i]; simpl in Hi.
    + injection Hi as <-.
      rewrite List.Forall_forall in Hall. apply Hall.
      eapply nth_error_In; eassumption.
    + apply (IH i j); [lia | assumption | assumption].
Qed.

Lemma bsearch_loop_complete (base : list A) (t : nat) (e : A) :
  StronglySorted (key_sorted compar) base ->
  nth_error base t = Some e -> compar e = 0 ->
  forall fuel lower upper,
    (lower <= t < upper)%nat -> (upper <= length base)%nat ->
    (upper - lower < fuel)%nat ->
    bsearch_loop fuel compar base lower upper = Some e.
Proof.
  intros Hs Ht He.
  induction fuel as [|fuel IH]; intros lower upper Hlt Hub Hf; [lia|].
  cbn [bsearch_loop].
  destruct (lower <? upper)%nat eqn:Hlu; [|apply Nat.ltb_ge in Hlu; lia].
  set (index := ((lower + upper) / 2)%nat).
  assert (lower <= index < upper)%nat as Hmid.
  { split.
    - apply Nat.div_le_lower_bound; lia.
    - apply Nat.Div0.div_lt_upper_bound; lia. }
  destruct (nth_error base index) as [current|] eqn:Hn.
  2:{ apply nth_error_None in Hn. lia. }
  destruct (Nat.lt_trichotomy index t) as [Hc|[Hc|Hc]].
  - (* the target lies to the right *)
    pose proof (sorted_nth base index t current e Hs Hc Hn Ht) as Hk.
    unfold key_sorted in Hk.
    destruct (compar current <? 0) eqn:H1; [lia|].
    destruct (0 <? compar current) eqn:H2; [apply IH; lia | lia].
  - subst t. rewrite Hn in Ht. injection Ht as ->.
    rewrite He. reflexivity.
  - (* the target lies to the left *)
    pose proof (sorted_nth base t index e current Hs Hc Ht Hn) as Hk.
    unfold key_sorted in Hk.
    destruct (compar current <? 0) eqn:H1; [apply IH; lia|].
    destruct (0 <? compar current) eqn:H2; lia.
Qed.

Lemma bsearch_complete (base : list A) (e : A) :
  StronglySorted (key_sorted compar) base ->
  In e base -> compar e = 0 ->
  bsearch compar base = Some e.
Proof.
  intros Hs Hin He.
  apply In_nth_error in Hin as [t Ht].
  assert (t < length base)%nat
    by (apply nth_error_Some; rewrite Ht; discriminate).
  unfold bsearch.
  apply (bsearch_loop_complete base t e Hs Ht He); lia.
Qed.

Lemma bsearch_sound (base : list A) (e : A) :
  bsearch compar base = Some e -> In e base /\ compar e = 0.
Proof. apply bsearch_loop_sound. Qed.

End LibcFacts.

(** ** The command table and its search *)

Section CommandTable.

Lemma tolower_nul (c : ascii) : code c = 0 -> tolower c = 0.
Proof. unfold tolower. intros ->. reflexivity. Qed.

Lemma strncasecmp_first (key a b : string) (na nb : nat) :
  tolower (hd_char a) < tolower (hd_char b) ->
  strncasecmp key a (S na) <= 0 -> strncasecmp key b (S nb) < 0.
Proof.
  intros Hab. cbn [strncasecmp].
  destruct (tolower (hd_char key) - tolower (hd_char a) =? 0) eqn:Ea;
    destruct (tolower (hd_char key) - tolower (hd_char b) =? 0) eqn:Eb;
    lia.
Qed.

Lemma strncasecmp_second (key a b : string) (c : ascii) (na nb : nat) :
  tolower c <> 0 ->
  tolower (hd_char a) < tolower (hd_char b) ->
  strncasecmp key (String c a) (S (S na)) <= 0 ->
  strncasecmp key (String c b) (S (S nb)) < 0.
Proof.
  intros Hc Hab.
  change (strncasecmp key (String c a) (S (S na)))
    with (if tolower (hd_char key) - tolower c =? 0
          then if code (hd_char key) =? 0 then 0
               else strncasecmp (tl_str key) a (S na)
          else tolower (hd_char key) - tolower c).
  change (strncasecmp key (String c b) (S (S nb)))
    with (if tolower (hd_char key) - tolower c =? 0
          then if code (hd_char key) =? 0 then 0
               else strncasecmp (tl_str key) b (S nb)
          else tolower (hd_char key) - tolower c).
  destruct (tolower (hd_char key) - tolower c =? 0) eqn:E0; [|lia].
  destruct (code (hd_char key) =? 0) eqn:Ek.
  - apply Z.eqb_eq in Ek. apply tolower_nul in Ek. lia.
  - apply strncasecmp_first. exact Hab.
Qed.

Lemma key_sorted_first (key : string) (a b : clicmd_t) :
  tolower (hd_char (name a)) < tolower (hd_char (name b)) ->
  strlen (name a) <> O -> strlen (name b) <> O ->
  key_sorted (cliCompare key) a b.
Proof.
  unfold key_sorted, cliCompare. intros Hab Ha Hb.
  destruct (strlen (name a)) as [|na]; [done|].
  destruct (strlen (name b)) as [|nb]; [done|].
  apply strncasecmp_first. exact Hab.
Qed.

Lemma key_sorted_second (key : string) (a b : clicmd_t) :
  hd_char (name a) = hd_char (name b) ->
  tolower (hd_char (name a)) <> 0 ->
  tolower (hd_char (tl_str (name a)))
  < tolower (hd_char (tl_str (name b))) ->
  (2 <= strlen (name a))%nat -> (2 <= strlen (name b))%nat ->
  key_sorted (cliCompare key) a b.
Proof.
  unfold key_sorted, cliCompare.
  destruct a as [[|ca ta] pa fa]; destruct b as [[|cb tb] pb fb];
    cbn [name hd_char tl_str]; intros Hhd Hc Hab Ha Hb;
    try (cbn in Ha, Hb; lia).
  subst cb.
  destruct (strlen (String ca ta)) as [|[|na]]; [lia|lia|].
  destruct (strlen (String ca tb)) as [|[|nb]]; [lia|lia|].
  apply strncasecmp_second; assumption.
Qed.

(** The table is sorted for the comparison [bsearch] makes, whatever the
    key. *)
Lemma cmd_table_sorted (key : string) :
  StronglySorted (key_sorted (cliCompare key)) cmd_table.
Proof.
  unfold cmd_table.
  repeat first
    [ apply SSorted_nil
    | apply SSorted_cons
    | apply List.Forall_nil
    | apply List.Forall_cons ];
  first
    [ apply key_sorted_first; vm_compute; done
    | apply key_sorted_second; vm_compute; first [done | lia] ].
Qed.

(** The search finds an entry exactly when the line matches that
    entry's name over the length of the name. *)
Lemma cmd_lookup_iff (key : string) (cmd : clicmd_t) :
  bsearch (cliCompare key) cmd_table = Some cmd
  <-> In cmd cmd_table /\ cliCompare key cmd = 0.
Proof.
  split.
  - apply bsearch_sound.
  - intros [Hin Hz]. apply bsearch_complete; auto using cmd_table_sorted.
Qed.

Lemma cmd_lookup_none (key : string) :
  bsearch (cliCompare key) cmd_table = None
  <-> forall cmd, In cmd cmd_table -> cliCompare key cmd <> 0.
Proof.
  split.
  - intros Hn cmd Hin Hz.
    assert (bsearch (cliCompare key) cmd_table = Some cmd) as Hs
      by (apply cmd_lookup_iff; auto).
    congruence.
  - intros Hall.
    destruct (bsearch (cliCompare key) cmd_table) as [cmd|] eqn:E;
      [|reflexivity].
    apply cmd_lookup_iff in E as [Hin Hz]. exfalso. eapply Hall; eauto.
Qed.

Lemma cmd_lookup_exact (cmd : clicmd_t) :
  In cmd cmd_table ->
  bsearch (cliCompare (name cmd)) cmd_table = Some cmd.
Proof.
  intros Hin. apply cmd_lookup_iff. split; [exact Hin|].
  unfold cmd_table in Hin. simpl in Hin.
  repeat (destruct Hin as [<-|Hin]; [vm_compute; reflexivity|]).
  destruct Hin.
Qed.

End CommandTable.

(** ** The monad and the handlers *)

Section ProgramFacts.

Context `{Platform}.

Lemma uart_printf_eq (text : string) (st : state) :
  uart_printf text st
  = Ok (tt, emit (Ev_serial_puts (cl_out st) (printf_text text))
              (set_fmt_buf (vsnprintf (fmt_buf st) FMT_BUF_SIZE text) st)).
Proof.
  unfold uart_printf, bind, modify, get, serial_puts.
  cbn [fmt_buf set_fmt_buf].
  unfold vsnprintf, FMT_BUF_SIZE. rewrite cstr_at_app_nul.
  reflexivity.
Qed.

Lemma printf_text_length (text : string) :
  (String.length (printf_text text) <= 63)%nat.
Proof.
  unfold printf_text. etransitivity; [apply cut_length|].
  rewrite length_take. unfold FMT_BUF_SIZE. lia.
Qed.

Lemma printf_text_short (text : string) :
  nul_free text -> (String.length text <= 63)%nat ->
  printf_text text = text.
Proof. intros Hn Hl. apply cut_take_nul_free; assumption. Qed.

Lemma cliPrintVar_eq (var : clivalue_t) (full : Z) (st : state) :
  cliPrintVar var full st = uart_printf (var_text var (cfg st)) st.
Proof.
  unfold cliPrintVar, var_text, bind, get.
  destruct (var_type var); reflexivity.
Qed.

(** *** Computations that leave the line state alone *)

Lemma keeps_line_ret {A : Type} (a : A) : keeps_line (ret a).
Proof. intros st a' st' [= _ <-]. auto. Qed.

Lemma keeps_line_get : keeps_line get.
Proof. intros st a' st' [= _ <-]. auto. Qed.

Lemma keeps_line_raise {A : Type} (f : fault) : keeps_line (@raise A f).
Proof. intros st a st' [=]. Qed.

Lemma keeps_line_bind {A B : Type} (m : M A) (k : A -> M B) :
  keeps_line m -> (forall a, keeps_line (k a)) -> keeps_line (bind m k).
Proof.
  intros Hm Hk st b st'. unfold bind.
  destruct (m st) as [[a st1]|f] eqn:E; [|done].
  intros Hb. apply Hm in E. apply Hk in Hb.
  destruct E as (? & ? & ? & ?), Hb as (? & ? & ? & ?).
  repeat split; congruence.
Qed.

Lemma keeps_line_modify (f : state -> state) :
  (forall st, cl_buf (f st) = cl_buf st /\ cl_count (f st) = cl_count st
              /\ cl_enabled (f st) = cl_enabled st
              /\ cl_out (f st) = cl_out st) ->
  keeps_line (modify f).
Proof. intros Hf st a st' [= _ <-]. apply Hf. Qed.

Lemma keeps_line_buf_cstr (off : nat) : keeps_line (buf_cstr off).
Proof.
  intros st a st'. unfold buf_cstr.
  destruct (cstr_at _); [|done]. intros [= _ <-]. auto.
Qed.

Lemma keeps_line_serial_puts (s : string) : keeps_line (serial_puts s).
Proof. apply keeps_line_modify. intros st. cbn. auto. Qed.

Lemma keeps_line_uart_printf (text : string) :
  keeps_line (uart_printf text).
Proof.
  intros st a st'. rewrite uart_printf_eq. intros [= _ <-]. cbn. auto.
Qed.

Lemma keeps_line_eeprom : keeps_line call_eeprom_write_cfg.
Proof. intros st a st' [= _ <-]. cbn. auto. Qed.

Ltac keeps :=
  repeat first
    [ apply keeps_line_ret
    | apply keeps_line_get
    | apply keeps_line_raise
    | apply keeps_line_serial_puts
    | apply keeps_line_uart_printf
    | apply keeps_line_buf_cstr
    | apply keeps_line_eeprom
    | apply keeps_line_bind; [|intros ?]
    | apply keeps_line_modify; intros ?; cbn; tauto
    | match goal with
      | |- keeps_line (if ?b then _ else _) => destruct b
      | |- keeps_line (match ?x with _ => _ end) => destruct x
      end ].

Lemma keeps_line_cliPrintVar (var : clivalue_t) (full : Z) :
  keeps_line (cliPrintVar var full).
Proof. unfold cliPrintVar. keeps. Qed.

Lemma keeps_line_cliSetVar (var : clivalue_t) (str : string) :
  keeps_line (cliSetVar var str).
Proof. unfold cliSetVar. keeps. Qed.

Lemma keeps_line_cliWriteConfig : keeps_line cliWriteConfig.
Proof.
  unfold cliWriteConfig, uartPrint, CoTickDelay, write_AIRCR. keeps.
Qed.

Lemma keeps_line_cliHelp (cmdline : nat) : keeps_line (cliHelp cmdline).
Proof.
  unfold cliHelp, uartPrint. keeps.
Qed.

Lemma keeps_line_cliSet_list (tbl : list clivalue_t) (len : Z) :
  keeps_line (cliSet_list tbl len).
Proof.
  induction tbl as [|v tbl IH]; cbn [cliSet_list]; unfold uartPrint; keeps;
    auto using keeps_line_cliPrintVar.
Qed.

Lemma keeps_line_cliSet_assign (tbl : list clivalue_t) (a b : string) :
  keeps_line (cliSet_assign tbl a b).
Proof.
  induction tbl as [|v tbl IH]; cbn [cliSet_assign]; unfold uartPrint;
    keeps; auto using keeps_line_cliSetVar, keeps_line_cliPrintVar.
Qed.

Lemma keeps_line_cliSet (cmdline : nat) : keeps_line (cliSet cmdline).
Proof.
  unfold cliSet, uartPrint. keeps;
    auto using keeps_line_cliSet_list, keeps_line_cliSet_assign.
Qed.

Lemma keeps_line_call_func (f : cmd_func) (cmdline : nat) :
  f <> F_cliExit -> keeps_line (call_func f cmdline).
Proof.
  destruct f; intros Hf; cbn [call_func]; try done.
  - unfold cliDefaults. keeps; auto using keeps_line_cliWriteConfig.
  - apply keeps_line_cliHelp.
  - unfold cliInfo, cliVersion, cli_print_hwaddr, cliUptime, uartPrint.
    keeps.
  - apply keeps_line_cliWriteConfig.
  - apply keeps_line_cliSet.
  - unfold cliUptime, uartPrint. keeps.
  - unfold cliVersion, uartPrint. keeps.
Qed.

Lemma cliExit_eq (cmdline : nat) (st : state) :
  cliExit cmdline st
  = Ok (tt, emit (Ev_serial_puts (cl_out st)
                    ("Exiting cmdline mode." +:+ crlf
                     +:+ "Configuration changes have not been saved."
                     +:+ crlf
                     +:+ "Press Enter to enable cmdline." +:+ crlf))
              (set_cl_enabled 0 (set_cl_count 0 st))).
Proof. reflexivity. Qed.


(** *** Characters *)

Lemma eqb_code (c d : ascii) : Ascii.eqb c d = true -> code c = code d.
Proof. intros E. apply Ascii.eqb_eq in E. subst. reflexivity. Qed.

Lemma code_range (c : ascii) : 0 <= code c < 256.
Proof.
  unfold code. pose proof (N_ascii_bounded c). lia.
Qed.

Lemma printable_not_control (c : ascii) :
  32 <= code c <= 126 ->
  Ascii.eqb c TAB = false /\ Ascii.eqb c EOT = false
  /\ Ascii.eqb c FF = false /\ Ascii.eqb c LF = false
  /\ Ascii.eqb c CR = false /\ Ascii.eqb c BS = false
  /\ Ascii.eqb c DEL = false /\ Ascii.eqb c NUL = false.
Proof.
  intros Hc.
  repeat split;
    (destruct (Ascii.eqb c _) eqn:E; [|reflexivity];
     apply Ascii.eqb_eq in E; subst c;
     unfold code, TAB, EOT, FF, LF, CR, BS, DEL, NUL in Hc;
     simpl in Hc; lia).
Qed.

(** *** The monad *)

Lemma bind_ok_inv {A B : Type} (m : M A) (k : A -> M B)
    (st st' : state) (b : B) :
  bind m k st = Ok (b, st') ->
  exists a st1, m st = Ok (a, st1) /\ k a st1 = Ok (b, st').
Proof.
  unfold bind. destruct (m st) as [[a st1]|f]; [|done].
  intros Hk. exists a, st1. auto.
Qed.

(** *** The branches of [cli_feed] *)

(** A disabled console drops everything but a line end. *)
Lemma cli_feed_disabled (c : ascii) (st : state) :
  cl_enabled st = 0 -> c <> CR -> c <> LF ->
  cli_feed c st = Ok (tt, st).
Proof.
  intros He Hcr Hlf. unfold cli_feed. rewrite He.
  apply Ascii.eqb_neq in Hcr, Hlf. rewrite Hcr, Hlf. reflexivity.
Qed.

Lemma cli_feed_all_disabled (bytes : list ascii) (st : state) :
  cl_enabled st = 0 ->
  List.Forall (fun c => c <> CR /\ c <> LF) bytes ->
  cli_feed_all bytes st = Ok (tt, st).
Proof.
  intros He Hall. induction Hall as [|c bytes [Hcr Hlf] _ IH];
    cbn [cli_feed_all]; [reflexivity|].
  unfold bind. rewrite cli_feed_disabled by assumption. exact IH.
Qed.

(** A printable byte, with room left: stored and echoed. *)
Lemma cli_feed_printable (c : ascii) (st : state) :
  32 <= code c <= 126 -> c <> "?"%char ->
  0 <= cl_count st < CL_BUF_SIZE ->
  cl_enabled st <> 0 ->
  ~ (cl_count st = 0 /\ c = SP) ->
  cli_feed c st
  = Ok (tt, emit (Ev_serial_putc (cl_out st) c)
              (set_cl_count (cl_count st + 1)
                 (set_cl_buf (<[Z.to_nat (cl_count st) := c]> (cl_buf st))
                    (set_cl_enabled 1 st)))).
Proof.
  intros Hc Hq Hn He Hsp. unfold cli_feed, CL_BUF_SIZE in *.
  destruct (printable_not_control c Hc)
    as (Htab & Heot & Hff & Hlf & Hcr & Hbs & Hdel & _).
  apply Z.eqb_neq in He. apply Ascii.eqb_neq in Hq.
  rewrite He, Htab, Hq. cbn [andb orb negb].
  unfold bind, modify, get.
  cbn [cl_count set_cl_enabled cl_enabled cl_out cl_buf].
  rewrite Heot, Hff, Hlf, Hcr, Hbs, Hdel, andb_false_r. cbn [orb].
  replace (cl_count st <? 64) with true by lia.
  replace (32 <=? code c) with true by lia.
  replace (code c <=? 126) with true by lia.
  cbn [andb].
  assert ((cl_count st =? 0) && (code c =? 32) = false) as ->.
  { apply andb_false_iff.
    destruct (cl_count st =? 0) eqn:E0; [|auto]. right.
    apply Z.eqb_neq. intros E. apply Hsp. split; [lia|].
    unfold code in E. 
    apply (f_equal Z.to_N) in E. rewrite N2Z.id in E.
    apply (f_equal ascii_of_N) in E. rewrite ascii_N_embedding in E.
    exact E. }
  unfold buf_store, CL_BUF_SIZE, serial_putc, modify.
  cbn [cl_count set_cl_enabled cl_enabled cl_out cl_buf].
  replace ((0 <=? cl_count st) && (cl_count st <? 64)) with true by lia.
  cbn [set_cl_buf set_cl_count cl_out cl_buf cl_count emit].
  rewrite Z.mod_small by lia. reflexivity.
Qed.

Lemma set_cl_enabled_id (st : state) (v : Z) :
  cl_enabled st = v -> set_cl_enabled v st = st.
Proof. destruct st. cbn. intros <-. reflexivity. Qed.

(** A printable byte on a full buffer: dropped. *)
Lemma cli_feed_full (c : ascii) (st : state) :
  32 <= code c <= 126 -> CL_BUF_SIZE <= cl_count st ->
  cl_enabled st <> 0 ->
  cli_feed c st = Ok (tt, set_cl_enabled 1 st).
Proof.
  intros Hc Hn He. unfold cli_feed, CL_BUF_SIZE in *.
  destruct (printable_not_control c Hc)
    as (Htab & Heot & Hff & Hlf & Hcr & Hbs & Hdel & _).
  apply Z.eqb_neq in He. rewrite He. cbn [andb].
  unfold bind, modify, get.
  cbn [cl_count set_cl_enabled cl_enabled cl_out cl_buf].
  rewrite Htab, Heot, Hff, Hlf, Hcr, Hbs, Hdel, andb_false_r.
  cbn [orb].
  destruct (Ascii.eqb c "?"); [reflexivity|].
  replace (cl_count st <? 64) with false by lia. reflexivity.
Qed.

(** A space on an empty buffer: dropped. *)
Lemma cli_feed_space_empty (st : state) :
  cl_count st = 0 -> cl_enabled st <> 0 ->
  cli_feed SP st = Ok (tt, set_cl_enabled 1 st).
Proof.
  intros Hn He. unfold cli_feed. apply Z.eqb_neq in He. rewrite He.
  cbn [andb]. unfold bind, modify, get.
  cbn [cl_count set_cl_enabled]. rewrite Hn. reflexivity.
Qed.

(** Backspace and DEL. *)
Lemma cli_feed_backspace (c : ascii) (st : state) :
  c = BS \/ c = DEL ->
  0 < cl_count st <= CL_BUF_SIZE -> cl_enabled st <> 0 ->
  cli_feed c st
  = Ok (tt, emit (Ev_serial_puts (cl_out st)
                    (String BS (String SP (String BS EmptyString))))
              (set_cl_buf (<[Z.to_nat (cl_count st - 1) := NUL]>
                             (cl_buf st))
                 (set_cl_count (cl_count st - 1)
                    (set_cl_enabled 1 st)))).
Proof.
  intros Hc Hn He. unfold cli_feed, CL_BUF_SIZE in *.
  apply Z.eqb_neq in He. rewrite He. cbn [andb].
  unfold bind, modify, get.
  cbn [cl_count set_cl_enabled cl_enabled cl_out cl_buf].
  replace (cl_count st =? 0) with false by lia.
  rewrite (Z.mod_small (cl_count st - 1)) by lia.
  destruct Hc as [-> | ->]; cbn [Ascii.eqb Bool.eqb TAB BS DEL EOT FF LF CR
                                 andb orb negb];
    unfold buf_store, uartPrint, serial_puts, modify, CL_BUF_SIZE;
    cbn [cl_count set_cl_count set_cl_enabled];
    replace ((0 <=? cl_count st - 1) && (cl_count st - 1 <? 64))
      with true by lia;
    reflexivity.
Qed.

Lemma cli_feed_backspace_empty (c : ascii) (st : state) :
  c = BS \/ c = DEL -> cl_count st = 0 -> cl_enabled st <> 0 ->
  cli_feed c st = Ok (tt, set_cl_enabled 1 st).
Proof.
  intros Hc Hn He. unfold cli_feed.
  apply Z.eqb_neq in He. rewrite He. cbn [andb].
  unfold bind, modify, get. cbn [cl_count set_cl_enabled]. rewrite Hn.
  destruct Hc as [-> | ->]; reflexivity.
Qed.

(** EOF on an empty buffer runs [cliExit]. *)
Lemma cli_feed_eof (st : state) :
  cl_count st = 0 -> cl_enabled st <> 0 ->
  cli_feed EOT st = cliExit O (set_cl_enabled 1 st).
Proof.
  intros Hn He. unfold cli_feed.
  apply Z.eqb_neq in He. rewrite He. cbn [andb].
  unfold bind at 1 2. unfold modify at 1, get at 1.
  cbn [cl_count set_cl_enabled]. rewrite Hn. reflexivity.
Qed.

(** A line end with characters held. *)
Lemma cli_feed_line_end (c : ascii) (st : state) :
  c = CR \/ c = LF -> cl_count st <> 0 ->
  cli_feed c st
  = (cli_feed_enter ;; cli_feed_eol c) (set_cl_enabled 1 st).
Proof.
  intros Hc Hn. unfold cli_feed.
  assert (negb (Ascii.eqb c CR) && negb (Ascii.eqb c LF) = false) as Hce
    by (destruct Hc as [-> | ->]; reflexivity).
  rewrite <- andb_assoc, Hce, andb_false_r.
  unfold bind at 1 2. unfold modify at 1, get at 1.
  cbn [cl_count set_cl_enabled].
  apply Z.eqb_neq in Hn. rewrite Hn.
  destruct Hc as [-> | ->]; reflexivity.
Qed.

(** A line end on an empty buffer. *)
Lemma cli_feed_line_end_empty (c c0 : ascii) (st : state) :
  c = CR \/ c = LF -> cl_count st = 0 ->
  cl_buf st !! O = Some c0 ->
  cli_feed c st
  = if Ascii.eqb c LF && Ascii.eqb c0 CR
    then Ok (tt, set_cl_enabled 1 st)
    else cli_feed_eol c (set_cl_enabled 1 st).
Proof.
  intros Hc Hn H0. unfold cli_feed.
  assert (negb (Ascii.eqb c CR) && negb (Ascii.eqb c LF) = false) as Hce
    by (destruct Hc as [-> | ->]; reflexivity).
  rewrite <- andb_assoc, Hce, andb_false_r.
  unfold bind at 1 2. unfold modify at 1, get at 1.
  cbn [cl_count set_cl_enabled]. rewrite Hn.
  assert (buf_load 0 (set_cl_enabled 1 st) = Ok (c0, set_cl_enabled 1 st))
    as Hl by (unfold buf_load; cbn; change (Z.to_nat 0) with O;
              rewrite H0; reflexivity).
  destruct Hc as [-> | ->];
    cbn [Ascii.eqb Bool.eqb TAB BS DEL EOT FF LF CR andb orb negb Z.eqb];
    unfold bind; rewrite ?Hl; try reflexivity.
  unfold ret. destruct (Ascii.eqb c0 CR); reflexivity.
Qed.

Lemma cstr_at_sentinel (buf : list ascii) (n : nat) :
  (n < length buf)%nat ->
  cstr_at (<[n := NUL]> buf) = Some (cut (take n buf)).
Proof.
  intros Hn. rewrite insert_take_drop by exact Hn.
  apply cstr_at_app_nul.
Qed.

(** The body of the line-end branch: echo, sentinel, search, handler,
    clearing of the buffer. *)
Lemma cli_feed_enter_eq (st : state) :
  0 <= cl_count st < CL_BUF_SIZE -> length (cl_buf st) = 64%nat ->
  cli_feed_enter st
  = (match bsearch (cliCompare (held_line st)) cmd_table with
     | Some cmd => call_func (func cmd) (strlen (name cmd) + 1)%nat
     | None => uartPrint ("ERR: Unknown command, try 'help'" +:+ crlf)
     end ;;
     modify (set_cl_buf (replicate (Z.to_nat CL_BUF_SIZE) NUL)))
      (set_cl_buf (<[Z.to_nat (cl_count st) := NUL]> (cl_buf st))
         (emit (Ev_serial_puts (cl_out st) crlf) st)).
Proof.
  intros Hn Hl. unfold cli_feed_enter, CL_BUF_SIZE in *.
  unfold bind at 1 2 3 4. unfold uartPrint at 1, serial_puts, modify at 1.
  unfold get at 1. unfold buf_store, CL_BUF_SIZE.
  cbn [cl_count emit cl_buf].
  replace ((0 <=? cl_count st) && (cl_count st <? 64)) with true by lia.
  unfold buf_cstr. cbn [cl_buf set_cl_buf]. rewrite drop_0.
  rewrite cstr_at_sentinel by lia.
  reflexivity.
Qed.

(** *** The invariant *)

Lemma wf_init (c : cfg_t) : wf (init_state c).
Proof. split; cbn; unfold CL_BUF_SIZE; first [lia | reflexivity]. Qed.

Lemma call_func_post (f : cmd_func) (off : nat) (st st' : state) :
  call_func f off st = Ok (tt, st') ->
  cl_buf st' = cl_buf st /\ cl_out st' = cl_out st
  /\ ((cl_count st' = cl_count st /\ cl_enabled st' = cl_enabled st)
      \/ (cl_count st' = 0 /\ cl_enabled st' = 0)).
Proof.
  assert (f = F_cliExit \/ f <> F_cliExit) as [->|Hf]
    by (destruct f; auto; right; discriminate).
  - cbn [call_func]. rewrite cliExit_eq. intros [= <-]. cbn. auto.
  - intros Hc. apply keeps_line_call_func in Hc; [|exact Hf].
    destruct Hc as (? & ? & ? & ?). auto.
Qed.

Lemma cli_feed_enter_post (st st' : state) :
  cli_feed_enter st = Ok (tt, st') ->
  cl_buf st' = replicate 64 NUL /\ cl_out st' = cl_out st
  /\ ((cl_count st' = cl_count st /\ cl_enabled st' = cl_enabled st)
      \/ (cl_count st' = 0 /\ cl_enabled st' = 0)).
Proof.
  unfold cli_feed_enter. intros Hrun.
  apply bind_ok_inv in Hrun as ([] & s1 & H1 & Hrun).
  injection H1 as <-.
  apply bind_ok_inv in Hrun as (s2 & s2' & H2 & Hrun).
  injection H2 as <- <-.
  apply bind_ok_inv in Hrun as ([] & s3 & H3 & Hrun).
  unfold buf_store in H3. destruct (_ && _) in H3; [|done].
  injection H3 as <-.
  apply bind_ok_inv in Hrun as (target & s4 & H4 & Hrun).
  unfold buf_cstr in H4. destruct (cstr_at _) in H4; [|done].
  injection H4 as <- <-.
  apply bind_ok_inv in Hrun as ([] & s5 & H5 & Hrun).
  injection Hrun as <-. cbn [cl_buf cl_out cl_count cl_enabled set_cl_buf].
  split; [reflexivity|].
  destruct (bsearch _ _) as [cmd|] in H5.
  - apply call_func_post in H5 as (_ & Ho & Hc). cbn in Ho, Hc. auto.
  - injection H5 as <-. cbn. auto.
Qed.

Lemma cli_feed_eol_post (c : ascii) (st st' : state) :
  cli_feed_eol c st = Ok (tt, st') ->
  length (cl_buf st) = 64%nat ->
  (cl_enabled st = 0 -> cl_count st = 0) ->
  wf st' /\ cl_count st' = 0.
Proof.
  unfold cli_feed_eol, bind, get, buf_store, cliPrompt, uartPrint,
    serial_puts, modify, ret, CL_BUF_SIZE.
  intros Hrun Hl Hd.
  destruct (cl_enabled st =? 0) eqn:He; cbn in Hrun;
    injection Hrun as <-; (split; [split|]); cbn;
    rewrite ?length_insert; unfold CL_BUF_SIZE; try lia.
Qed.

Lemma wf_set_cl_enabled (st : state) :
  wf st -> wf (set_cl_enabled 1 st).
Proof. intros [Hb Hc Hd]. split; cbn; auto. lia. Qed.

(** Every call of [cli_feed] that returns keeps the invariant. *)
Lemma wf_cli_feed (c : ascii) (st st' : state) :
  wf st -> cli_feed c st = Ok (tt, st') -> wf st'.
Proof.
  intros Hwf. pose proof Hwf as [Hb Hc Hd]. unfold CL_BUF_SIZE in Hc.
  pose proof (wf_set_cl_enabled st Hwf) as Hwf1.
  unfold cli_feed.
  destruct ((cl_enabled st =? 0) && _ && _); [intros [= <-]; exact Hwf|].
  unfold bind at 1 2. unfold modify at 1, get at 1.
  cbn [cl_count set_cl_enabled].
  destruct (_ || _); [intros [= <-]; exact Hwf1|].
  destruct (_ && _).
  { rewrite cliExit_eq. intros [= <-].
    split; cbn; unfold CL_BUF_SIZE; auto; lia. }
  destruct (Ascii.eqb c FF).
  { intros [= <-]. split; cbn; unfold CL_BUF_SIZE; auto; lia. }
  destruct (_ || _).
  { destruct (cl_count st =? 0) eqn:E0; cbn [negb].
    - intros Hrun.
      apply bind_ok_inv in Hrun as (after_cr & s1 & H1 & Hrun).
      assert (s1 = set_cl_enabled 1 st) as ->.
      { destruct (Ascii.eqb c LF); [|injection H1 as _ <-; reflexivity].
        apply bind_ok_inv in H1 as (c0 & s2 & H2 & H1).
        injection H1 as _ <-.
        unfold buf_load in H2. destruct (_ !! _) in H2; [|done].
        cbn in H2. injection H2 as _ <-. reflexivity. }
      destruct after_cr; [injection Hrun as <-; exact Hwf1|].
      apply cli_feed_eol_post in Hrun as [Hw _]; cbn; auto. lia.
    - intros Hrun.
      apply bind_ok_inv in Hrun as ([] & s1 & H1 & Hrun).
      apply cli_feed_enter_post in H1 as (Hbuf & _ & Hce).
      cbn [cl_count cl_enabled set_cl_enabled] in Hce.
      apply cli_feed_eol_post in Hrun as [Hw _]; auto.
      + rewrite Hbuf. reflexivity.
      + destruct Hce as [[_ ->] | [-> _]]; [lia | reflexivity]. }
  destruct (_ || _).
  { destruct (cl_count st =? 0) eqn:E0; cbn [negb];
      [intros [= <-]; exact Hwf1|].
    unfold bind, modify, buf_store, uartPrint, serial_puts, modify,
      CL_BUF_SIZE.
    cbn [cl_count set_cl_enabled set_cl_count].
    rewrite (Z.mod_small (cl_count st - 1)) by lia.
    replace ((0 <=? cl_count st - 1) && (cl_count st - 1 <? 64))
      with true by lia.
    intros [= <-]. split; cbn; rewrite ?length_insert;
      unfold CL_BUF_SIZE; auto; lia. }
  destruct (cl_count st <? CL_BUF_SIZE) eqn:Elt; cbn [andb];
    [|intros [= <-]; exact Hwf1].
  unfold CL_BUF_SIZE in Elt.
  destruct (_ && _); [|intros [= <-]; exact Hwf1].
  destruct (_ && _); [intros [= <-]; exact Hwf1|].
  unfold bind, modify, buf_store, serial_putc, modify, CL_BUF_SIZE.
  cbn [cl_count set_cl_enabled set_cl_count].
  replace ((0 <=? cl_count st) && (cl_count st <? 64)) with true by lia.
  rewrite (Z.mod_small (cl_count st + 1)) by lia.
  intros [= <-]. split; cbn; rewrite ?length_insert;
    unfold CL_BUF_SIZE; auto; lia.
Qed.

Lemma wf_cli_feed_all (bytes : list ascii) (st st' : state) :
  wf st -> cli_feed_all bytes st = Ok (tt, st') -> wf st'.
Proof.
  revert st. induction bytes as [|c bytes IH]; intros st Hwf;
    cbn [cli_feed_all].
  - intros [= <-]. exact Hwf.
  - intros Hrun. apply bind_ok_inv in Hrun as ([] & s1 & H1 & Hrun).
    eapply IH; [eapply wf_cli_feed|]; eassumption.
Qed.


Lemma cut_take_substring (s : string) (n : nat) :
  nul_free s ->
  cut (take n (list_ascii_of_string s)) = String.substring 0 n s.
Proof.
  revert n. induction s as [|c s IH]; intros n Hs.
  - destruct n; reflexivity.
  - destruct Hs as [Hc Hs]. destruct n as [|n]; [reflexivity|].
    cbn [list_ascii_of_string take cut String.substring].
    apply Ascii.eqb_neq in Hc. rewrite Hc. f_equal. apply IH. exact Hs.
Qed.

(** *** The [set] command *)

Lemma var_text_short (var : clivalue_t) (c : cfg_t) :
  printf_text (var_text var c) = var_text var c.
Proof.
  apply printf_text_short; unfold var_text; destruct (var_type var).
  - apply fmt_u_nul_free.
  - apply fmt_u_nul_free.
  - repeat apply nul_free_app; try apply fmt_d_nul_free;
      try (split; [discriminate | exact I]).
  - pose proof (fmt_u_length (load_u32 (var_ptr var) c)). lia.
  - pose proof (fmt_u_length
                  (if load_u8 (var_ptr var) c =? 0 then 0 else 1)). lia.
  - rewrite !length_app_str.
    pose proof (fmt_d_length (byte_at (load_u32 (var_ptr var) c) 0)).
    pose proof (fmt_d_length (byte_at (load_u32 (var_ptr var) c) 1)).
    pose proof (fmt_d_length (byte_at (load_u32 (var_ptr var) c) 2)).
    pose proof (fmt_d_length (byte_at (load_u32 (var_ptr var) c) 3)).
    cbn [String.length]. lia.
Qed.

Lemma var_names_short (val : clivalue_t) :
  In val value_table ->
  printf_text (var_name val +:+ " = ") = var_name val +:+ " = "
  /\ printf_text (var_name val +:+ " set to ")
     = var_name val +:+ " set to ".
Proof.
  unfold value_table. cbn [In].
  intros [<-|[<-|[<-|[<-|[]]]]]; split; reflexivity.
Qed.

Lemma set_cfg_id (st : state) : set_cfg (cfg st) st = st.
Proof. destruct st. reflexivity. Qed.

Lemma cliSetVar_eq (var : clivalue_t) (str : string) (st : state) :
  cliSetVar var str st = Ok (tt, set_cfg (var_store var str (cfg st)) st).
Proof.
  unfold cliSetVar, var_store.
  destruct (var_type var); try reflexivity.
  rewrite set_cfg_id. reflexivity.
Qed.

Lemma var_store_frame (var : clivalue_t) (str : string) (c : cfg_t)
    (p : cfg_ptr) :
  p <> var_ptr var ->
  load_u32 p (var_store var str c) = load_u32 p c.
Proof.
  unfold var_store, store_u8.
  destruct (var_type var), (var_ptr var), p; intros Hp;
    try reflexivity; congruence.
Qed.

Lemma var_store_rest (var : clivalue_t) (str : string) (c : cfg_t) :
  version (var_store var str c) = version c
  /\ cfg_rest (var_store var str c) = cfg_rest c.
Proof.
  unfold var_store, store_u8.
  destruct (var_type var), (var_ptr var); split; reflexivity.
Qed.


Lemma strstr_eq_not_listing (text eq : string) :
  nul_free text -> strstr text "=" = Some eq ->
  (Z.of_nat (strlen text) =? 0)
  || (Z.of_nat (strlen text) =? 1) && Ascii.eqb (hd_char text) "*"
  = false.
Proof.
  destruct text as [|c t]; [discriminate|].
  intros [Hc Ht] Hs. cbn [strlen hd_char].
  apply Ascii.eqb_neq in Hc. rewrite Hc.
  rewrite (proj2 (Z.eqb_neq (Z.of_nat (S (strlen t))) 0)) by lia.
  cbn [orb]. apply andb_false_iff.
  destruct (Ascii.eqb c "*") eqn:Estar; [left|right; reflexivity].
  apply Z.eqb_neq. intros Hlen.
  apply Ascii.eqb_eq in Estar. subst c.
  rewrite (nul_free_strlen t Ht) in Hlen.
  destruct t; [discriminate | cbn in Hlen; lia].
Qed.

Lemma cliSet_assign_eq (tbl : list clivalue_t) (text value : string)
    (st : state) :
  cliSet_assign tbl text value st
  = match find (var_matches text) tbl with
    | Some val =>
        (cliSetVar val value ;;
         uart_printf (var_name val +:+ " set to ") ;;
         cliPrintVar val 0) st
    | None =>
        uartPrint ("ERR: Unknown variable name" +:+ crlf) st
    end.
Proof.
  induction tbl as [|val tbl IH]; cbn [cliSet_assign find]; [reflexivity|].
  unfold var_matches at 1.
  destruct (strncasecmp _ _ _ =? 0); [reflexivity | exact IH].
Qed.

(** *** Typing a line and ending it *)

Lemma cli_feed_all_typing (line : list ascii) (st : state) :
  List.Forall (fun c => 32 <= code c <= 126 /\ c <> "?"%char) line ->
  cl_enabled st <> 0 -> 0 <= cl_count st ->
  cl_count st + Z.of_nat (length line) <= CL_BUF_SIZE ->
  (cl_count st = 0 -> hd NUL line <> SP) ->
  cli_feed_all line st = Ok (tt, fold_left type_char line st).
Proof.
  intros Hall. revert st.
  induction Hall as [|c line [Hc Hq] _ IH]; intros st He Hn Hlen Hsp;
    [reflexivity|].
  cbn [cli_feed_all fold_left]. cbn [length hd] in Hlen, Hsp.
  unfold bind. rewrite cli_feed_printable; try assumption.
  - fold (type_char st c). apply IH; cbn; try lia.
  - lia.
  - intros [H0 Hc']. apply Hsp; assumption.
Qed.

Lemma cli_feed_eol_enabled (c : ascii) (st : state) :
  cl_enabled st <> 0 ->
  cli_feed_eol c st
  = Ok (tt, set_cl_buf (<[O := c]> (cl_buf st))
              (emit (Ev_serial_puts (cl_out st) (crlf +:+ "# "))
                 (set_cl_enabled 1 (set_cl_count 0 st)))).
Proof.
  intros He. unfold cli_feed_eol. unfold bind at 1 2. unfold get at 1.
  apply Z.eqb_neq in He. rewrite He. reflexivity.
Qed.

Lemma cli_feed_eol_disabled (c : ascii) (st : state) :
  cl_enabled st = 0 ->
  cli_feed_eol c st = Ok (tt, set_cl_buf (<[O := c]> (cl_buf st)) st).
Proof.
  intros He. unfold cli_feed_eol. unfold bind at 1 2. unfold get at 1.
  rewrite He. reflexivity.
Qed.

Lemma cliHelp_loop_eq (tbl : list clicmd_t) (st : state) :
  (forall c, In c tbl -> In c cmd_table) ->
  exists st',
    cliHelp_loop tbl st = Ok (tt, st')
    /\ cfg st' = cfg st /\ cl_out st' = cl_out st
    /\ cl_buf st' = cl_buf st /\ cl_count st' = cl_count st
    /\ cl_enabled st' = cl_enabled st
    /\ trace st'
       = trace st
         ++ map (fun c => Ev_serial_puts (cl_out st)
                            (name c +:+ String TAB (param c) +:+ crlf)) tbl.
Proof.
  revert st. induction tbl as [|c tbl IH]; intros st Hin.
  - exists st. cbn. rewrite app_nil_r. auto 10.
  - cbn [cliHelp_loop map]. unfold bind at 1. rewrite uart_printf_eq.
    match goal with |- context [cliHelp_loop tbl ?s] =>
      destruct (IH s) as (st' & Hrun & Hcfg & Hout & Hbuf & Hcnt & Hen & Htr)
    end.
    { intros v Hv. apply Hin. right. exact Hv. }
    exists st'. split; [exact Hrun|].
    cbn [cfg emit set_fmt_buf cl_out cl_buf cl_count cl_enabled trace]
      in Hcfg, Hout, Hbuf, Hcnt, Hen, Htr.
    repeat split; try assumption.
    rewrite Htr, <- app_assoc. cbn [app]. do 3 f_equal.
    assert (In c cmd_table) as Hc by (apply Hin; left; reflexivity).
    unfold cmd_table in Hc. cbn [In] in Hc.
    repeat (destruct Hc as [<-|Hc]; [reflexivity|]). destruct Hc.
Qed.

Lemma cliHelp_eq (off : nat) (st : state) :
  exists st',
    cliHelp off st = Ok (tt, st')
    /\ cfg st' = cfg st /\ cl_out st' = cl_out st
    /\ cl_buf st' = cl_buf st /\ cl_count st' = cl_count st
    /\ cl_enabled st' = cl_enabled st
    /\ trace st' = trace st ++ help_listing (cl_out st).
Proof.
  unfold cliHelp. unfold bind at 1. unfold uartPrint, serial_puts, modify.
  match goal with |- context [cliHelp_loop cmd_table ?s] =>
    destruct (cliHelp_loop_eq cmd_table s)
      as (st' & Hrun & Hcfg & Hout & Hbuf & Hcnt & Hen & Htr); [auto|]
  end.
  exists st'. split; [exact Hrun|].
  cbn [cfg emit cl_out cl_buf cl_count cl_enabled trace]
    in Hcfg, Hout, Hbuf, Hcnt, Hen, Htr.
  repeat split; try assumption.
  rewrite Htr, <- app_assoc. reflexivity.
Qed.

(** The argument a handler finds at offset [n] of the line: the held
    characters from position [n] on. *)
Lemma tail_after_sentinel (buf : list ascii) (count n : nat) :
  (count < length buf)%nat -> (n <= count)%nat ->
  cstr_at (drop n (<[count := NUL]> buf))
  = Some (cut (drop n (take count buf))).
Proof.
  intros Hc Hn. rewrite insert_take_drop by exact Hc.
  rewrite drop_app_le by (rewrite length_take; lia).
  apply cstr_at_app_nul.
Qed.

Lemma cli_feed_all_app (a b : list ascii) (st : state) :
  cli_feed_all (a ++ b) st = (cli_feed_all a ;; cli_feed_all b) st.
Proof.
  revert st. induction a as [|c a IH]; intros st; cbn [app cli_feed_all].
  - reflexivity.
  - unfold bind in *. destruct (cli_feed c st) as [[[] s1]|f];
      [apply IH | reflexivity].
Qed.

Lemma bind_assoc {A B C : Type} (m : M A) (k : A -> M B) (k' : B -> M C)
    (st : state) :
  bind (bind m k) k' st = bind m (fun a => bind (k a) k') st.
Proof. unfold bind. destruct (m st) as [[a s]|f]; reflexivity. Qed.

Lemma bind_ret_r (m : M unit) (st : state) :
  bind m (fun _ => ret tt) st = m st.
Proof. unfold bind. destruct (m st) as [[[] s]|f]; reflexivity. Qed.

Lemma cut_printable (line : list ascii) :
  List.Forall (fun c => 32 <= code c <= 126 /\ c <> "?"%char) line ->
  cut line = string_of_list_ascii line.
Proof.
  induction 1 as [|c line [Hc _] _ IH]; cbn [cut string_of_list_ascii];
    [reflexivity|].
  destruct (printable_not_control c Hc) as (_&_&_&_&_&_&_&->).
  rewrite IH. reflexivity.
Qed.

(** The state after the bytes of [line] have been taken in one by one. *)
Lemma typed_state (line : list ascii) (st : state) (n : nat) :
  cl_count st = Z.of_nat n ->
  (n + length line <= length (cl_buf st))%nat ->
  let typed := fold_left type_char line st in
  cl_count typed = Z.of_nat (n + length line)
  /\ length (cl_buf typed) = length (cl_buf st)
  /\ take (n + length line) (cl_buf typed) = take n (cl_buf st) ++ line
  /\ cl_enabled typed = match line with [] => cl_enabled st | _ => 1 end
  /\ cl_out typed = cl_out st /\ cfg typed = cfg st
  /\ fmt_buf typed = fmt_buf st
  /\ trace typed = trace st ++ map (Ev_serial_putc (cl_out st)) line.
Proof.
  revert st n. induction line as [|x line IH]; intros st n Hn Hlen;
    cbn [fold_left length map] in *.
  - rewrite Nat.add_0_r, !app_nil_r. auto 10.
  - destruct (IH (type_char st x) (S n))
      as (Hc & Hl & Ht & He & Ho & Hf & Hm & Hr).
    { cbn. lia. }
    { cbn. rewrite length_insert. lia. }
    cbn [type_char cl_count cl_buf cl_enabled cl_out cfg fmt_buf trace emit
           set_cl_count set_cl_buf set_cl_enabled]
      in Hc, Hl, Ht, He, Ho, Hf, Hm, Hr.
    rewrite length_insert in Hl.
    replace (n + S (length line))%nat with (S n + length line)%nat by lia.
    rewrite Hc, Hl, Ht, Ho, Hf, Hm, Hr.
    repeat split; try reflexivity.
    + rewrite Hn, Nat2Z.id.
      rewrite (take_S_r _ n x)
        by (apply list_lookup_insert_eq; lia).
      rewrite take_insert_ge by lia.
      rewrite <- app_assoc. reflexivity.
    + rewrite He. destruct line; reflexivity.
    + rewrite <- app_assoc. reflexivity.
Qed.

(** Typing a line at the prompt and ending it: the search runs on the
    characters typed, and the handler is called at the offset just past
    the entry's name and one more character. *)
Lemma cli_feed_typed_line (line : list ascii) (c : ascii) (st : state) :
  List.Forall (fun c => 32 <= code c <= 126 /\ c <> "?"%char) line ->
  wf st -> cl_enabled st <> 0 -> cl_count st = 0 ->
  (0 < length line < 64)%nat -> hd NUL line <> SP ->
  c = CR \/ c = LF ->
  let typed := fold_left type_char line st in
  cli_feed_all line st = Ok (tt, typed)
  /\ held_line typed = string_of_list_ascii line
  /\ cli_feed_all (line ++ [c]) st
     = (match bsearch (cliCompare (string_of_list_ascii line)) cmd_table
        with
        | Some cmd => call_func (func cmd) (strlen (name cmd) + 1)%nat
        | None => uartPrint ("ERR: Unknown command, try 'help'" +:+ crlf)
        end ;;
        modify (set_cl_buf (replicate (Z.to_nat CL_BUF_SIZE) NUL)) ;;
        cli_feed_eol c)
         (set_cl_buf (<[length line := NUL]> (cl_buf typed))
            (emit (Ev_serial_puts (cl_out st) crlf) typed)).
Proof.
  intros Hall Hwf He Hn Hlen Hsp Hc typed.
  assert (cli_feed_all line st = Ok (tt, typed)) as Htyped
    by (apply cli_feed_all_typing; unfold CL_BUF_SIZE; auto; lia).
  destruct (typed_state line st O) as (Hcnt & Hbuf & Htake & Hen & Hout & _);
    [exact Hn | rewrite (wf_buf _ Hwf); cbn; lia |].
  fold typed in Hcnt, Hbuf, Htake, Hen, Hout.
  cbn [Nat.add take app] in Hcnt, Htake.
  assert (held_line typed = string_of_list_ascii line) as Hheld.
  { unfold held_line. rewrite Hcnt, Nat2Z.id, Htake.
    apply cut_printable. exact Hall. }
  split; [exact Htyped|]. split; [exact Hheld|].
  rewrite cli_feed_all_app. unfold bind at 1. rewrite Htyped.
  cbn [cli_feed_all]. rewrite bind_ret_r.
  rewrite cli_feed_line_end by (auto; lia).
  assert (set_cl_enabled 1 typed = typed) as ->.
  { apply set_cl_enabled_id. rewrite Hen.
    destruct line; [cbn in Hlen; lia|reflexivity]. }
  unfold bind at 1.
  rewrite cli_feed_enter_eq
    by (unfold CL_BUF_SIZE; first [lia | rewrite Hbuf; apply Hwf]).
  rewrite Hheld, Hcnt, Nat2Z.id, Hout.
  apply bind_assoc.
Qed.

Lemma printable_letters (line : string) :
  forallb (fun c => (32 <=? code c) && (code c <=? 126)
                    && negb (Ascii.eqb c "?"))
    (list_ascii_of_string line) = true ->
  List.Forall (fun c => 32 <= code c <= 126 /\ c <> "?"%char)
    (list_ascii_of_string line).
Proof.
  intros Hb. apply List.Forall_forall. intros c Hin.
  rewrite forallb_forall in Hb. specialize (Hb c Hin).
  apply andb_true_iff in Hb as [Hb Hq]. apply andb_true_iff in Hb as [H1 H2].
  split; [lia|]. apply Ascii.eqb_neq. destruct (Ascii.eqb c "?"); done.
Qed.

(** Typing leaves the cells behind the typed characters alone. *)
Lemma typed_tail (line : list ascii) (st : state) (n : nat) :
  cl_count st = Z.of_nat n ->
  drop (n + length line) (cl_buf (fold_left type_char line st))
  = drop (n + length line) (cl_buf st).
Proof.
  revert st n. induction line as [|c line IH]; intros st n Hn.
  - reflexivity.
  - cbn [fold_left length].
    replace (n + S (length line))%nat with (S n + length line)%nat by lia.
    rewrite (IH (type_char st c) (S n)).
    + unfold type_char.
      cbn [cl_buf emit set_cl_count set_cl_buf set_cl_enabled].
      rewrite Hn, Nat2Z.id. apply drop_insert_lt. lia.
    + unfold type_char.
      cbn [cl_count emit set_cl_count set_cl_buf set_cl_enabled]. lia.
Qed.

(** Each name of [named_handlers] is the name of an entry of
    [cmd_table], and calling through that entry runs the handler. *)
Lemma named_handler_entry (nm : string) (handler : nat -> M unit) :
  In (nm, handler) named_handlers ->
  exists cmd,
    In cmd cmd_table /\ name cmd = nm
    /\ strlen nm = String.length nm
    /\ call_func (func cmd) = handler.
Proof.
  unfold named_handlers. cbn [In].
  intros Hin.
  repeat (destruct Hin as [[= <- <-]|Hin];
          [ match goal with
            | |- exists cmd, _ /\ name cmd = ?n /\ _ =>
                let r := eval vm_compute in
                           (find (fun c => String.eqb (name c) n)
                              cmd_table) in
                match r with Some ?c => exists c end
            end;
            split; [unfold cmd_table; cbn [In]; auto 10|];
            split; [reflexivity|]; split; reflexivity |]).
  destruct Hin.
Qed.

End ProgramFacts.

(** ** The demonstration board *)

Lemma wf_demo_prompt : wf demo_prompt.
Proof.
  split; [reflexivity | unfold CL_BUF_SIZE; cbn; lia | reflexivity].
Qed.

Lemma wf_demo_typed : wf demo_typed.
Proof.
  split; [reflexivity | unfold CL_BUF_SIZE; cbn; lia | cbn; lia].
Qed.

Lemma eerr_distinct_demo : @eerr_distinct demo_board.
Proof. unfold eerr_distinct. cbn. lia. Qed.

(** * The claims *)

(** C1 (the code falls short of it): [cliSetVar] scans the address, and
    for [10.0.0.1] arrives at the right 32-bit value, but the statement
    that would store it is commented out, so the variable keeps its old
    value: after [set ip_addr=10.0.0.1] the listing still shows
    [ip_addr = 0.0.0.0]. *)
Theorem set_ip_addr_not_stored `{Platform} :
  ip4_scan "10.0.0.1" 0 0 = 0x0A000001
  /\ (forall val str st,
        var_type val = VAR_IP4 -> cliSetVar val str st = Ok (tt, st))
  /\ listing_line 0 demo_cfg
       {| var_name := "ip_addr"; var_type := VAR_IP4;
          var_ptr := P_ip_addr |}
     = [Ev_serial_puts 0 "ip_addr = "; Ev_serial_puts 0 "0.0.0.0";
        Ev_serial_puts 0 crlf]
  /\ exists st',
       cli_feed_all
         (list_ascii_of_string "set ip_addr=10.0.0.1" ++ [CR]
          ++ list_ascii_of_string "set" ++ [CR]) demo_prompt
       = Ok (tt, st')
       /\ ip_addr (cfg st') = 0
       /\ cfg st' = cfg demo_prompt
       /\ trace st'
          = trace demo_prompt
            ++ map (Ev_serial_putc 0)
                 (list_ascii_of_string "set ip_addr=10.0.0.1")
            ++ [Ev_serial_puts 0 crlf;
                Ev_serial_puts 0 "ip_addr set to ";
                Ev_serial_puts 0 "0.0.0.0";
                Ev_serial_puts 0 (crlf +:+ "# ")]
            ++ map (Ev_serial_putc 0) (list_ascii_of_string "set")
            ++ [Ev_serial_puts 0 crlf;
                Ev_serial_puts 0 ("Current settings:" +:+ crlf)]
            ++ flat_map (listing_line 0 demo_cfg) value_table
            ++ [Ev_serial_puts 0 (crlf +:+ "# ")].
Proof.
  split; [reflexivity|]. split.
  - intros val str st Hty. unfold cliSetVar. rewrite Hty. reflexivity.
  - split; [reflexivity|].
    eexists. split; [vm_compute; reflexivity|].
    split; [reflexivity|]. split; reflexivity.
Qed.

(** C2 (the code falls short of it): the guard of the printable branch
    lets the count reach 64, the size of [cl_buf]; a printable byte is
    dropped from then on and the count never exceeds 64, but the line-end
    branch then writes its sentinel at index 64, one past the buffer. *)
Theorem sentinel_write_past_buffer `{Platform} :
  (forall bytes c0 st',
      cli_feed_all bytes (init_state c0) = Ok (tt, st') ->
      0 <= cl_count st' <= CL_BUF_SIZE)
  /\ (forall c st,
        32 <= code c <= 126 -> cl_count st = CL_BUF_SIZE ->
        cl_enabled st <> 0 ->
        cli_feed c st = Ok (tt, set_cl_enabled 1 st))
  /\ (forall st,
        wf st -> cl_enabled st <> 0 -> cl_count st = 0 ->
        exists full,
          cli_feed_all (replicate 64 "a"%char) st = Ok (tt, full)
          /\ cl_count full = CL_BUF_SIZE)
  /\ (forall c st,
        c = CR \/ c = LF -> cl_count st = CL_BUF_SIZE ->
        cli_feed c st = Fault (OutOfBoundsWrite 64))
  /\ cli_feed_all (replicate 64 "a"%char ++ [CR]) demo_prompt
     = Fault (OutOfBoundsWrite 64).
Proof.
  split; [|split; [|split; [|split]]].
  - intros bytes c0 st' Hrun.
    apply (wf_cli_feed_all bytes (init_state c0) st' (wf_init c0) Hrun).
  - intros c st Hc Hn He. apply cli_feed_full; auto. lia.
  - intros st Hwf He Hn. eexists. split.
    + apply cli_feed_all_typing; unfold CL_BUF_SIZE; try assumption.
      * apply Forall_replicate.
        split; [unfold code; simpl; lia | discriminate].
      * lia.
      * rewrite Hn. cbn. lia.
      * intros _. cbn. discriminate.
    + destruct (typed_state (replicate 64 "a"%char) st O) as (Hc & _);
        [exact Hn | rewrite (wf_buf _ Hwf); cbn; lia |].
      rewrite Hc. reflexivity.
  - intros c st Hc Hn.
    rewrite cli_feed_line_end by (auto; rewrite Hn; discriminate).
    unfold bind at 1. unfold cli_feed_enter. unfold bind at 1 2 3.
    unfold uartPrint, serial_puts, modify, get, buf_store.
    cbn [cl_count emit set_cl_enabled]. rewrite Hn. reflexivity.
  - vm_compute. reflexivity.
Qed.

(** C3: the persist-and-reboot sequence, which both [save] and [defaults]
    run.  After the notice and the call of the EEPROM driver, a timeout
    result yields the timeout message and nothing else (no delay, no
    reset); NACK, fault and any other failure yield their own message and
    nothing else; OK yields the OK message, then one delay, then one write
    of the reset request. *)
Theorem cliWriteConfig_by_result `{Platform} (st : state) :
  eerr_distinct ->
  let notice := emit (Ev_serial_puts (cl_out st)
                        ("Writing EEPROM..." +:+ crlf)) st in
  let r := eeprom_write_cfg (trace notice) (cfg st) in
  let called := emit (Ev_eeprom_write_cfg (cfg st) r) notice in
  let says (msg : string) := emit (Ev_serial_puts (cl_out st) msg) called in
  (forall off, cliSave off = cliWriteConfig)
  /\ (forall off st0,
        cliDefaults off st0
        = cliWriteConfig (set_cfg (cfg_defaults (cfg st0)) st0))
  /\ (r = EERR_TIMEOUT ->
      cliWriteConfig st
      = Ok (tt, says ("ERROR: timeout while writing EEPROM" +:+ crlf)))
  /\ (r = EERR_NACK ->
      cliWriteConfig st
      = Ok (tt, says ("ERROR: EEPROM is faulty or missing" +:+ crlf)))
  /\ (r = EERR_FAULT ->
      cliWriteConfig st
      = Ok (tt, says ("ERROR: EEPROM is faulty" +:+ crlf)))
  /\ (r <> EERR_TIMEOUT -> r <> EERR_NACK -> r <> EERR_FAULT ->
      r <> EERR_OK ->
      cliWriteConfig st
      = Ok (tt, says ("FAIL: unable to write EEPROM" +:+ crlf)))
  /\ (r = EERR_OK ->
      cliWriteConfig st
      = Ok (tt, emit (Ev_AIRCR 0x05FA0004)
                  (emit (Ev_CoTickDelay (S2ST 1))
                     (says ("OK" +:+ crlf))))).
Proof.
  intros (Hnt & Hft & Hfn & Hot & Hon & Hof) notice r called says.
  split; [reflexivity|]. split; [reflexivity|].
  assert (forall k : Z -> M unit,
             (uartPrint ("Writing EEPROM..." +:+ crlf) ;;
              result <- call_eeprom_write_cfg ;; k result) st
             = k r called) as Hrun by reflexivity.
  unfold cliWriteConfig. rewrite Hrun. fold r.
  repeat split; intros.
  - replace (r =? EERR_TIMEOUT) with true by lia. reflexivity.
  - replace (r =? EERR_TIMEOUT) with false by lia.
    replace (r =? EERR_NACK) with true by lia. reflexivity.
  - replace (r =? EERR_TIMEOUT) with false by lia.
    replace (r =? EERR_NACK) with false by lia.
    replace (r =? EERR_FAULT) with true by lia. reflexivity.
  - replace (r =? EERR_TIMEOUT) with false by lia.
    replace (r =? EERR_NACK) with false by lia.
    replace (r =? EERR_FAULT) with false by lia.
    replace (r =? EERR_OK) with false by lia. reflexivity.
  - replace (r =? EERR_TIMEOUT) with false by lia.
    replace (r =? EERR_NACK) with false by lia.
    replace (r =? EERR_FAULT) with false by lia.
    replace (r =? EERR_OK) with true by lia. reflexivity.
Qed.

Lemma cliWriteConfig_by_result_witness :
  @eerr_distinct demo_board
  /\ @cliWriteConfig demo_board demo_prompt
     = Ok (tt,
           emit (Ev_AIRCR 0x05FA0004)
             (emit (Ev_CoTickDelay 1000)
                (emit (Ev_serial_puts 0 ("OK" +:+ crlf))
                   (emit (Ev_eeprom_write_cfg demo_cfg 0)
                      (emit (Ev_serial_puts 0
                               ("Writing EEPROM..." +:+ crlf))
                         demo_prompt))))).
Proof.
  split; [exact eerr_distinct_demo|].
  destruct (@cliWriteConfig_by_result demo_board demo_prompt
              eerr_distinct_demo) as (_ & _ & _ & _ & _ & _ & Hok).
  apply Hok. reflexivity.
Defined.

(** C4 (the code falls short of it): the search compares the held line
    with each entry over the length of that entry's name, without regard
    to case; [h] alone finds no entry and is answered with the
    unknown-command notice; a line that agrees with a command's name over
    the length of that name, the exact name included, runs that command's
    handler on [cl_buf + strlen name + 1].  When more than the name was
    typed, the text there is the line from that offset on.  When only the
    name was typed, that place lies behind the terminator, and the cells
    there are the ones the buffer held before the line was typed: after a
    form feed, which resets the count and leaves the buffer as it is, a
    bare [set] is handed the tail of the abandoned line and performs the
    assignment in it. *)
Theorem dispatch_tail_behind_sentinel `{Platform} :
  (forall key cmd,
      cliCompare key cmd = strncasecmp key (name cmd) (strlen (name cmd)))
  /\ (forall key cmd,
        bsearch (cliCompare key) cmd_table = Some cmd
        <-> In cmd cmd_table
            /\ strncasecmp key (name cmd) (strlen (name cmd)) = 0)
  /\ map name cmd_table = map fst named_handlers
  /\ (forall nm handler,
        In (nm, handler) named_handlers ->
        strncasecmp nm nm (String.length nm) = 0)
  /\ bsearch (cliCompare "h") cmd_table = None
  /\ (forall c st,
        wf st -> cl_enabled st <> 0 -> cl_count st = 0 ->
        c = CR \/ c = LF ->
        exists st',
          cli_feed_all ["h"%char; c] st = Ok (tt, st')
          /\ trace st'
             = trace st
               ++ [Ev_serial_putc (cl_out st) "h";
                   Ev_serial_puts (cl_out st) crlf;
                   Ev_serial_puts (cl_out st)
                     ("ERR: Unknown command, try 'help'" +:+ crlf);
                   Ev_serial_puts (cl_out st) (crlf +:+ "# ")]
          /\ cfg st' = cfg st /\ cl_count st' = 0)
  /\ (forall nm handler line c st,
        In (nm, handler) named_handlers ->
        List.Forall (fun c => 32 <= code c <= 126 /\ c <> "?"%char) line ->
        wf st -> cl_enabled st <> 0 -> cl_count st = 0 ->
        (0 < length line < 64)%nat -> hd NUL line <> SP ->
        c = CR \/ c = LF ->
        strncasecmp (string_of_list_ascii line) nm (String.length nm) = 0 ->
        let held :=
          set_cl_buf (<[length line := NUL]>
                        (cl_buf (fold_left type_char line st)))
            (emit (Ev_serial_puts (cl_out st) crlf)
               (fold_left type_char line st)) in
        cli_feed_all (line ++ [c]) st
        = (handler (String.length nm + 1)%nat ;;
           modify (set_cl_buf (replicate (Z.to_nat CL_BUF_SIZE) NUL)) ;;
           cli_feed_eol c) held
        /\ ((String.length nm + 1 <= length line)%nat ->
            buf_cstr (String.length nm + 1)%nat held
            = Ok (string_of_list_ascii
                    (drop (String.length nm + 1)%nat line), held))
        /\ (length line = String.length nm ->
            drop (String.length nm + 1)%nat (cl_buf held)
            = drop (String.length nm + 1)%nat (cl_buf st)))
  /\ (exists st',
        @cli_feed_all demo_board
          (list_ascii_of_string "set gps_baud_rate=9600" ++ [FF]
           ++ list_ascii_of_string "set" ++ [CR]) demo_prompt
        = Ok (tt, st')
        /\ gps_baud_rate (cfg st') = 9600
        /\ gps_baud_rate (cfg demo_prompt) = 0
        /\ trace st'
           = trace demo_prompt
             ++ map (Ev_serial_putc 0)
                  (list_ascii_of_string "set gps_baud_rate=9600")
             ++ [Ev_serial_puts 0 (String ESC "[2J" +:+ String ESC "[1;1H");
                 Ev_serial_puts 0 (crlf +:+ "# ")]
             ++ map (Ev_serial_putc 0) (list_ascii_of_string "set")
             ++ [Ev_serial_puts 0 crlf;
                 Ev_serial_puts 0 "gps_baud_rate set to ";
                 Ev_serial_puts 0 "9600";
                 Ev_serial_puts 0 (crlf +:+ "# ")]).
Proof.
  split; [reflexivity|]. split; [apply cmd_lookup_iff|].
  split; [reflexivity|].
  split.
  { intros nm handler Hin. unfold named_handlers in Hin. cbn [In] in Hin.
    repeat (destruct Hin as [[= <- _]|Hin]; [vm_compute; reflexivity|]).
    destruct Hin. }
  split; [vm_compute; reflexivity|].
  split.
  { intros c st Hwf He Hn Hc.
    destruct (cli_feed_typed_line ["h"%char] c st) as (_ & _ & Hrun);
      [ apply (printable_letters "h"); reflexivity
      | exact Hwf | exact He | exact Hn
      | cbn; lia | cbn; discriminate | exact Hc | ].
    cbn [app] in Hrun. rewrite Hrun. clear Hrun.
    replace (bsearch (cliCompare (string_of_list_ascii ["h"%char]))
               cmd_table)
      with (@None clicmd_t) by (vm_compute; reflexivity).
    unfold bind at 1. unfold uartPrint, serial_puts at 1, modify at 1.
    unfold bind at 1. unfold modify at 1.
    rewrite cli_feed_eol_enabled by (cbn; lia).
    eexists. split; [reflexivity|]. cbn. rewrite <- !app_assoc. auto. }
  split.
  { intros nm handler line c st Hin Hall Hwf He Hn Hlen Hsp Hc Hcmp held.
    destruct (named_handler_entry nm handler Hin)
      as (cmd & Hcmd & Hname & Hstrlen & Hcall).
    assert (bsearch (cliCompare (string_of_list_ascii line)) cmd_table
            = Some cmd) as Hfind.
    { apply cmd_lookup_iff. split; [exact Hcmd|].
      unfold cliCompare. rewrite Hname, Hstrlen. exact Hcmp. }
    destruct (cli_feed_typed_line line c st) as (_ & _ & Hrun); auto.
    rewrite Hfind, Hname, Hstrlen, Hcall in Hrun.
    split; [exact Hrun|].
    pose proof (wf_buf _ Hwf) as Hbuf0.
    destruct (typed_state line st O) as (_ & Hbuf & Htake & _);
      [exact Hn | rewrite Hbuf0; cbn; lia |].
    cbn [Nat.add] in Htake. rewrite take_0 in Htake. cbn [app] in Htake.
    split.
    - intros Htail. unfold buf_cstr, held. cbn [cl_buf set_cl_buf emit].
      rewrite tail_after_sentinel
        by (first [rewrite Hbuf, Hbuf0; lia | lia]).
      rewrite Htake, cut_printable; [reflexivity|].
      apply Forall_drop. exact Hall.
    - intros Hexact. unfold held. cbn [cl_buf set_cl_buf emit].
      rewrite drop_insert_lt by lia.
      rewrite <- Hexact, <- !drop_drop.
      pose proof (typed_tail line st O Hn) as Htail.
      cbn [Nat.add] in Htail. rewrite Htail. reflexivity. }
  eexists. split; [vm_compute; reflexivity|].
  split; [reflexivity|]. split; reflexivity.
Qed.

(** C5: [cliExit], whether reached through the end-of-file byte on an
    empty buffer or through a line that the search resolves to the [exit]
    entry (such as [exit] typed at the prompt), leaves the session
    disabled with a count of zero.  From then on every byte other than
    carriage return and newline leaves the whole state as it is (no echo,
    no change of the buffer, no dispatch), and a carriage return or a
    newline enables the session again. *)
Theorem exit_disables_until_line_end `{Platform} :
  (forall off st,
      exists st', cliExit off st = Ok (tt, st')
                  /\ cl_enabled st' = 0 /\ cl_count st' = 0)
  /\ (forall st,
        cl_enabled st <> 0 -> cl_count st = 0 ->
        exists st', cli_feed EOT st = Ok (tt, st')
                    /\ cl_enabled st' = 0 /\ cl_count st' = 0
                    /\ cl_buf st' = cl_buf st)
  /\ (forall st c cmd,
        wf st -> c = CR \/ c = LF -> 0 < cl_count st < CL_BUF_SIZE ->
        bsearch (cliCompare (held_line st)) cmd_table = Some cmd ->
        func cmd = F_cliExit ->
        exists st', cli_feed c st = Ok (tt, st')
                    /\ cl_enabled st' = 0 /\ cl_count st' = 0)
  /\ (forall st c,
        wf st -> cl_enabled st <> 0 -> cl_count st = 0 ->
        c = CR \/ c = LF ->
        exists st',
          cli_feed_all (list_ascii_of_string "exit" ++ [c]) st
          = Ok (tt, st')
          /\ cl_enabled st' = 0 /\ cl_count st' = 0)
  /\ (forall st bytes,
        cl_enabled st = 0 ->
        List.Forall (fun c => c <> CR /\ c <> LF) bytes ->
        cli_feed_all bytes st = Ok (tt, st))
  /\ (forall st c,
        wf st -> cl_enabled st = 0 -> c = CR \/ c = LF ->
        exists st', cli_feed c st = Ok (tt, st') /\ cl_enabled st' = 1).
Proof.
  split; [|split; [|split; [|split; [|split]]]].
  - intros off st. eexists. rewrite cliExit_eq. cbn. auto.
  - intros st He Hn. rewrite cli_feed_eof by assumption.
    eexists. rewrite cliExit_eq. cbn. auto.
  - intros st c cmd Hwf Hc Hn Hfind Hfunc.
    rewrite cli_feed_line_end by (auto; lia).
    unfold bind at 1.
    rewrite cli_feed_enter_eq; cbn [cl_count cl_buf set_cl_enabled];
      [|lia|apply Hwf].
    change (held_line (set_cl_enabled 1 st)) with (held_line st).
    rewrite Hfind, Hfunc. cbn [call_func].
    unfold bind at 1. rewrite cliExit_eq.
    eexists. split; [reflexivity|]. cbn. auto.
  - intros st c Hwf He Hn Hc.
    destruct (cli_feed_typed_line (list_ascii_of_string "exit") c st)
      as (_ & _ & Hrun);
      [ apply (printable_letters "exit"); reflexivity
      | exact Hwf | exact He | exact Hn
      | cbn; lia | cbn; discriminate | exact Hc | ].
    rewrite Hrun. clear Hrun.
    replace (bsearch
               (cliCompare
                  (string_of_list_ascii (list_ascii_of_string "exit")))
               cmd_table)
      with (Some {| name := "exit"; param := "leave command mode";
                    func := F_cliExit |})
      by (vm_compute; reflexivity).
    cbn [func call_func].
    unfold bind at 1. rewrite cliExit_eq.
    unfold bind at 1. unfold modify at 1.
    rewrite cli_feed_eol_disabled by reflexivity.
    eexists. split; [reflexivity|]. cbn. auto.
  - intros st bytes He Hall. apply cli_feed_all_disabled; assumption.
  - intros st c [Hb Hn Hd] He Hc.
    destruct (cl_buf st) as [|c0 buf] eqn:Ebuf; [discriminate|].
    rewrite (cli_feed_line_end_empty c c0) by (auto; rewrite Ebuf; auto).
    destruct (_ && _); [eexists; split; [reflexivity|]; reflexivity|].
    eexists. split; [reflexivity|]. reflexivity.
Qed.

Lemma exit_disables_until_line_end_witness :
  exists st',
    @cli_feed demo_board EOT demo_prompt = Ok (tt, st')
    /\ cl_enabled st' = 0 /\ cl_count st' = 0
    /\ @cli_feed_all demo_board (list_ascii_of_string "help") st'
       = Ok (tt, st').
Proof.
  destruct (@exit_disables_until_line_end demo_board)
    as (_ & Heof & _ & _ & Hdrop & _).
  destruct (Heof demo_prompt) as (st' & Hrun & He & Hn & _);
    [cbn; lia | reflexivity |].
  exists st'. split; [exact Hrun|]. split; [exact He|]. split; [exact Hn|].
  apply Hdrop; [exact He|].
  repeat constructor; discriminate.
Defined.

(** The run of [set] on an argument that holds [=]: the first entry of
    [value_table] that matches is handed to [cliSetVar], the handler
    writes [name set to] and the value then held, and returns; with no
    such entry it reports an unknown variable name. *)
Lemma cliSet_assign_run `{Platform} (off : nat) (text eq : string)
    (st : state) :
  cstr_at (drop off (cl_buf st)) = Some text ->
  strstr text "=" = Some eq ->
  match find (var_matches text) value_table with
  | Some val =>
      exists st',
        cliSet off st = Ok (tt, st')
        /\ cfg st' = var_store val (skip_spaces (tl_str eq)) (cfg st)
        /\ (forall p, p <> var_ptr val ->
                      load_u32 p (cfg st') = load_u32 p (cfg st))
        /\ version (cfg st') = version (cfg st)
        /\ cfg_rest (cfg st') = cfg_rest (cfg st)
        /\ trace st'
           = trace st
             ++ [Ev_serial_puts (cl_out st) (var_name val +:+ " set to ");
                 Ev_serial_puts (cl_out st) (var_text val (cfg st'))]
  | None =>
      cliSet off st
      = Ok (tt, emit (Ev_serial_puts (cl_out st)
                        ("ERR: Unknown variable name" +:+ crlf)) st)
  end.
Proof.
  intros Hread Heq.
  assert (cliSet off st
          = cliSet_assign value_table text (skip_spaces (tl_str eq)) st)
    as ->.
  { unfold cliSet. unfold bind at 1. unfold buf_cstr. rewrite Hread.
    rewrite (strstr_eq_not_listing text eq)
      by eauto using cstr_at_nul_free.
    rewrite Heq. reflexivity. }
  rewrite cliSet_assign_eq.
  destruct (find (var_matches text) value_table) as [val|] eqn:Hfind;
    [|reflexivity].
  apply find_some in Hfind as [Hin _].
  unfold bind at 1. rewrite cliSetVar_eq.
  unfold bind at 1. rewrite uart_printf_eq.
  rewrite cliPrintVar_eq, uart_printf_eq.
  eexists. split; [reflexivity|].
  cbn [cfg trace emit set_fmt_buf set_cfg cl_out].
  split; [reflexivity|].
  split; [intros p Hp; apply var_store_frame; exact Hp|].
  split; [apply var_store_rest|]. split; [apply var_store_rest|].
  rewrite var_text_short.
  destruct (var_names_short val Hin) as [_ ->].
  rewrite <- app_assoc. reflexivity.
Qed.

Example cliSet_assign_run_gps :
  cstr_at (drop 4 (cl_buf demo_set_line)) = Some "gps_baud_rate=9600"%string
  /\ strstr "gps_baud_rate=9600" "=" = Some "=9600"%string
  /\ exists st',
       @cliSet demo_board 4 demo_set_line = Ok (tt, st')
       /\ gps_baud_rate (cfg st') = 9600
       /\ ip_addr (cfg st') = ip_addr demo_cfg
       /\ trace st'
          = [Ev_serial_puts 0 "gps_baud_rate set to ";
             Ev_serial_puts 0 "9600"].
Proof.
  split; [reflexivity|]. split; [reflexivity|].
  pose proof (@cliSet_assign_run demo_board 4
                "gps_baud_rate=9600" "=9600" demo_set_line
                eq_refl eq_refl) as Hm.
  change (find (var_matches "gps_baud_rate=9600") value_table)
    with (Some {| var_name := "gps_baud_rate"; var_type := VAR_UINT32;
                  var_ptr := P_gps_baud_rate |}) in Hm.
  destruct Hm as (st' & Hrun & Hcfg & Hframe & _ & _ & Htr).
  exists st'. split; [exact Hrun|].
  split; [rewrite Hcfg; reflexivity|].
  split; [rewrite Hcfg; reflexivity|].
  rewrite Htr, Hcfg. reflexivity.
Qed.

(** C6 (the code falls short of it): [set] with an argument that holds
    [=] hands the first entry of [value_table] whose name matches, and no
    other, to [cliSetVar], writes [name set to] and the value the variable
    holds afterwards, and returns; every other variable keeps its value,
    and with no matching entry the handler reports an unknown variable
    name and leaves the record alone.  For [gps_baud_rate] the value held
    afterwards is the number given.  For the three IPv4 variables it is
    the old value: [cliSetVar] scans the address and stores nothing (the
    defect of C1), so the matched variable is not modified and the echo
    shows what was there before. *)
Theorem cliSet_assign_leaves_ipv4 `{Platform} :
  (forall off text eq st,
      cstr_at (drop off (cl_buf st)) = Some text ->
      strstr text "=" = Some eq ->
      match find (var_matches text) value_table with
      | Some val =>
          exists st',
            cliSet off st = Ok (tt, st')
            /\ (forall p, p <> var_ptr val ->
                          load_u32 p (cfg st') = load_u32 p (cfg st))
            /\ version (cfg st') = version (cfg st)
            /\ cfg_rest (cfg st') = cfg_rest (cfg st)
            /\ trace st'
               = trace st
                 ++ [Ev_serial_puts (cl_out st)
                       (var_name val +:+ " set to ");
                     Ev_serial_puts (cl_out st) (var_text val (cfg st'))]
            /\ (var_type val = VAR_UINT32 ->
                load_u32 (var_ptr val) (cfg st')
                = atoi_decimal (skip_spaces (tl_str eq)) mod 2 ^ 32)
            /\ (var_type val = VAR_IP4 -> cfg st' = cfg st)
      | None =>
          cliSet off st
          = Ok (tt, emit (Ev_serial_puts (cl_out st)
                            ("ERR: Unknown variable name" +:+ crlf)) st)
      end)
  /\ (forall val,
        In val value_table -> var_name val <> "gps_baud_rate"%string ->
        var_type val = VAR_IP4)
  /\ ip4_scan "192.168.1.1" 0 0 = 0xC0A80101
  /\ exists st',
       cli_feed_all
         (list_ascii_of_string "set ip_gateway=192.168.1.1" ++ [CR])
         demo_prompt
       = Ok (tt, st')
       /\ ip_gateway (cfg st') = 0
       /\ cfg st' = cfg demo_prompt
       /\ trace st'
          = trace demo_prompt
            ++ map (Ev_serial_putc 0)
                 (list_ascii_of_string "set ip_gateway=192.168.1.1")
            ++ [Ev_serial_puts 0 crlf;
                Ev_serial_puts 0 "ip_gateway set to ";
                Ev_serial_puts 0 "0.0.0.0";
                Ev_serial_puts 0 (crlf +:+ "# ")].
Proof.
  split.
  { intros off text eq st Hread Heq.
    pose proof (cliSet_assign_run off text eq st Hread Heq) as Hm.
    destruct (find (var_matches text) value_table) as [val|];
      [|exact Hm].
    destruct Hm as (st' & Hrun & Hcfg & Hframe & Hver & Hrest & Htr).
    exists st'. split; [exact Hrun|]. split; [exact Hframe|].
    split; [exact Hver|]. split; [exact Hrest|]. split; [exact Htr|].
    rewrite Hcfg. unfold var_store. split; intros ->.
    - destruct (var_ptr val); reflexivity.
    - reflexivity. }
  split.
  { intros val Hin Hname. unfold value_table in Hin. cbn [In] in Hin.
    destruct Hin as [<-|[<-|[<-|[<-|[]]]]]; try reflexivity.
    contradiction Hname. reflexivity. }
  split; [vm_compute; reflexivity|].
  eexists. split; [vm_compute; reflexivity|].
  split; [reflexivity|]. split; reflexivity.
Qed.



(** C8: backspace (8) and DEL (127).  With characters held, one call
    takes exactly one away: the count goes down by one, the freed cell is
    cleared, the characters before it stay, and the erase sequence is
    sent.  On an empty buffer nothing changes.  The count never goes below
    zero. *)
Theorem backspace_removes_one `{Platform} (c : ascii) (st : state) :
  wf st -> c = BS \/ c = DEL ->
  (0 < cl_count st ->
   cli_feed c st
   = Ok (tt, emit (Ev_serial_puts (cl_out st)
                     (String BS (String SP (String BS EmptyString))))
               (set_cl_buf (<[Z.to_nat (cl_count st - 1) := NUL]>
                              (cl_buf st))
                  (set_cl_count (cl_count st - 1) (set_cl_enabled 1 st)))))
  /\ (cl_count st = 0 ->
      exists st',
        cli_feed c st = Ok (tt, st')
        /\ cl_count st' = 0 /\ cl_buf st' = cl_buf st
        /\ trace st' = trace st /\ cfg st' = cfg st
        /\ (cl_enabled st' = 0 <-> cl_enabled st = 0))
  /\ exists st', cli_feed c st = Ok (tt, st') /\ 0 <= cl_count st'
                /\ (cl_count st' = cl_count st - 1 \/ cl_count st = 0).
Proof.
  intros Hwf Hc. pose proof Hwf as [Hb Hn Hd]. unfold CL_BUF_SIZE in Hn.
  assert (cl_count st = 0 ->
          exists st',
            cli_feed c st = Ok (tt, st')
            /\ cl_count st' = 0 /\ cl_buf st' = cl_buf st
            /\ trace st' = trace st /\ cfg st' = cfg st
            /\ (cl_enabled st' = 0 <-> cl_enabled st = 0)) as Hempty.
  { intros H0. destruct (Z.eq_dec (cl_enabled st) 0) as [He|He].
    - exists st. rewrite cli_feed_disabled; auto.
      + repeat split; auto.
      + destruct Hc as [-> | ->]; discriminate.
      + destruct Hc as [-> | ->]; discriminate.
    - exists (set_cl_enabled 1 st).
      rewrite cli_feed_backspace_empty by assumption. cbn.
      repeat split; auto; intros; lia. }
  split; [|split; [exact Hempty|]].
  - intros Hpos. apply cli_feed_backspace; auto.
    + unfold CL_BUF_SIZE. lia.
    + intros He. apply Hd in He. lia.
  - destruct (Z.eq_dec (cl_count st) 0) as [H0|H0].
    + destruct (Hempty H0) as (st' & Hrun & Hc' & _). exists st'.
      split; [exact Hrun|]. split; [lia | auto].
    + assert (0 < cl_count st <= CL_BUF_SIZE) as Hpos
        by (unfold CL_BUF_SIZE; lia).
      assert (cl_enabled st <> 0) as He
        by (intros He; apply Hd in He; lia).
      eexists. split; [apply cli_feed_backspace; assumption|].
      cbn. lia.
Qed.

Lemma backspace_removes_one_witness :
  wf demo_typed
  /\ (BS = BS \/ BS = DEL)
  /\ exists st',
       @cli_feed demo_board BS demo_typed = Ok (tt, st')
       /\ cl_count st' = 1
       /\ cl_buf st' = "h"%char :: replicate 63 NUL.
Proof.
  split; [exact wf_demo_typed|]. split; [left; reflexivity|].
  eexists. split.
  - apply (proj1 (@backspace_removes_one demo_board BS demo_typed
                    wf_demo_typed (or_introl eq_refl))).
    cbn. lia.
  - split; reflexivity.
Defined.

(** C9: a space that arrives while the line buffer is empty is neither
    stored nor echoed.  Feeding a space, [help] and a line end at the
    prompt holds [help] in the buffer, with no space in front, and runs
    the help command. *)
Theorem leading_space_dropped `{Platform} (c : ascii) (st : state) :
  wf st -> cl_count st = 0 -> c = CR \/ c = LF ->
  (exists st',
      cli_feed SP st = Ok (tt, st')
      /\ cl_buf st' = cl_buf st /\ cl_count st' = 0
      /\ trace st' = trace st /\ cfg st' = cfg st)
  /\ (cl_enabled st <> 0 ->
      exists typed st',
        cli_feed_all (list_ascii_of_string " help") st = Ok (tt, typed)
        /\ cl_count typed = 4 /\ held_line typed = "help"%string
        /\ cli_feed_all (list_ascii_of_string " help" ++ [c]) st
           = Ok (tt, st')
        /\ trace st'
           = trace st
             ++ map (Ev_serial_putc (cl_out st))
                  (list_ascii_of_string "help")
             ++ Ev_serial_puts (cl_out st) crlf
             :: help_listing (cl_out st)
             ++ [Ev_serial_puts (cl_out st) (crlf +:+ "# ")]
        /\ cfg st' = cfg st /\ cl_count st' = 0).
Proof.
  intros Hwf Hn Hc. split.
  - destruct (Z.eq_dec (cl_enabled st) 0) as [He|He].
    + exists st. rewrite cli_feed_disabled by (auto; discriminate). auto.
    + exists (set_cl_enabled 1 st). rewrite cli_feed_space_empty by auto.
      cbn. auto.
  - intros He.
    pose proof (wf_set_cl_enabled st Hwf) as Hwf1.
    set (s1 := set_cl_enabled 1 st) in *.
    assert (forall bytes,
               cli_feed_all (SP :: bytes) st = cli_feed_all bytes s1)
      as Hskip.
    { intros bytes. cbn [cli_feed_all]. unfold bind.
      rewrite cli_feed_space_empty by auto. reflexivity. }
    change (list_ascii_of_string " help")
      with (SP :: list_ascii_of_string "help").
    cbn [app]. rewrite !Hskip.
    destruct (cli_feed_typed_line (list_ascii_of_string "help") c s1)
      as (Htyped & Hheld & Hrun);
      [ apply (printable_letters "help"); reflexivity
      | exact Hwf1 | cbn; lia | exact Hn
      | cbn; lia | cbn; discriminate | exact Hc | ].
    destruct (typed_state (list_ascii_of_string "help") s1 O)
      as (Hcnt & _ & _ & Hen & Hout & Hcfg & _ & Htr);
      [exact Hn | rewrite (wf_buf _ Hwf1); cbn; lia |].
    set (typed := fold_left type_char (list_ascii_of_string "help") s1) in *.
    exists typed.
    rewrite Hrun. clear Hrun.
    replace (bsearch
               (cliCompare
                  (string_of_list_ascii (list_ascii_of_string "help")))
               cmd_table)
      with (Some {| name := "help"; param := ""; func := F_cliHelp |})
      by (vm_compute; reflexivity).
    cbn [func call_func].
    unfold bind at 1.
    match goal with |- context [cliHelp ?off ?s] =>
      destruct (cliHelp_eq off s)
        as (s2 & Hhelp & Hcfg2 & Hout2 & _ & _ & Hen2 & Htr2)
    end.
    rewrite Hhelp.
    cbn [cfg cl_out cl_enabled trace emit set_cl_buf]
      in Hcfg2, Hout2, Hen2, Htr2.
    unfold bind at 1. unfold modify at 1.
    rewrite cli_feed_eol_enabled
      by (cbn [cl_enabled set_cl_buf]; rewrite Hen2, Hen; discriminate).
    eexists. split; [exact Htyped|].
    split; [rewrite Hcnt; reflexivity|]. split; [exact Hheld|].
    split; [reflexivity|].
    cbn [trace cfg cl_count emit set_cl_buf set_cl_enabled set_cl_count
           cl_out].
    rewrite Htr2, Htr, Hcfg2, Hcfg, Hout2, Hout.
    cbn [s1 trace cfg cl_out set_cl_enabled].
    split; [|auto].
    rewrite <- !app_assoc. reflexivity.
Qed.

Lemma leading_space_dropped_witness :
  wf demo_prompt
  /\ exists typed st',
       @cli_feed_all demo_board (list_ascii_of_string " help") demo_prompt
       = Ok (tt, typed)
       /\ cl_count typed = 4 /\ held_line typed = "help"%string
       /\ @cli_feed_all demo_board (list_ascii_of_string " help" ++ [CR])
            demo_prompt
          = Ok (tt, st')
       /\ trace st'
          = trace demo_prompt
            ++ map (Ev_serial_putc 0) (list_ascii_of_string "help")
            ++ Ev_serial_puts 0 crlf
            :: help_listing 0 ++ [Ev_serial_puts 0 (crlf +:+ "# ")]
       /\ cfg st' = demo_cfg /\ cl_count st' = 0.
Proof.
  split; [exact wf_demo_prompt|].
  destruct (@leading_space_dropped demo_board CR demo_prompt)
    as (_ & Hhelp);
    [exact wf_demo_prompt | reflexivity | left; reflexivity |].
  apply Hhelp. cbn. lia.
Defined.

(** C10: every text sent through [uart_printf] is first rendered into the
    64-byte [fmt_buf] by the size-bounded formatter, so one call sends at
    most 63 characters to the serial port: the first 63 characters of the
    formatted text, the rest being dropped, and [fmt_buf] keeps its 64
    bytes.  Variable printing goes through this helper. *)
Theorem uart_printf_bounded (text : string) (st : state) :
  length (fmt_buf st) = 64%nat ->
  exists sent st',
    uart_printf text st = Ok (tt, st')
    /\ trace st' = trace st ++ [Ev_serial_puts (cl_out st) sent]
    /\ (String.length sent <= 63)%nat
    /\ (nul_free text -> sent = String.substring 0 63 text)
    /\ fmt_buf st' = vsnprintf (fmt_buf st) 64 text
    /\ length (fmt_buf st') = 64%nat
    /\ (forall var full st0,
           cliPrintVar var full st0
           = uart_printf (var_text var (cfg st0)) st0).
Proof.
  intros Hl. eexists _, _. split; [apply uart_printf_eq|].
  cbn [trace emit fmt_buf set_fmt_buf].
  split; [reflexivity|].
  split; [apply printf_text_length|].
  split; [intros Hn; apply cut_take_substring; exact Hn|].
  split; [reflexivity|].
  split; [|intros; apply cliPrintVar_eq].
  unfold vsnprintf, FMT_BUF_SIZE.
  rewrite length_app. cbn [length]. rewrite length_drop, length_take.
  rewrite Hl. lia.
Qed.

Lemma uart_printf_bounded_witness :
  length (fmt_buf demo_prompt) = 64%nat
  /\ exists sent st',
       uart_printf demo_long_text demo_prompt = Ok (tt, st')
       /\ trace st'
          = trace demo_prompt ++ [Ev_serial_puts (cl_out demo_prompt) sent]
       /\ (String.length sent <= 63)%nat
       /\ (nul_free demo_long_text ->
           sent = String.substring 0 63 demo_long_text)
       /\ fmt_buf st' = vsnprintf (fmt_buf demo_prompt) 64 demo_long_text
       /\ length (fmt_buf st') = 64%nat
       /\ (forall var full st0,
              cliPrintVar var full st0
              = uart_printf (var_text var (cfg st0)) st0).
Proof.
  split; [reflexivity|].
  apply (uart_printf_bounded demo_long_text demo_prompt). reflexivity.
Defined.

(** * Further properties *)

Section Respects.

Variable R : state -> state -> Prop.
Hypothesis R_refl : forall st, R st st.
Hypothesis R_trans : forall a b c, R a b -> R b c -> R a c.

Lemma respects_ret {A : Type} (a : A) : respects R (ret a).
Proof. intros st a' st' [= _ <-]. apply R_refl. Qed.

Lemma respects_get : respects R get.
Proof. intros st a' st' [= _ <-]. apply R_refl. Qed.

Lemma respects_raise {A : Type} (f : fault) : respects R (@raise A f).
Proof. intros st a st' [=]. Qed.

Lemma respects_bind {A B : Type} (m : M A) (k : A -> M B) :
  respects R m -> (forall a, respects R (k a)) -> respects R (bind m k).
Proof.
  intros Hm Hk st b st'. unfold bind.
  destruct (m st) as [[a st1]|f] eqn:E; [|done].
  intros Hb. apply Hm in E. apply Hk in Hb. eapply R_trans; eassumption.
Qed.

Lemma respects_modify (f : state -> state) :
  (forall st, R st (f st)) -> respects R (modify f).
Proof. intros Hf st a st' [= _ <-]. apply Hf. Qed.

Lemma respects_buf_cstr (off : nat) : respects R (buf_cstr off).
Proof.
  intros st a st'. unfold buf_cstr.
  destruct (cstr_at _); [|done]. intros [= _ <-]. apply R_refl.
Qed.

Lemma respects_buf_store (i : Z) (c : ascii) :
  (forall st v, R st (set_cl_buf v st)) -> respects R (buf_store i c).
Proof.
  intros HR st a st'. unfold buf_store. destruct (_ && _); [|done].
  intros [= _ <-]. apply HR.
Qed.

Lemma respects_uart_printf (text : string) :
  (forall st v s,
      R st (emit (Ev_serial_puts (cl_out st) s) (set_fmt_buf v st))) ->
  respects R (uart_printf text).
Proof.
  intros HR st a st'. rewrite uart_printf_eq. intros [= _ <-]. apply HR.
Qed.

End Respects.

Ltac frame_steps refl trans leaf :=
  repeat lazymatch goal with
    | |- respects _ (ret _) => apply (respects_ret _ refl)
    | |- respects _ get => apply (respects_get _ refl)
    | |- respects _ (raise _) => apply respects_raise
    | |- respects _ (buf_cstr _) => apply (respects_buf_cstr _ refl)
    | |- respects _ (buf_store _ _) => apply respects_buf_store; leaf
    | |- respects _ (uart_printf _) => apply respects_uart_printf; leaf
    | |- respects _ (modify _) => apply respects_modify; leaf
    | |- respects _ (bind _ _) =>
        apply (respects_bind _ trans); [|intros ?]
    | |- respects _ (if ?b then _ else _) => destruct b
    | |- respects _ (match ?x with _ => _ end) => destruct x
    | |- respects _ (let _ := _ in _) => cbv zeta
    | |- respects _ _ => assumption
    end.

Section Further.
Context `{Platform}.

(** *** Serial output only, configuration untouched *)

Lemma serial_step_refl (st : state) : serial_step st st.
Proof. exists []. rewrite app_nil_r. auto. Qed.

Lemma serial_step_trans (a b c : state) :
  serial_step a b -> serial_step b c -> serial_step a c.
Proof.
  intros (n1 & H1 & F1) (n2 & H2 & F2). exists (n1 ++ n2).
  rewrite H2, H1, <- app_assoc. split; [reflexivity|].
  apply List.Forall_app. auto.
Qed.

Lemma cfg_step_refl (st : state) : cfg_step st st.
Proof. reflexivity. Qed.

Lemma cfg_step_trans (a b c : state) :
  cfg_step a b -> cfg_step b c -> cfg_step a c.
Proof. unfold cfg_step. congruence. Qed.

Ltac serial_leaf :=
  intros; first
    [ apply serial_step_refl
    | exists []; split; [cbn; rewrite app_nil_r; reflexivity | constructor]
    | eexists [_]; split; [reflexivity | repeat constructor] ].

Ltac serial := frame_steps serial_step_refl serial_step_trans serial_leaf.

Ltac cfg_leaf := intros; reflexivity.

Ltac cfgs := frame_steps cfg_step_refl cfg_step_trans cfg_leaf.

Lemma serial_cliPrintVar (var : clivalue_t) (full : Z) :
  respects serial_step (cliPrintVar var full).
Proof. unfold cliPrintVar. serial. Qed.

Lemma serial_cliSet_list (tbl : list clivalue_t) (len : Z) :
  respects serial_step (cliSet_list tbl len).
Proof.
  induction tbl as [|v tbl IH]; cbn [cliSet_list];
    unfold uartPrint, serial_puts; serial; auto using serial_cliPrintVar.
Qed.

Lemma serial_cliSet_assign (tbl : list clivalue_t) (a b : string) :
  respects serial_step (cliSet_assign tbl a b).
Proof.
  induction tbl as [|v tbl IH]; cbn [cliSet_assign];
    unfold uartPrint, serial_puts, cliSetVar; serial;
    auto using serial_cliPrintVar.
Qed.

Lemma serial_cliSet (cmdline : nat) : respects serial_step (cliSet cmdline).
Proof.
  unfold cliSet, uartPrint, serial_puts. serial;
    auto using serial_cliSet_list, serial_cliSet_assign.
Qed.

Lemma serial_cliHelp (cmdline : nat) :
  respects serial_step (cliHelp cmdline).
Proof.
  unfold cliHelp, uartPrint, serial_puts, cmd_table.
  cbn [cliHelp_loop]. serial.
Qed.

Lemma serial_cliInfo (cmdline : nat) :
  respects serial_step (cliInfo cmdline).
Proof.
  unfold cliInfo, cliVersion, cli_print_hwaddr, cliUptime, uartPrint,
    serial_puts. serial.
Qed.

Lemma serial_cliExit (cmdline : nat) :
  respects serial_step (cliExit cmdline).
Proof. unfold cliExit, uartPrint, serial_puts. serial. Qed.

Lemma serial_cli_feed_eol (c : ascii) : respects serial_step (cli_feed_eol c).
Proof.
  unfold cli_feed_eol, cliPrompt, uartPrint, serial_puts.
  serial.
Qed.

Lemma cfg_cliPrintVar (var : clivalue_t) (full : Z) :
  respects cfg_step (cliPrintVar var full).
Proof. unfold cliPrintVar. cfgs. Qed.

Lemma cfg_cliWriteConfig : respects cfg_step cliWriteConfig.
Proof.
  unfold cliWriteConfig, uartPrint, serial_puts, CoTickDelay, write_AIRCR.
  cfgs. intros st0 r st1 [= _ <-]. reflexivity.
Qed.

Lemma cfg_cliHelp (cmdline : nat) : respects cfg_step (cliHelp cmdline).
Proof.
  unfold cliHelp, uartPrint, serial_puts, cmd_table.
  cbn [cliHelp_loop]. cfgs.
Qed.

Lemma cfg_cliInfo (cmdline : nat) : respects cfg_step (cliInfo cmdline).
Proof.
  unfold cliInfo, cliVersion, cli_print_hwaddr, cliUptime, uartPrint,
    serial_puts. cfgs.
Qed.

Lemma cfg_cliExit (cmdline : nat) : respects cfg_step (cliExit cmdline).
Proof. unfold cliExit, uartPrint, serial_puts. cfgs. Qed.

Lemma cfg_cli_feed_eol (c : ascii) : respects cfg_step (cli_feed_eol c).
Proof.
  unfold cli_feed_eol, cliPrompt, uartPrint, serial_puts.
  cfgs.
Qed.

(** *** The outcomes of one call of [cli_feed] *)

Lemma cli_feed_cases (c : ascii) (st : state) :
  cl_buf st <> [] ->
  (cl_enabled st = 0 /\ c <> CR /\ c <> LF
   /\ cli_feed c st = Ok (tt, st))
  \/ (cl_count st = 0 /\ c = EOT
      /\ cli_feed c st = cliExit O (set_cl_enabled 1 st))
  \/ (c = FF
      /\ cli_feed c st
         = Ok (tt, emit (Ev_serial_puts (cl_out st) (crlf +:+ "# "))
                     (set_cl_enabled 1
                        (set_cl_count 0
                           (emit (Ev_serial_puts (cl_out st)
                                    (String ESC "[2J"
                                     +:+ String ESC "[1;1H"))
                              (set_cl_enabled 1 st))))))
  \/ ((c = CR \/ c = LF) /\ cl_count st <> 0
      /\ cli_feed c st
         = (cli_feed_enter ;; cli_feed_eol c) (set_cl_enabled 1 st))
  \/ ((c = CR \/ c = LF) /\ cl_count st = 0
      /\ cli_feed c st = cli_feed_eol c (set_cl_enabled 1 st))
  \/ ((c = BS \/ c = DEL) /\ cl_count st <> 0
      /\ cli_feed c st
         = (buf_store ((cl_count st - 1) mod 2 ^ 8) NUL ;;
            uartPrint (String BS (String SP (String BS EmptyString))))
             (set_cl_count ((cl_count st - 1) mod 2 ^ 8)
                (set_cl_enabled 1 st)))
  \/ (32 <= code c <= 126 /\ c <> "?"%char /\ cl_count st < CL_BUF_SIZE
      /\ ~ (cl_count st = 0 /\ c = SP)
      /\ cli_feed c st
         = (buf_store (cl_count st) c ;;
            modify (set_cl_count ((cl_count st + 1) mod 2 ^ 8)) ;;
            serial_putc c) (set_cl_enabled 1 st))
  \/ cli_feed c st = Ok (tt, set_cl_enabled 1 st).
Proof.
  intros Hbuf.
  remember (cli_feed c st) as r eqn:Hr. unfold cli_feed in Hr.
  destruct ((cl_enabled st =? 0) && negb (Ascii.eqb c CR)
            && negb (Ascii.eqb c LF)) eqn:Edis.
  { left. apply andb_true_iff in Edis as [Edis Hlf].
    apply andb_true_iff in Edis as [He Hcr].
    repeat split; try lia; try exact Hr.
    - apply Ascii.eqb_neq. destruct (Ascii.eqb c CR); done.
    - apply Ascii.eqb_neq. destruct (Ascii.eqb c LF); done. }
  right. unfold bind at 1 2 in Hr. unfold modify at 1, get at 1 in Hr.
  cbn [cl_count set_cl_enabled] in Hr.
  destruct (Ascii.eqb c TAB || Ascii.eqb c "?") eqn:Etab;
    [do 6 right; exact Hr|].
  apply orb_false_iff in Etab as [_ Hq]. apply Ascii.eqb_neq in Hq.
  destruct ((cl_count st =? 0) && Ascii.eqb c EOT) eqn:Eeof.
  { left. apply andb_true_iff in Eeof as [H0 He].
    apply Ascii.eqb_eq in He. split; [lia|]. split; [exact He|exact Hr]. }
  right.
  destruct (Ascii.eqb c FF) eqn:Eff.
  { left. apply Ascii.eqb_eq in Eff. split; [exact Eff|exact Hr]. }
  right.
  destruct (Ascii.eqb c LF || Ascii.eqb c CR) eqn:Eeol.
  { assert (c = CR \/ c = LF) as Hc.
    { apply orb_true_iff in Eeol as [E|E]; apply Ascii.eqb_eq in E; auto. }
    destruct (cl_count st =? 0) eqn:E0; cbn [negb] in Hr.
    - destruct (Ascii.eqb c LF) eqn:Elf.
      + unfold bind at 1 2 in Hr. unfold buf_load in Hr.
        cbn [cl_buf set_cl_enabled] in Hr.
        change (Z.to_nat 0) with O in Hr.
        destruct (cl_buf st) as [|c0 buf] eqn:E00; [done|].
        cbn [lookup list_lookup Z.leb Z.compare ret] in Hr.
        destruct (Ascii.eqb c0 CR).
        * do 4 right. exact Hr.
        * right. left. split; [exact Hc|]. split; [lia|exact Hr].
      + right. left. split; [exact Hc|]. split; [lia|exact Hr].
    - left. split; [exact Hc|]. split; [lia|exact Hr]. }
  right. right.
  destruct (Ascii.eqb c BS || Ascii.eqb c DEL) eqn:Ebs.
  { assert (c = BS \/ c = DEL) as Hc.
    { apply orb_true_iff in Ebs as [E|E]; apply Ascii.eqb_eq in E; auto. }
    destruct (cl_count st =? 0) eqn:E0; cbn [negb] in Hr.
    - do 2 right. exact Hr.
    - left. split; [exact Hc|]. split; [lia|exact Hr]. }
  right.
  destruct ((cl_count st <? CL_BUF_SIZE) && (32 <=? code c)
            && (code c <=? 126)) eqn:Epr; [|right; exact Hr].
  apply andb_true_iff in Epr as [Epr H126].
  apply andb_true_iff in Epr as [Hlt H32].
  destruct ((cl_count st =? 0) && (code c =? 32)) eqn:Esp;
    [right; exact Hr|].
  left. repeat split; try lia; try exact Hq; try exact Hr.
  intros [H0 Hsp]. subst c. rewrite H0 in Esp. discriminate.
Qed.

Lemma reset_after_write_serial (new : list event) :
  List.Forall serial_event new -> reset_after_write new.
Proof.
  intros Hall pre v post ->.
  apply List.Forall_app in Hall as [_ Hall].
  inversion Hall as [|e l He _]. destruct He.
Qed.

Lemma reset_after_write_app (a b : list event) :
  reset_after_write a -> reset_after_write b ->
  reset_after_write (a ++ b).
Proof.
  intros Ha Hb pre v post E.
  apply app_eq_app in E as (l & [[Ea El]|[Ep Eb]]).
  - destruct l as [|e l].
    + cbn [app] in El. symmetry in El.
      destruct (Hb [] v post El) as (img & []).
    + cbn [app] in El. injection El as <- _.
      apply (Ha pre v l). exact Ea.
  - destruct (Hb l v post Eb) as (img & Hin).
    exists img. rewrite Ep. apply in_or_app. right. exact Hin.
Qed.

(** What [cliWriteConfig] adds to the trace: the reset request only
    behind a driver call that answered [EERR_OK]. *)
Lemma cliWriteConfig_trace (st : state) :
  exists st' new,
    cliWriteConfig st = Ok (tt, st')
    /\ trace st' = trace st ++ new
    /\ reset_after_write new.
Proof.
  unfold cliWriteConfig.
  set (notice := emit (Ev_serial_puts (cl_out st)
                         ("Writing EEPROM..." +:+ crlf)) st).
  set (r := eeprom_write_cfg (trace notice) (cfg st)).
  set (called := emit (Ev_eeprom_write_cfg (cfg st) r) notice).
  assert (forall k : Z -> M unit,
             (uartPrint ("Writing EEPROM..." +:+ crlf) ;;
              result <- call_eeprom_write_cfg ;; k result) st
             = k r called) as Hrun by reflexivity.
  rewrite Hrun.
  assert (forall msg v,
             reset_after_write
               [Ev_serial_puts (cl_out st) ("Writing EEPROM..." +:+ crlf);
                Ev_eeprom_write_cfg (cfg st) v;
                Ev_serial_puts (cl_out st) msg]) as Hfail.
  { intros msg v pre w post E.
    destruct pre as [|e1 [|e2 [|e3 [|e4 pre]]]]; discriminate E. }
  destruct (r =? EERR_TIMEOUT) eqn:E1;
    [|destruct (r =? EERR_NACK) eqn:E2;
      [|destruct (r =? EERR_FAULT) eqn:E3;
        [|destruct (r =? EERR_OK) eqn:E4; cbn [negb]]]];
    eexists _, _; (split; [reflexivity|]);
    cbn [trace emit called notice]; rewrite <- ?app_assoc;
    (split; [reflexivity|]); cbn [app]; try apply Hfail.
  apply Z.eqb_eq in E4.
  intros pre w post E.
  destruct pre as [|e1 [|e2 [|e3 [|e4 [|e5 [|e6 pre]]]]]];
    try discriminate E.
  injection E as <- <- <- <- _ _.
  exists (cfg st). right. left. f_equal. exact E4.
Qed.

Lemma call_func_effects (f : cmd_func) (off : nat) (st st' : state) :
  call_func f off st = Ok (tt, st') ->
  exists new,
    trace st' = trace st ++ new
    /\ (f <> F_cliSave -> f <> F_cliDefaults ->
        List.Forall serial_event new)
    /\ (f <> F_cliSet -> f <> F_cliDefaults -> cfg st' = cfg st)
    /\ reset_after_write new.
Proof.
  assert (forall m : M unit,
             respects serial_step m ->
             m st = Ok (tt, st') ->
             exists new,
               trace st' = trace st ++ new
               /\ List.Forall serial_event new
               /\ reset_after_write new)
    as Hquiet.
  { intros m Hm Hrun. destruct (Hm _ _ _ Hrun) as (new & Htr & Hall).
    exists new. repeat split; auto.
    apply reset_after_write_serial. exact Hall. }
  destruct f; cbn [call_func]; intros Hrun.
  - unfold cliDefaults in Hrun. unfold bind at 1 in Hrun.
    unfold modify at 1 in Hrun.
    destruct (cliWriteConfig_trace (set_cfg (cfg_defaults (cfg st)) st))
      as (s1 & new & Hw & Htr & Hres).
    rewrite Hw in Hrun. injection Hrun as <-.
    exists new. split; [exact Htr|]. split; [done|]. split; [done|].
    exact Hres.
  - destruct (Hquiet _ (serial_cliExit off) Hrun) as (new & ? & ? & ?).
    exists new. repeat split; auto.
    intros _ _. apply (cfg_cliExit off _ _ _ Hrun).
  - destruct (Hquiet _ (serial_cliHelp off) Hrun) as (new & ? & ? & ?).
    exists new. repeat split; auto.
    intros _ _. apply (cfg_cliHelp off _ _ _ Hrun).
  - destruct (Hquiet _ (serial_cliInfo off) Hrun) as (new & ? & ? & ?).
    exists new. repeat split; auto.
    intros _ _. apply (cfg_cliInfo off _ _ _ Hrun).
  - unfold cliSave in Hrun.
    destruct (cliWriteConfig_trace st) as (s1 & new & Hw & Htr & Hres).
    rewrite Hw in Hrun. injection Hrun as <-.
    exists new. split; [exact Htr|]. split; [done|].
    split; [intros _ _; apply (cfg_cliWriteConfig _ _ _ Hw)|].
    exact Hres.
  - destruct (Hquiet _ (serial_cliSet off) Hrun) as (new & ? & ? & ?).
    exists new. repeat split; auto. done.
  - assert (respects serial_step (cliUptime off)) as Hs
      by (unfold cliUptime, uartPrint, serial_puts; serial).
    assert (respects cfg_step (cliUptime off)) as Hc
      by (unfold cliUptime, uartPrint, serial_puts; cfgs).
    destruct (Hquiet _ Hs Hrun) as (new & ? & ? & ?).
    exists new. repeat split; auto. intros _ _. apply (Hc _ _ _ Hrun).
  - assert (respects serial_step (cliVersion off)) as Hs
      by (unfold cliVersion, uartPrint, serial_puts; serial).
    assert (respects cfg_step (cliVersion off)) as Hc
      by (unfold cliVersion, uartPrint, serial_puts; cfgs).
    destruct (Hquiet _ Hs Hrun) as (new & ? & ? & ?).
    exists new. repeat split; auto. intros _ _. apply (Hc _ _ _ Hrun).
Qed.

Lemma cli_feed_enter_bound (st st' : state) :
  cli_feed_enter st = Ok (tt, st') -> 0 <= cl_count st < CL_BUF_SIZE.
Proof.
  unfold cli_feed_enter. intros Hrun.
  apply bind_ok_inv in Hrun as ([] & s1 & H1 & Hrun).
  injection H1 as <-.
  apply bind_ok_inv in Hrun as (s2 & s2' & H2 & Hrun).
  injection H2 as <- <-.
  apply bind_ok_inv in Hrun as ([] & s3 & H3 & _).
  unfold buf_store in H3. cbn [cl_count emit] in H3.
  destruct ((0 <=? cl_count st) && (cl_count st <? CL_BUF_SIZE)) eqn:E;
    [|done].
  lia.
Qed.

(** X1: what one byte can set off.  Whatever [cli_feed] does, it only
    adds to the trace.  Unless the byte ends a line that the search
    resolves to [save] or [defaults], all it adds is serial output (so no
    EEPROM write, no delay, no reset); unless the line resolves to [set]
    or [defaults], the configuration record is unchanged; and wherever a
    reset request stands in what was added, an EEPROM write that answered
    [EERR_OK] stands before it. *)
Theorem cli_feed_side_effects (c : ascii) (st st' : state) :
  wf st -> cli_feed c st = Ok (tt, st') ->
  exists new,
    trace st' = trace st ++ new
    /\ (dispatched c st <> Some F_cliSave ->
        dispatched c st <> Some F_cliDefaults ->
        List.Forall serial_event new)
    /\ (dispatched c st <> Some F_cliSet ->
        dispatched c st <> Some F_cliDefaults ->
        cfg st' = cfg st)
    /\ (forall pre v post,
          new = pre ++ Ev_AIRCR v :: post ->
          exists img, In (Ev_eeprom_write_cfg img EERR_OK) pre).
Proof.
  intros Hwf Hrun.
  change (exists new,
             trace st' = trace st ++ new
             /\ (dispatched c st <> Some F_cliSave ->
                 dispatched c st <> Some F_cliDefaults ->
                 List.Forall serial_event new)
             /\ (dispatched c st <> Some F_cliSet ->
                 dispatched c st <> Some F_cliDefaults ->
                 cfg st' = cfg st)
             /\ reset_after_write new).
  assert (forall s : state,
             trace s = trace st -> cfg s = cfg st ->
             serial_step s st' -> cfg_step s st' ->
             exists new,
               trace st' = trace st ++ new
               /\ (dispatched c st <> Some F_cliSave ->
                   dispatched c st <> Some F_cliDefaults ->
                   List.Forall serial_event new)
               /\ (dispatched c st <> Some F_cliSet ->
                   dispatched c st <> Some F_cliDefaults ->
                   cfg st' = cfg st)
               /\ reset_after_write new)
    as Hquiet.
  { intros s Htr Hcfg (new & Hnew & Hall) Hc. exists new.
    rewrite <- Htr. split; [exact Hnew|]. split; [auto|].
    split; [intros _ _; rewrite <- Hcfg; exact Hc|].
    apply reset_after_write_serial. exact Hall. }
  assert (cl_buf st <> []) as Hne
    by (intros E; pose proof (wf_buf _ Hwf) as Hl; rewrite E in Hl;
        discriminate).
  destruct (cli_feed_cases c st Hne)
    as [(_ & _ & _ & E)|[(_ & _ & E)|[(_ & E)|[(Hc & Hn & E)|
       [(_ & _ & E)|[(_ & _ & E)|[(_ & _ & _ & _ & E)|E]]]]]]];
    rewrite E in Hrun; clear E.
  - injection Hrun as <-.
    apply (Hquiet st); auto using serial_step_refl, cfg_step_refl.
  - apply (Hquiet (set_cl_enabled 1 st)); auto.
    + apply (serial_cliExit O _ _ _ Hrun).
    + apply (cfg_cliExit O _ _ _ Hrun).
  - injection Hrun as <-.
    apply (Hquiet st); auto; [|reflexivity].
    eexists [_; _]. cbn [trace emit set_cl_enabled set_cl_count].
    rewrite <- app_assoc. split; [reflexivity|]. repeat constructor.
  - (* a line is dispatched *)
    apply bind_ok_inv in Hrun as ([] & s2 & Henter & Heol).
    pose proof (cli_feed_enter_bound _ _ Henter) as Hb.
    rewrite cli_feed_enter_eq in Henter
      by (first [exact Hb | apply Hwf]).
    cbn [cl_count cl_buf cl_out set_cl_enabled] in Henter.
    change (held_line (set_cl_enabled 1 st)) with (held_line st) in Henter.
    apply bind_ok_inv in Henter as ([] & s3 & Hh & Hz).
    injection Hz as <-.
    destruct (serial_cli_feed_eol c _ _ _ Heol) as (ne & Hne_tr & Hne_all).
    pose proof (cfg_cli_feed_eol c _ _ _ Heol) as Hce.
    unfold cfg_step in Hce. cbn [cfg trace set_cl_buf] in Hce, Hne_tr.
    assert (dispatched c st
            = option_map func
                (bsearch (cliCompare (held_line st)) cmd_table)) as Hd.
    { unfold dispatched.
      replace (Ascii.eqb c CR || Ascii.eqb c LF) with true
        by (destruct Hc as [-> | ->]; reflexivity).
      replace (cl_count st =? 0) with false by lia. reflexivity. }
    rewrite Hd.
    destruct (bsearch (cliCompare (held_line st)) cmd_table) as [cmd|];
      cbn [option_map].
    + apply call_func_effects in Hh as (nh & Hnh & Hser & Hcfg & Hres).
      cbn [trace cfg emit set_cl_buf set_cl_enabled] in Hnh, Hcfg.
      exists ([Ev_serial_puts (cl_out st) crlf] ++ nh ++ ne).
      rewrite Hne_tr, Hnh, <- !app_assoc.
      split; [reflexivity|]. split; [|split].
      * intros H1 H2. constructor; [exact I|].
        apply List.Forall_app. split; [|exact Hne_all].
        apply Hser; congruence.
      * intros H1 H2. rewrite Hce. apply Hcfg; congruence.
      * apply reset_after_write_app;
          [apply reset_after_write_serial; repeat constructor|].
        apply reset_after_write_app; [exact Hres|].
        apply reset_after_write_serial. exact Hne_all.
    + injection Hh as <-.
      cbn [trace cfg emit set_cl_buf set_cl_enabled] in Hne_tr, Hce.
      exists ([Ev_serial_puts (cl_out st) crlf;
               Ev_serial_puts (cl_out st)
                 ("ERR: Unknown command, try 'help'" +:+ crlf)] ++ ne).
      rewrite Hne_tr, <- !app_assoc. cbn [app].
      assert (List.Forall serial_event
                (Ev_serial_puts (cl_out st) crlf
                 :: Ev_serial_puts (cl_out st)
                      ("ERR: Unknown command, try 'help'" +:+ crlf)
                 :: ne)) as Hall
        by (repeat constructor; exact Hne_all).
      split; [reflexivity|]. split; [|split].
      * intros _ _. exact Hall.
      * intros _ _. exact Hce.
      * apply reset_after_write_serial. exact Hall.
  - apply (Hquiet (set_cl_enabled 1 st)); auto.
    + apply (serial_cli_feed_eol c _ _ _ Hrun).
    + apply (cfg_cli_feed_eol c _ _ _ Hrun).
  - apply (Hquiet (set_cl_count ((cl_count st - 1) mod 2 ^ 8)
                     (set_cl_enabled 1 st))); auto.
    + match type of Hrun with ?m _ = _ =>
        assert (respects serial_step m) as Hs
          by (unfold uartPrint, serial_puts; serial)
      end.
      apply (Hs _ _ _ Hrun).
    + match type of Hrun with ?m _ = _ =>
        assert (respects cfg_step m) as Hs
          by (unfold uartPrint, serial_puts; cfgs)
      end.
      apply (Hs _ _ _ Hrun).
  - apply (Hquiet (set_cl_enabled 1 st)); auto.
    + match type of Hrun with ?m _ = _ =>
        assert (respects serial_step m) as Hs
          by (unfold serial_putc; serial)
      end.
      apply (Hs _ _ _ Hrun).
    + match type of Hrun with ?m _ = _ =>
        assert (respects cfg_step m) as Hs
          by (unfold serial_putc; cfgs)
      end.
      apply (Hs _ _ _ Hrun).
  - injection Hrun as <-.
    apply (Hquiet (set_cl_enabled 1 st));
      auto using serial_step_refl, cfg_step_refl.
Qed.

(** *** Running without a fault *)

Lemma returns_ret {A : Type} (a : A) : returns (ret a).
Proof. intros st. eexists _, _. reflexivity. Qed.

Lemma returns_get : returns get.
Proof. intros st. eexists _, _. reflexivity. Qed.

Lemma returns_modify (f : state -> state) : returns (modify f).
Proof. intros st. eexists _, _. reflexivity. Qed.

Lemma returns_bind {A B : Type} (m : M A) (k : A -> M B) :
  returns m -> (forall a, returns (k a)) -> returns (bind m k).
Proof.
  intros Hm Hk st. destruct (Hm st) as (a & s1 & E).
  destruct (Hk a s1) as (b & s2 & E2). exists b, s2.
  unfold bind. rewrite E. exact E2.
Qed.

Lemma returns_uart_printf (text : string) : returns (uart_printf text).
Proof. intros st. eexists _, _. apply uart_printf_eq. Qed.

Lemma returns_eeprom : returns call_eeprom_write_cfg.
Proof. intros st. eexists _, _. reflexivity. Qed.

Ltac returning :=
  repeat lazymatch goal with
    | |- returns (ret _) => apply returns_ret
    | |- returns get => apply returns_get
    | |- returns (modify _) => apply returns_modify
    | |- returns (uart_printf _) => apply returns_uart_printf
    | |- returns call_eeprom_write_cfg => apply returns_eeprom
    | |- returns (bind _ _) => apply returns_bind; [|intros ?]
    | |- returns (if ?b then _ else _) => destruct b
    | |- returns (match ?x with _ => _ end) => destruct x
    | |- returns (let _ := _ in _) => cbv zeta
    | |- returns _ => assumption
    end.

Lemma returns_cliPrintVar (var : clivalue_t) (full : Z) :
  returns (cliPrintVar var full).
Proof. unfold cliPrintVar. returning. Qed.

Lemma returns_cliSetVar (var : clivalue_t) (str : string) :
  returns (cliSetVar var str).
Proof. unfold cliSetVar. returning. Qed.

Lemma returns_cliSet_list (tbl : list clivalue_t) (len : Z) :
  returns (cliSet_list tbl len).
Proof.
  induction tbl as [|v tbl IH]; cbn [cliSet_list];
    unfold uartPrint, serial_puts; returning;
    auto using returns_cliPrintVar.
Qed.

Lemma returns_cliSet_assign (tbl : list clivalue_t) (a b : string) :
  returns (cliSet_assign tbl a b).
Proof.
  induction tbl as [|v tbl IH]; cbn [cliSet_assign];
    unfold uartPrint, serial_puts; returning;
    auto using returns_cliPrintVar, returns_cliSetVar.
Qed.

Lemma cstr_at_total (l : list ascii) (i : nat) :
  l !! i = Some NUL -> exists s, cstr_at l = Some s.
Proof.
  revert i. induction l as [|c l IH]; intros i Hi; [done|].
  cbn [cstr_at]. destruct (Ascii.eqb c NUL) eqn:E; [eauto|].
  destruct i as [|i].
  - cbn in Hi. injection Hi as ->. discriminate.
  - destruct (IH i Hi) as (s & ->). cbn. eauto.
Qed.

(** [cliSet] returns whenever a NUL lies at or behind its argument. *)
Lemma cliSet_returns (off i : nat) (st : state) :
  (off <= i)%nat -> cl_buf st !! i = Some NUL ->
  exists st', cliSet off st = Ok (tt, st').
Proof.
  intros Hle Hi.
  destruct (cstr_at_total (drop off (cl_buf st)) (i - off)) as (text & E).
  { rewrite lookup_drop. replace (off + (i - off))%nat with i by lia.
    exact Hi. }
  unfold cliSet. unfold bind at 1. unfold buf_cstr. rewrite E.
  match goal with |- exists st', ?m ?s = _ =>
    assert (returns m) as Hr
  end.
  { unfold uartPrint, serial_puts. returning;
      auto using returns_cliSet_list, returns_cliSet_assign. }
  destruct (Hr st) as ([] & st' & E'). eauto.
Qed.

Lemma call_func_returns (f : cmd_func) (off i : nat) (st : state) :
  (off <= i)%nat -> cl_buf st !! i = Some NUL ->
  exists st', call_func f off st = Ok (tt, st').
Proof.
  intros Hle Hi.
  assert (forall m : M unit, returns m -> exists st', m st = Ok (tt, st'))
    as Hr.
  { intros m Hm. destruct (Hm st) as ([] & st' & E). eauto. }
  destruct f; cbn [call_func];
    try solve
      [ apply Hr;
        unfold cliSave, cliDefaults, cliWriteConfig, cliExit, cliHelp,
          cliInfo, cliUptime, cliVersion, cli_print_hwaddr, uartPrint,
          serial_puts, CoTickDelay, write_AIRCR, cmd_table;
        cbn [cliHelp_loop]; returning ].
  eapply cliSet_returns; eassumption.
Qed.

Lemma cmd_name_short (cmd : clicmd_t) :
  In cmd cmd_table -> (strlen (name cmd) + 1 <= 9)%nat.
Proof.
  unfold cmd_table. cbn [In].
  intros Hin.
  repeat (destruct Hin as [<-|Hin]; [vm_compute; lia|]). destruct Hin.
Qed.

Lemma last_clear_insert_nul (l : list ascii) (i : nat) :
  l !! 63%nat = Some NUL -> <[i := NUL]> l !! 63%nat = Some NUL.
Proof.
  intros Hl. destruct (Nat.eq_dec i 63%nat) as [->|Hne].
  - apply list_lookup_insert_eq. eapply lookup_lt_Some. exact Hl.
  - rewrite list_lookup_insert_ne by exact Hne. exact Hl.
Qed.

Lemma cli_feed_eol_returns (c : ascii) (st : state) :
  exists st',
    cli_feed_eol c st = Ok (tt, st')
    /\ cl_buf st' = <[O := c]> (cl_buf st).
Proof.
  destruct (Z.eq_dec (cl_enabled st) 0) as [He|He].
  - rewrite cli_feed_eol_disabled by exact He. eauto.
  - rewrite cli_feed_eol_enabled by exact He. eauto.
Qed.

(** Ending a line that holds characters: the sentinel, the search, the
    handler, the clearing of the buffer and the prompt. *)
Lemma cli_feed_dispatch_safe (c : ascii) (st : state) :
  wf st -> last_clear st -> 0 < cl_count st <= 63 ->
  exists st',
    (cli_feed_enter ;; cli_feed_eol c) (set_cl_enabled 1 st)
    = Ok (tt, st')
    /\ last_clear st' /\ cl_count st' = 0.
Proof.
  intros Hwf Hlast Hn. pose proof Hwf as [Hlen Hcnt Hdis].
  unfold last_clear in *.
  unfold bind at 1.
  rewrite cli_feed_enter_eq
    by (cbn [cl_count cl_buf set_cl_enabled]; unfold CL_BUF_SIZE;
        first [lia | exact Hlen]).
  cbn [cl_count cl_buf cl_out set_cl_enabled].
  change (held_line (set_cl_enabled 1 st)) with (held_line st).
  set (s0 := set_cl_buf (<[Z.to_nat (cl_count st) := NUL]> (cl_buf st))
               (emit (Ev_serial_puts (cl_out st) crlf)
                  (set_cl_enabled 1 st))).
  assert (cl_buf s0 !! 63%nat = Some NUL) as Hlast0
    by (apply last_clear_insert_nul; exact Hlast).
  assert (exists s1,
             match bsearch (cliCompare (held_line st)) cmd_table with
             | Some cmd => call_func (func cmd) (strlen (name cmd) + 1)%nat
             | None =>
                 uartPrint ("ERR: Unknown command, try 'help'" +:+ crlf)
             end s0 = Ok (tt, s1)
             /\ (cl_enabled s1 = 0 -> cl_count s1 = 0)) as (s1 & Hh & Hd1).
  { destruct (bsearch (cliCompare (held_line st)) cmd_table)
      as [cmd|] eqn:Efind.
    - apply bsearch_sound in Efind as [Hin _].
      destruct (call_func_returns (func cmd) (strlen (name cmd) + 1)
                  63%nat s0) as (s1 & Hs1); [|exact Hlast0|].
      { pose proof (cmd_name_short cmd Hin). lia. }
      exists s1. split; [exact Hs1|].
      apply call_func_post in Hs1 as (_ & _ & [[_ He]|[Hc0 _]]).
      + rewrite He. cbn. discriminate.
      + intros _. exact Hc0.
    - eexists. split; [reflexivity|]. cbn. discriminate. }
  unfold bind at 1. rewrite Hh. unfold modify.
  match goal with |- context [cli_feed_eol c ?s] =>
    destruct (cli_feed_eol_returns c s) as (s2 & Heol & Hbuf);
    pose proof (cli_feed_eol_post c s s2 Heol) as Hpost
  end.
  rewrite Heol. exists s2. split; [reflexivity|].
  cbn [cl_buf cl_enabled cl_count set_cl_buf] in Hbuf, Hpost.
  destruct Hpost as [_ Hc0]; [reflexivity | exact Hd1 |].
  rewrite Hbuf, Hc0. split; reflexivity.
Qed.

(** A line end is safe up to a count of 63, and leaves a count of 0. *)
Lemma cli_feed_line_end_safe (c : ascii) (st : state) :
  wf st -> last_clear st -> c = CR \/ c = LF -> cl_count st <= 63 ->
  exists st',
    cli_feed c st = Ok (tt, st') /\ last_clear st' /\ cl_count st' = 0.
Proof.
  intros Hwf Hlast Hc Hn. pose proof Hwf as [Hlen Hcnt Hdis].
  destruct (Z.eq_dec (cl_count st) 0) as [H0|H0].
  - destruct (cl_buf st) as [|c0 buf] eqn:Ebuf; [discriminate|].
    rewrite (cli_feed_line_end_empty c c0)
      by (auto; rewrite Ebuf; reflexivity).
    destruct (Ascii.eqb c LF && Ascii.eqb c0 CR).
    + eexists. split; [reflexivity|]. split; [|exact H0].
      unfold last_clear. cbn [cl_buf set_cl_enabled]. exact Hlast.
    + destruct (cli_feed_eol_returns c (set_cl_enabled 1 st))
        as (s2 & Heol & Hbuf).
      pose proof (cli_feed_eol_post c _ s2 Heol) as Hpost.
      cbn [cl_buf cl_enabled cl_count set_cl_enabled] in Hbuf, Hpost.
      destruct Hpost as [_ Hc0];
        [apply (wf_buf _ Hwf) | discriminate |].
      exists s2. split; [exact Heol|]. split; [|exact Hc0].
      unfold last_clear in *. rewrite Hbuf.
      rewrite list_lookup_insert_ne by discriminate. exact Hlast.
  - rewrite cli_feed_line_end by auto.
    apply cli_feed_dispatch_safe; auto. lia.
Qed.

Lemma cli_feed_safe_step (c : ascii) (st : state) :
  wf st -> last_clear st -> cl_count st < 63 ->
  exists st',
    cli_feed c st = Ok (tt, st')
    /\ last_clear st' /\ cl_count st' <= cl_count st + 1.
Proof.
  intros Hwf Hlast Hn. pose proof Hwf as [Hlen Hcnt Hdis].
  unfold CL_BUF_SIZE in Hcnt.
  assert (cl_buf st <> []) as Hne
    by (intros E; rewrite E in Hlen; discriminate).
  destruct (cli_feed_cases c st Hne)
    as [(_ & _ & _ & E)|[(H0 & _ & E)|[(_ & E)|[(Hc & Hn0 & E)|
       [(_ & H0 & E)|[(_ & Hn0 & E)|[(_ & _ & _ & _ & E)|E]]]]]]];
    rewrite E; clear E.
  - exists st. split; [reflexivity|]. split; [exact Hlast|lia].
  - rewrite cliExit_eq. eexists. split; [reflexivity|].
    cbn [cl_buf cl_count set_cl_enabled set_cl_count emit set_cl_buf].
    split; [exact Hlast|lia].
  - eexists. split; [reflexivity|].
    cbn [cl_buf cl_count set_cl_enabled set_cl_count emit set_cl_buf].
    split; [exact Hlast|lia].
  - destruct (cli_feed_dispatch_safe c st Hwf Hlast)
      as (s2 & Hrun & Hl2 & Hc2); [lia|].
    exists s2. split; [exact Hrun|]. split; [exact Hl2|lia].
  - destruct (cli_feed_eol_returns c (set_cl_enabled 1 st))
      as (s2 & Heol & Hbuf).
    pose proof (cli_feed_eol_post c _ s2 Heol) as Hpost.
    cbn [cl_buf cl_enabled cl_count set_cl_enabled] in Hbuf, Hpost.
    destruct Hpost as [_ Hc0]; [exact Hlen | discriminate |].
    exists s2. split; [exact Heol|]. unfold last_clear in *.
    rewrite Hbuf, Hc0. split; [|lia].
    rewrite list_lookup_insert_ne by discriminate. exact Hlast.
  - unfold last_clear in *.
    unfold bind, buf_store, uartPrint, serial_puts, modify, CL_BUF_SIZE.
    cbn [cl_count set_cl_count set_cl_enabled].
    rewrite (Z.mod_small (cl_count st - 1)) by lia.
    replace ((0 <=? cl_count st - 1) && (cl_count st - 1 <? 64))
      with true by lia.
    eexists. split; [reflexivity|].
    cbn [cl_buf cl_count set_cl_enabled set_cl_count emit set_cl_buf].
    split; [apply last_clear_insert_nul; exact Hlast | lia].
  - unfold last_clear in *.
    unfold bind, buf_store, serial_putc, modify, CL_BUF_SIZE.
    cbn [cl_count set_cl_count set_cl_enabled].
    replace ((0 <=? cl_count st) && (cl_count st <? 64)) with true by lia.
    rewrite (Z.mod_small (cl_count st + 1)) by lia.
    eexists. split; [reflexivity|].
    cbn [cl_buf cl_count set_cl_enabled set_cl_count emit set_cl_buf].
    split; [|lia].
    rewrite list_lookup_insert_ne by lia. exact Hlast.
  - eexists. split; [reflexivity|].
    cbn [cl_buf cl_count set_cl_enabled set_cl_count emit set_cl_buf].
    split; [exact Hlast|lia].
Qed.

(** One byte of a stream with short lines. *)
Lemma cli_feed_short_step (room : nat) (c : ascii) (bytes : list ascii)
    (st : state) :
  wf st -> last_clear st -> cl_count st + Z.of_nat room <= 63 ->
  short_lines room (c :: bytes) ->
  exists s1 room',
    cli_feed c st = Ok (tt, s1) /\ wf s1 /\ last_clear s1
    /\ cl_count s1 + Z.of_nat room' <= 63
    /\ short_lines room' bytes.
Proof.
  intros Hwf Hlast Hn Hfit. cbn [short_lines] in Hfit.
  assert (exists s1 room',
             cli_feed c st = Ok (tt, s1) /\ last_clear s1
             /\ cl_count s1 + Z.of_nat room' <= 63
             /\ short_lines room' bytes)
    as (s1 & room' & Hrun & Hl1 & Hn1 & Hfit1).
  { destruct (Ascii.eqb c CR || Ascii.eqb c LF) eqn:Eend.
    - destruct (cli_feed_line_end_safe c st Hwf Hlast)
        as (s1 & Hrun & Hl1 & Hc1).
      + apply orb_true_iff in Eend as [E|E];
          apply Ascii.eqb_eq in E; auto.
      + lia.
      + exists s1, 63%nat. split; [exact Hrun|]. split; [exact Hl1|].
        split; [rewrite Hc1; cbn; lia | exact Hfit].
    - destruct room as [|room]; [contradiction|].
      destruct (cli_feed_safe_step c st Hwf Hlast)
        as (s1 & Hrun & Hl1 & Hc1); [lia|].
      exists s1, room. split; [exact Hrun|]. split; [exact Hl1|].
      split; [lia | exact Hfit]. }
  exists s1, room'. split; [exact Hrun|].
  split; [apply (wf_cli_feed c st s1 Hwf Hrun)|]. auto.
Qed.

(** X2: no fault while lines stay short.  From a state that satisfies
    the invariant and whose last buffer cell is NUL (the reset state and
    the prompt are such states), any stream of bytes in which no run
    between two line ends is longer than 63 bytes is processed to the
    end, whatever the lines say and however many there are: every call
    returns, so nothing is read or written outside [cl_buf], and the
    invariant and the NUL in the last cell are kept. *)
Theorem cli_feed_all_safe (room : nat) (bytes : list ascii)
    (st : state) :
  wf st -> last_clear st -> cl_count st + Z.of_nat room <= 63 ->
  short_lines room bytes ->
  exists st',
    cli_feed_all bytes st = Ok (tt, st') /\ wf st' /\ last_clear st'.
Proof.
  revert room st.
  induction bytes as [|c bytes IH]; intros room st Hwf Hlast Hn Hfit.
  - exists st. cbn. auto.
  - destruct (cli_feed_short_step room c bytes st Hwf Hlast Hn Hfit)
      as (s1 & room' & Hrun & Hwf1 & Hl1 & Hn1 & Hfit1).
    destruct (IH room' s1 Hwf1 Hl1 Hn1 Hfit1) as (st' & Hrest & Hwf' & Hl').
    exists st'. cbn [cli_feed_all]. unfold bind. rewrite Hrun. auto.
Qed.

End Further.

Section Tables.

Lemma tolower_zero_code (c : ascii) : tolower c = 0 -> code c = 0.
Proof.
  unfold tolower. pose proof (code_range c).
  destruct ((65 <=? code c) && (code c <=? 90)) eqn:E; lia.
Qed.

Lemma strncasecmp_zero_inv (a b : string) (n : nat) :
  strncasecmp a b (S n) = 0 ->
  tolower (hd_char a) = tolower (hd_char b)
  /\ (code (hd_char a) = 0 \/ strncasecmp (tl_str a) (tl_str b) n = 0).
Proof.
  cbn [strncasecmp].
  destruct (tolower (hd_char a) - tolower (hd_char b) =? 0) eqn:E; [|lia].
  split; [lia|].
  destruct (code (hd_char a) =? 0) eqn:E0; [left; lia | right; assumption].
Qed.

(** Two names that agree on a prefix and then differ cannot both match
    one text. *)
Lemma strncasecmp_rivals (p r1 r2 a : string) (m1 m2 : nat) :
  nul_free p ->
  tolower (hd_char r1) <> tolower (hd_char r2) ->
  strncasecmp a (p +:+ r1) (String.length p + S m1) = 0 ->
  strncasecmp a (p +:+ r2) (String.length p + S m2) = 0 ->
  False.
Proof.
  revert a. induction p as [|c p IH]; intros a Hp Hd H1 H2.
  - change (EmptyString +:+ r1) with r1 in H1.
    change (EmptyString +:+ r2) with r2 in H2.
    cbn [String.length Nat.add] in H1, H2.
    apply strncasecmp_zero_inv in H1 as [E1 _].
    apply strncasecmp_zero_inv in H2 as [E2 _]. congruence.
  - destruct Hp as [Hc Hp].
    change (String c p +:+ r1) with (String c (p +:+ r1)) in H1.
    change (String c p +:+ r2) with (String c (p +:+ r2)) in H2.
    cbn [String.length Nat.add] in H1, H2.
    apply strncasecmp_zero_inv in H1 as [E1 T1].
    apply strncasecmp_zero_inv in H2 as [_ T2].
    cbn [hd_char tl_str] in E1, T1, T2.
    assert (code (hd_char a) <> 0) as Hne.
    { intros E0. apply tolower_nul in E0. rewrite E0 in E1.
      symmetry in E1. apply tolower_zero_code in E1.
      apply Hc. unfold code in E1.
      apply (f_equal Z.to_N) in E1. rewrite N2Z.id in E1.
      apply (f_equal ascii_of_N) in E1.
      rewrite ascii_N_embedding in E1. exact E1. }
    destruct T1 as [T1|T1]; [contradiction|].
    destruct T2 as [T2|T2]; [contradiction|].
    apply (IH (tl_str a)); assumption.
Qed.

(** X3: no two entries of [value_table] can match the same argument, so
    the entry that [cliSet] takes, the first that matches, is the only
    one that matches: the outcome does not depend on the order of the
    table. *)
Theorem value_table_unambiguous (text : string) (v1 v2 : clivalue_t) :
  In v1 value_table -> In v2 value_table ->
  var_matches text v1 = true -> var_matches text v2 = true ->
  v1 = v2 /\ find (var_matches text) value_table = Some v1.
Proof.
  intros H1 H2 M1 M2.
  assert (forall a b, In a value_table -> In b value_table ->
                      var_matches text a = true ->
                      var_matches text b = true -> a = b) as Huniq.
  { clear. intros a b Ha Hb Ma Mb.
    unfold var_matches in Ma, Mb. apply Z.eqb_eq in Ma, Mb.
    unfold value_table in Ha, Hb. cbn [In] in Ha, Hb.
    destruct Ha as [<-|[<-|[<-|[<-|[]]]]];
      destruct Hb as [<-|[<-|[<-|[<-|[]]]]];
      try reflexivity; exfalso; cbn [var_name] in Ma, Mb.
    - apply (strncasecmp_rivals "" "gps_baud_rate" "ip_addr" text 12 6);
        [exact I | discriminate | exact Ma | exact Mb].
    - apply (strncasecmp_rivals "" "gps_baud_rate" "ip_gateway" text 12 9);
        [exact I | discriminate | exact Ma | exact Mb].
    - apply (strncasecmp_rivals "" "gps_baud_rate" "ip_netmask" text 12 9);
        [exact I | discriminate | exact Ma | exact Mb].
    - apply (strncasecmp_rivals "" "ip_addr" "gps_baud_rate" text 6 12);
        [exact I | discriminate | exact Ma | exact Mb].
    - apply (strncasecmp_rivals "ip_" "addr" "gateway" text 3 6);
        [repeat split; discriminate | discriminate | exact Ma | exact Mb].
    - apply (strncasecmp_rivals "ip_" "addr" "netmask" text 3 6);
        [repeat split; discriminate | discriminate | exact Ma | exact Mb].
    - apply (strncasecmp_rivals "" "ip_gateway" "gps_baud_rate" text 9 12);
        [exact I | discriminate | exact Ma | exact Mb].
    - apply (strncasecmp_rivals "ip_" "gateway" "addr" text 6 3);
        [repeat split; discriminate | discriminate | exact Ma | exact Mb].
    - apply (strncasecmp_rivals "ip_" "gateway" "netmask" text 6 6);
        [repeat split; discriminate | discriminate | exact Ma | exact Mb].
    - apply (strncasecmp_rivals "" "ip_netmask" "gps_baud_rate" text 9 12);
        [exact I | discriminate | exact Ma | exact Mb].
    - apply (strncasecmp_rivals "ip_" "netmask" "addr" text 6 3);
        [repeat split; discriminate | discriminate | exact Ma | exact Mb].
    - apply (strncasecmp_rivals "ip_" "netmask" "gateway" text 6 6);
        [repeat split; discriminate | discriminate | exact Ma | exact Mb]. }
  split; [apply Huniq; assumption|].
  destruct (find (var_matches text) value_table) as [v|] eqn:Ef.
  - apply find_some in Ef as [Hin Hm]. f_equal. apply Huniq; assumption.
  - exfalso. pose proof (find_none _ _ Ef v1 H1) as Hn. congruence.
Qed.

End Tables.

Section Lines.
Context `{Platform}.

(** *** Line ends *)

Lemma cli_feed_cr_post (st st1 : state) :
  wf st -> cli_feed CR st = Ok (tt, st1) ->
  cl_count st1 = 0 /\ cl_buf st1 !! O = Some CR.
Proof.
  intros Hwf Hrun.
  assert (forall mid : state,
             length (cl_buf mid) = 64%nat ->
             (cl_enabled mid = 0 -> cl_count mid = 0) ->
             cli_feed_eol CR mid = Ok (tt, st1) ->
             cl_count st1 = 0 /\ cl_buf st1 !! O = Some CR) as Heol.
  { intros mid Hlen Hdis Hmid.
    destruct (Z.eq_dec (cl_enabled mid) 0) as [E|E].
    - rewrite cli_feed_eol_disabled in Hmid by exact E.
      injection Hmid as <-. cbn [cl_count cl_buf set_cl_buf].
      split; [auto|]. apply list_lookup_insert_eq. lia.
    - rewrite cli_feed_eol_enabled in Hmid by exact E.
      injection Hmid as <-. cbn [cl_count cl_buf set_cl_buf emit
                                   set_cl_enabled set_cl_count].
      split; [reflexivity|]. apply list_lookup_insert_eq. lia. }
  destruct (Z.eq_dec (cl_count st) 0) as [E0|E0].
  - destruct (cl_buf st) as [|c0 buf] eqn:Ebuf.
    { pose proof (wf_buf _ Hwf) as Hl. rewrite Ebuf in Hl. discriminate. }
    rewrite (cli_feed_line_end_empty CR c0) in Hrun
      by (auto; rewrite Ebuf; reflexivity).
    change (Ascii.eqb CR LF) with false in Hrun. cbn [andb] in Hrun.
    apply Heol in Hrun; [exact Hrun | | ].
    + apply (wf_buf _ Hwf).
    + cbn. discriminate.
  - rewrite cli_feed_line_end in Hrun by auto.
    apply bind_ok_inv in Hrun as (u & mid & Henter & Hmid). destruct u.
    apply cli_feed_enter_post in Henter as (Hbuf & _ & Hce).
    apply Heol in Hmid; [exact Hmid | | ].
    + rewrite Hbuf. reflexivity.
    + destruct Hce as [[_ He]|[Hc _]]; [|auto].
      rewrite He. cbn. discriminate.
Qed.

(** X4: a newline that follows a carriage return is swallowed.  Whatever
    the carriage return did (an empty line, a command, even [exit]), the
    newline after it prints nothing and leaves buffer, count and
    configuration alone; it only sets the enabled flag. *)
Theorem lf_after_cr_swallowed (st st1 : state) :
  wf st -> cli_feed CR st = Ok (tt, st1) ->
  cli_feed LF st1 = Ok (tt, set_cl_enabled 1 st1).
Proof.
  intros Hwf Hrun.
  destruct (cli_feed_cr_post st st1 Hwf Hrun) as (Hc & Hb).
  rewrite (cli_feed_line_end_empty LF CR) by auto.
  reflexivity.
Qed.

Lemma exit_line_state (st : state) :
  wf st -> cl_enabled st <> 0 -> cl_count st = 0 ->
  exists st1,
    cli_feed_all (list_ascii_of_string "exit" ++ [CR]) st = Ok (tt, st1)
    /\ cl_enabled st1 = 0 /\ cl_count st1 = 0
    /\ cl_buf st1 !! O = Some CR
    /\ cl_out st1 = cl_out st
    /\ trace st1
       = trace st
         ++ map (Ev_serial_putc (cl_out st)) (list_ascii_of_string "exit")
         ++ [Ev_serial_puts (cl_out st) crlf;
             Ev_serial_puts (cl_out st) exit_notice].
Proof.
  intros Hwf He Hn.
  destruct (cli_feed_typed_line (list_ascii_of_string "exit") CR st)
    as (_ & _ & Hrun);
    [ apply (printable_letters "exit"); reflexivity
    | exact Hwf | exact He | exact Hn
    | cbn; lia | cbn; discriminate | left; reflexivity | ].
  destruct (typed_state (list_ascii_of_string "exit") st O)
    as (_ & _ & _ & _ & Hout & _ & _ & Htr);
    [exact Hn | rewrite (wf_buf _ Hwf); cbn; lia |].
  rewrite Hrun. clear Hrun.
  remember (fold_left type_char (list_ascii_of_string "exit") st)
    as typed eqn:Etyped.
  clear Etyped.
  replace (bsearch
             (cliCompare
                (string_of_list_ascii (list_ascii_of_string "exit")))
             cmd_table)
    with (Some {| name := "exit"; param := "leave command mode";
                  func := F_cliExit |})
    by (vm_compute; reflexivity).
  cbn [func call_func].
  unfold bind at 1. rewrite cliExit_eq.
  unfold bind at 1. unfold modify at 1.
  rewrite cli_feed_eol_disabled by reflexivity.
  eexists. split; [reflexivity|].
  cbn [cl_enabled cl_count cl_buf cl_out trace set_cl_buf emit
         set_cl_enabled set_cl_count].
  split; [reflexivity|]. split; [reflexivity|].
  split; [reflexivity|]. split; [exact Hout|].
  rewrite Htr, Hout, <- !app_assoc. reflexivity.
Qed.

(** X5: [exit] ended by carriage return and newline does not stay
    disabled.  The carriage return runs [cliExit]; the newline is
    swallowed as the second half of the line end, but only after it has
    set the enabled flag again: the session is on, with no prompt
    written, and the next printable byte is taken in and echoed. *)
Theorem exit_crlf_enabled_again (c : ascii) (st : state) :
  wf st -> cl_enabled st <> 0 -> cl_count st = 0 ->
  32 <= code c <= 126 -> c <> "?"%char -> c <> SP ->
  exists st' st'',
    cli_feed_all (list_ascii_of_string "exit" ++ [CR; LF]) st
    = Ok (tt, st')
    /\ cl_enabled st' = 1 /\ cl_count st' = 0
    /\ trace st'
       = trace st
         ++ map (Ev_serial_putc (cl_out st)) (list_ascii_of_string "exit")
         ++ [Ev_serial_puts (cl_out st) crlf;
             Ev_serial_puts (cl_out st) exit_notice]
    /\ cli_feed c st' = Ok (tt, st'')
    /\ cl_count st'' = 1
    /\ trace st'' = trace st' ++ [Ev_serial_putc (cl_out st) c].
Proof.
  intros Hwf He Hn Hc Hq Hsp.
  destruct (exit_line_state st Hwf He Hn)
    as (st1 & Hrun & He1 & Hn1 & Hb1 & Ho1 & Ht1).
  exists (set_cl_enabled 1 st1).
  eexists. split.
  { change (list_ascii_of_string "exit" ++ [CR; LF])
      with ((list_ascii_of_string "exit" ++ [CR]) ++ [LF]).
    rewrite cli_feed_all_app. unfold bind at 1. rewrite Hrun.
    cbn [cli_feed_all]. rewrite bind_ret_r.
    rewrite (cli_feed_line_end_empty LF CR) by auto.
    reflexivity. }
  split; [reflexivity|]. split; [exact Hn1|]. split; [exact Ht1|].
  rewrite cli_feed_printable;
    [ | exact Hc | exact Hq
      | cbn [cl_count set_cl_enabled]; rewrite Hn1; unfold CL_BUF_SIZE; lia
      | cbn; discriminate | intros [_ ?]; contradiction ].
  split; [reflexivity|].
  cbn [cl_count trace cl_out emit set_cl_count set_cl_buf set_cl_enabled].
  rewrite Hn1, Ho1. split; reflexivity.
Qed.

(** X6: typing a character and rubbing it out again restores the line:
    the count and the held characters are as before, the cell that was
    written holds NUL, and the console has seen the echo and the erase
    sequence.  This holds up to the last cell of the buffer. *)
Theorem type_then_backspace (c b : ascii) (st : state) :
  wf st -> cl_enabled st <> 0 -> cl_count st < CL_BUF_SIZE ->
  32 <= code c <= 126 -> c <> "?"%char ->
  ~ (cl_count st = 0 /\ c = SP) ->
  b = BS \/ b = DEL ->
  exists st',
    cli_feed_all [c; b] st = Ok (tt, st')
    /\ cl_count st' = cl_count st
    /\ held_line st' = held_line st
    /\ cl_buf st' = <[Z.to_nat (cl_count st) := NUL]> (cl_buf st)
    /\ cfg st' = cfg st /\ cl_enabled st' = 1
    /\ trace st'
       = trace st
         ++ [Ev_serial_putc (cl_out st) c;
             Ev_serial_puts (cl_out st)
               (String BS (String SP (String BS EmptyString)))].
Proof.
  intros Hwf He Hlt Hc Hq Hsp Hb.
  pose proof (wf_count _ Hwf) as [H0 _].
  cbn [cli_feed_all]. unfold bind at 1.
  rewrite cli_feed_printable by (auto; lia).
  rewrite bind_ret_r.
  rewrite cli_feed_backspace;
    [ | exact Hb | cbn; unfold CL_BUF_SIZE in *; lia | cbn; discriminate ].
  eexists. split; [reflexivity|].
  cbn [cl_count cl_buf cfg trace cl_enabled cl_out emit set_cl_buf
         set_cl_count set_cl_enabled].
  replace (cl_count st + 1 - 1) with (cl_count st) by lia.
  split; [reflexivity|].
  assert (<[Z.to_nat (cl_count st):=NUL]>
            (<[Z.to_nat (cl_count st):=c]> (cl_buf st))
          = <[Z.to_nat (cl_count st):=NUL]> (cl_buf st)) as Hins
    by apply list_insert_insert_eq.
  split.
  { unfold held_line. cbn [cl_count cl_buf emit set_cl_buf set_cl_count
                             set_cl_enabled].
    rewrite Hins. rewrite take_insert_ge by lia. reflexivity. }
  split; [exact Hins|]. split; [reflexivity|]. split; [reflexivity|].
  rewrite <- app_assoc. reflexivity.
Qed.

End Lines.

Section Buffer.
Context `{Platform}.

(** *** What one byte does to the buffer and the count *)

Lemma cli_feed_eol_buf (c : ascii) (st st' : state) :
  cli_feed_eol c st = Ok (tt, st') ->
  (cl_enabled st = 0 -> cl_count st = 0) ->
  cl_count st' = 0 /\ cl_buf st' = <[O := c]> (cl_buf st).
Proof.
  intros Hrun Hdis.
  destruct (Z.eq_dec (cl_enabled st) 0) as [E|E].
  - rewrite cli_feed_eol_disabled in Hrun by exact E.
    injection Hrun as <-. cbn [cl_count cl_buf set_cl_buf]. auto.
  - rewrite cli_feed_eol_enabled in Hrun by exact E.
    injection Hrun as <-. cbn [cl_count cl_buf set_cl_buf emit
                                 set_cl_enabled set_cl_count]. auto.
Qed.

Lemma cli_feed_buffer (c : ascii) (st st' : state) :
  wf st -> cli_feed c st = Ok (tt, st') ->
  (cl_count st' = cl_count st /\ cl_buf st' = cl_buf st)
  \/ (c = FF /\ cl_count st' = 0 /\ cl_buf st' = cl_buf st)
  \/ ((c = CR \/ c = LF) /\ cl_count st = 0 /\ cl_count st' = 0
      /\ cl_buf st' = <[O := c]> (cl_buf st))
  \/ ((c = CR \/ c = LF) /\ cl_count st' = 0
      /\ cl_buf st' = <[O := c]> (replicate 64 NUL))
  \/ ((c = BS \/ c = DEL) /\ 0 < cl_count st
      /\ cl_count st' = cl_count st - 1
      /\ cl_buf st' = <[Z.to_nat (cl_count st - 1) := NUL]> (cl_buf st))
  \/ (32 <= code c <= 126 /\ c <> "?"%char /\ cl_count st < CL_BUF_SIZE
      /\ ~ (cl_count st = 0 /\ c = SP)
      /\ cl_count st' = cl_count st + 1
      /\ cl_buf st' = <[Z.to_nat (cl_count st) := c]> (cl_buf st)).
Proof.
  intros Hwf Hrun.
  pose proof (wf_count _ Hwf) as Hcount. unfold CL_BUF_SIZE in Hcount.
  assert (cl_buf st <> []) as Hne.
  { intros E. pose proof (wf_buf _ Hwf) as Hl. rewrite E in Hl.
    discriminate. }
  destruct (cli_feed_cases c st Hne)
    as [(_ & _ & _ & E)|[(Hn & _ & E)|[(Hc & E)|[(Hc & Hn & E)|
        [(Hc & Hn & E)|[(Hc & Hn & E)|[(Hc & Hq & Hlt & Hsp & E)|E]]]]]]];
    rewrite E in Hrun; clear E.
  - injection Hrun as <-. auto.
  - rewrite cliExit_eq in Hrun. injection Hrun as <-.
    left. cbn. auto.
  - injection Hrun as <-. right. left. cbn. auto.
  - apply bind_ok_inv in Hrun as ([] & mid & Henter & Heol).
    apply cli_feed_enter_post in Henter as (Hbuf & _ & Hce).
    apply cli_feed_eol_buf in Heol as (Hn' & Hb').
    + do 3 right. left. rewrite Hb', Hbuf. auto.
    + destruct Hce as [[_ He]|[Hz _]]; [|auto].
      rewrite He. cbn. discriminate.
  - apply cli_feed_eol_buf in Hrun as (Hn' & Hb'); [|cbn; discriminate].
    do 2 right. left. auto.
  - rewrite Z.mod_small in Hrun by lia.
    unfold bind at 1 in Hrun. unfold buf_store in Hrun.
    replace ((0 <=? cl_count st - 1) && (cl_count st - 1 <? CL_BUF_SIZE))
      with true in Hrun by (unfold CL_BUF_SIZE; lia).
    injection Hrun as <-. do 4 right. left.
    cbn. split; [auto|]. split; [lia|]. auto.
  - unfold bind at 1 in Hrun. unfold buf_store in Hrun.
    cbn [cl_count set_cl_enabled] in Hrun.
    replace ((0 <=? cl_count st) && (cl_count st <? CL_BUF_SIZE))
      with true in Hrun by lia.
    unfold CL_BUF_SIZE in Hlt. rewrite Z.mod_small in Hrun by lia.
    injection Hrun as <-. do 5 right. cbn. auto 10.
  - injection Hrun as <-. left. cbn. auto.
Qed.

Lemma length_string_of_list_ascii (l : list ascii) :
  String.length (string_of_list_ascii l) = length l.
Proof. induction l as [|c l IH]; cbn; [reflexivity | rewrite IH; auto]. Qed.

Lemma line_ok_cli_feed (c : ascii) (st st' : state) :
  wf st -> line_ok st -> cli_feed c st = Ok (tt, st') -> line_ok st'.
Proof.
  intros Hwf [Hall Hfirst] Hrun.
  pose proof (wf_count _ Hwf) as Hcount. unfold CL_BUF_SIZE in Hcount.
  pose proof (wf_buf _ Hwf) as Hlen.
  assert (forall s : state, cl_count s = 0 -> line_ok s) as Hzero.
  { intros s E. unfold line_ok. rewrite E. split; [constructor | lia]. }
  destruct (cli_feed_buffer c st st' Hwf Hrun)
    as [(Hn & Hb)|[(_ & Hn & _)|[(_ & _ & Hn & _)|[(_ & Hn & _)|
        [(_ & Hpos & Hn & Hb)|(Hc & Hq & Hlt & Hsp & Hn & Hb)]]]]];
    auto.
  - unfold line_ok. rewrite Hn, Hb. auto.
  - unfold line_ok. rewrite Hn, Hb. split.
    + rewrite take_insert_ge by lia.
      replace (take (Z.to_nat (cl_count st - 1)) (cl_buf st))
        with (take (Z.to_nat (cl_count st - 1))
                (take (Z.to_nat (cl_count st)) (cl_buf st)))
        by (rewrite take_take; f_equal; lia).
      apply Forall_take. exact Hall.
    + intros Hpos'. rewrite list_lookup_insert_ne by lia.
      apply Hfirst. lia.
  - unfold CL_BUF_SIZE in Hlt. unfold line_ok. rewrite Hn, Hb. split.
    + replace (Z.to_nat (cl_count st + 1))
        with (S (Z.to_nat (cl_count st))) by lia.
      rewrite (take_S_r _ _ c) by (apply list_lookup_insert_eq; lia).
      rewrite take_insert_ge by lia.
      apply List.Forall_app. split; [exact Hall|].
      constructor; [auto | constructor].
    + intros _. destruct (Z.eq_dec (cl_count st) 0) as [E|E].
      * rewrite E. change (Z.to_nat 0) with O.
        rewrite list_lookup_insert_eq by lia.
        intros [= ->]. apply Hsp. auto.
      * rewrite list_lookup_insert_ne by lia. apply Hfirst. lia.
Qed.

(** X7: the line that is held never contains anything but printable
    characters, never a question mark, and never starts with a space; so
    no NUL cuts it short: the text the search sees is the whole of what
    was typed, and its length is the count. *)
Theorem held_line_printable (bytes : list ascii) (st st' : state) :
  wf st -> line_ok st -> cli_feed_all bytes st = Ok (tt, st') ->
  line_ok st'
  /\ held_line st'
     = string_of_list_ascii (take (Z.to_nat (cl_count st')) (cl_buf st'))
  /\ Z.of_nat (String.length (held_line st')) = cl_count st'.
Proof.
  intros Hwf Hok Hrun.
  assert (wf st' /\ line_ok st') as [Hwf' Hok'].
  { revert st Hwf Hok Hrun.
    induction bytes as [|c bytes IH]; intros st Hwf Hok Hrun.
    - injection Hrun as <-. auto.
    - cbn [cli_feed_all] in Hrun.
      apply bind_ok_inv in Hrun as ([] & mid & Hc & Hrest).
      apply (IH mid); [| |exact Hrest].
      + apply (wf_cli_feed c st mid Hwf Hc).
      + apply (line_ok_cli_feed c st mid Hwf Hok Hc). }
  split; [exact Hok'|].
  assert (held_line st'
          = string_of_list_ascii
              (take (Z.to_nat (cl_count st')) (cl_buf st'))) as Hheld.
  { unfold held_line. apply cut_printable. apply Hok'. }
  split; [exact Hheld|].
  rewrite Hheld, length_string_of_list_ascii, length_take.
  pose proof (wf_count _ Hwf') as Hcount. unfold CL_BUF_SIZE in Hcount.
  rewrite (wf_buf _ Hwf'). lia.
Qed.

Lemma tail_clear_cli_feed (c : ascii) (st st' : state) :
  wf st -> tail_clear st -> c <> FF -> cli_feed c st = Ok (tt, st') ->
  tail_clear st'.
Proof.
  intros Hwf Htail Hff Hrun.
  pose proof (wf_count _ Hwf) as Hcount. unfold CL_BUF_SIZE in Hcount.
  pose proof (wf_buf _ Hwf) as Hlen.
  unfold tail_clear in *.
  destruct (cli_feed_buffer c st st' Hwf Hrun)
    as [(Hn & Hb)|[(Hc & _)|[(_ & Hz & Hn & Hb)|[(_ & Hn & Hb)|
        [(_ & Hpos & Hn & Hb)|(Hc & Hq & Hlt & Hsp & Hn & Hb)]]]]];
    try contradiction; rewrite Hn, Hb; intros i Hi H1 Hl.
  - apply Htail; auto.
  - rewrite length_insert in Hl.
    rewrite list_lookup_insert_ne by lia. apply Htail; lia.
  - rewrite length_insert, length_replicate in Hl.
    rewrite list_lookup_insert_ne by lia.
    apply lookup_replicate_2. exact Hl.
  - rewrite length_insert in Hl.
    destruct (Nat.eq_dec i (Z.to_nat (cl_count st - 1))) as [->|Hne].
    + apply list_lookup_insert_eq. lia.
    + rewrite list_lookup_insert_ne by lia. apply Htail; lia.
  - rewrite length_insert in Hl.
    rewrite list_lookup_insert_ne by lia. apply Htail; lia.
Qed.

Lemma cstr_at_nul_head (l : list ascii) (k : nat) :
  l !! k = Some NUL -> cstr_at (drop k l) = Some EmptyString.
Proof.
  intros Hk. rewrite (drop_S l NUL k Hk). reflexivity.
Qed.

Lemma tail_clear_cli_feed_all (bytes : list ascii) (st st' : state) :
  wf st -> tail_clear st -> ~ In FF bytes ->
  cli_feed_all bytes st = Ok (tt, st') ->
  wf st' /\ tail_clear st'.
Proof.
  revert st.
  induction bytes as [|c bytes IH]; intros st Hwf Htail Hff Hrun.
  - injection Hrun as <-. auto.
  - cbn [cli_feed_all] in Hrun.
    apply bind_ok_inv in Hrun as ([] & mid & Hc & Hrest).
    apply (IH mid); [| | |exact Hrest].
    + apply (wf_cli_feed c st mid Hwf Hc).
    + apply (tail_clear_cli_feed c st mid Hwf Htail); [|exact Hc].
      intros ->. apply Hff. left. reflexivity.
    + intros Hin. apply Hff. right. exact Hin.
Qed.

(** X8: as long as no form feed is fed, every cell of the buffer from
    the count on (the first cell apart, which keeps the last line end)
    holds NUL.  So when a line is ended, the text at any offset at or
    behind its end is empty: a command given by its bare name gets the
    empty argument. *)
Theorem tail_clear_without_form_feed (bytes : list ascii)
    (st st' : state) :
  wf st -> tail_clear st -> ~ In FF bytes ->
  cli_feed_all bytes st = Ok (tt, st') ->
  tail_clear st'
  /\ forall k : nat,
       (Z.to_nat (cl_count st') <= k)%nat -> (1 <= k < 64)%nat ->
       cstr_at (drop k (<[Z.to_nat (cl_count st') := NUL]> (cl_buf st')))
       = Some EmptyString.
Proof.
  intros Hwf Htail Hff Hrun.
  destruct (tail_clear_cli_feed_all bytes st st' Hwf Htail Hff Hrun)
    as [Hwf' Htail'].
  split; [exact Htail'|].
  intros k Hk Hrange. apply cstr_at_nul_head.
  pose proof (wf_buf _ Hwf') as Hlen.
  destruct (Nat.eq_dec k (Z.to_nat (cl_count st'))) as [->|Hne].
  - apply list_lookup_insert_eq. lia.
  - rewrite list_lookup_insert_ne by lia. apply Htail'; lia.
Qed.

Lemma cli_feed_form_feed (st : state) :
  cl_enabled st <> 0 ->
  cli_feed FF st
  = Ok (tt, emit (Ev_serial_puts (cl_out st) (crlf +:+ "# "))
              (set_cl_enabled 1
                 (set_cl_count 0
                    (emit (Ev_serial_puts (cl_out st)
                             (String ESC "[2J" +:+ String ESC "[1;1H"))
                       (set_cl_enabled 1 st))))).
Proof.
  intros He. unfold cli_feed.
  rewrite (proj2 (Z.eqb_neq _ _) He). cbn [andb].
  unfold bind at 1 2. unfold modify at 1, get at 1.
  cbn [cl_count set_cl_enabled].
  change (Ascii.eqb FF TAB || Ascii.eqb FF "?") with false. cbv iota.
  change (Ascii.eqb FF EOT) with false. rewrite andb_false_r.
  reflexivity.
Qed.

Lemma printable_not_ff (line : list ascii) :
  List.Forall (fun c => 32 <= code c <= 126 /\ c <> "?"%char) line ->
  ~ In FF line.
Proof.
  intros Hall Hin. rewrite List.Forall_forall in Hall.
  destruct (Hall _ Hin) as [[Hlo _] _]. unfold code, FF in Hlo.
  simpl in Hlo. lia.
Qed.

(** X9: a form feed resets the count and leaves the buffer as it is, so
    the text typed before it stays behind the new line.  When [old] has
    been typed, then a form feed, then [set] and a line end, the search
    finds [set] and the handler is called with the text of [old] from
    its fifth character on as its argument. *)
Theorem form_feed_keeps_text (old : list ascii) (e : ascii)
    (st : state) :
  List.Forall (fun c => 32 <= code c <= 126 /\ c <> "?"%char) old ->
  wf st -> tail_clear st -> cl_enabled st <> 0 -> cl_count st = 0 ->
  (4 <= length old < 64)%nat -> hd NUL old <> SP ->
  e = CR \/ e = LF ->
  exists held : state,
    cli_feed_all (old ++ [FF] ++ list_ascii_of_string "set" ++ [e]) st
    = (cliSet 4 ;;
       modify (set_cl_buf (replicate (Z.to_nat CL_BUF_SIZE) NUL)) ;;
       cli_feed_eol e) held
    /\ buf_cstr 4 held = Ok (string_of_list_ascii (drop 4 old), held)
    /\ cfg held = cfg st.
Proof.
  intros Hall Hwf Htail He Hn Hlen Hsp Hend.
  pose proof (wf_buf _ Hwf) as Hbuf.
  (* the first line *)
  assert (cli_feed_all old st = Ok (tt, fold_left type_char old st))
    as Hold.
  { apply cli_feed_all_typing; auto; unfold CL_BUF_SIZE; lia. }
  destruct (typed_state old st O)
    as (Hc1 & Hl1 & Ht1 & He1 & _ & Hcfg1 & _);
    [exact Hn | lia |].
  destruct (tail_clear_cli_feed_all old st _ Hwf Htail
              (printable_not_ff old Hall) Hold) as [Hwf1 Htail1].
  remember (fold_left type_char old st) as typed eqn:Etyped.
  clear Etyped.
  cbn [Nat.add] in Hc1, Ht1.
  rewrite take_0 in Ht1. cbn [app] in Ht1.
  assert (cl_enabled typed = 1) as He1'.
  { destruct old; [cbn in Hlen; lia | exact He1]. }
  clear He1.
  (* the form feed *)
  pose proof (cli_feed_form_feed typed) as Hff.
  rewrite He1' in Hff. specialize (Hff ltac:(discriminate)).
  remember (emit (Ev_serial_puts (cl_out typed) (crlf +:+ "# "))
              (set_cl_enabled 1
                 (set_cl_count 0
                    (emit (Ev_serial_puts (cl_out typed)
                             (String ESC "[2J" +:+ String ESC "[1;1H"))
                       (set_cl_enabled 1 typed))))) as fed eqn:Efed.
  assert (cl_buf fed = cl_buf typed /\ cl_count fed = 0
          /\ cl_enabled fed = 1 /\ cfg fed = cfg typed)
    as (Hb2 & Hc2 & He2 & Hcfg2) by (subst fed; cbn; auto).
  clear Efed.
  assert (wf fed) as Hwf2.
  { split; [rewrite Hb2; apply Hwf1 | rewrite Hc2; unfold CL_BUF_SIZE; lia
           | auto]. }
  (* the second line *)
  destruct (cli_feed_typed_line (list_ascii_of_string "set") e fed)
    as (_ & _ & Hset);
    [ apply (printable_letters "set"); reflexivity
    | exact Hwf2 | rewrite He2; discriminate | exact Hc2
    | cbn; lia | cbn; discriminate | exact Hend | ].
  destruct (typed_state (list_ascii_of_string "set") fed O)
    as (_ & _ & _ & _ & _ & Hcfg3 & _);
    [exact Hc2 | rewrite Hb2, (wf_buf _ Hwf1); cbn; lia |].
  assert (drop 4 (cl_buf (fold_left type_char
                            (list_ascii_of_string "set") fed))
          = drop 4 (cl_buf typed)) as Hdrop.
  { cbn [list_ascii_of_string fold_left]. unfold type_char.
    cbn [cl_buf cl_count emit set_cl_count set_cl_buf set_cl_enabled].
    rewrite !drop_insert_lt by lia. rewrite Hb2. reflexivity. }
  remember (fold_left type_char (list_ascii_of_string "set") fed)
    as typed' eqn:Etyped'.
  clear Etyped'.
  replace (bsearch
             (cliCompare
                (string_of_list_ascii (list_ascii_of_string "set")))
             cmd_table)
    with (Some {| name := "set";
                  param := "name=value or blank or * for list";
                  func := F_cliSet |}) in Hset
    by (vm_compute; reflexivity).
  change (call_func _ _) with (cliSet 4) in Hset.
  eexists. split; [|split].
  - rewrite cli_feed_all_app. unfold bind at 1. rewrite Hold.
    change ([FF] ++ list_ascii_of_string "set" ++ [e])
      with (FF :: (list_ascii_of_string "set" ++ [e])).
    cbn [cli_feed_all]. unfold bind at 1. rewrite Hff.
    exact Hset.
  - unfold buf_cstr. cbn [cl_buf set_cl_buf emit].
    change (length (list_ascii_of_string "set")) with 3%nat.
    rewrite drop_insert_lt by lia. rewrite Hdrop.
    rewrite <- (take_drop (length old) (cl_buf typed)).
    rewrite Ht1. rewrite drop_app_le by lia.
    rewrite (drop_S (cl_buf typed) NUL (length old)).
    + rewrite cstr_at_app_nul. rewrite cut_printable; [reflexivity|].
      apply Forall_drop. exact Hall.
    + apply Htail1.
      * rewrite Hc1. lia.
      * lia.
      * rewrite Hl1. lia.
  - cbn [cfg set_cl_buf emit]. congruence.
Qed.

End Buffer.

Section Addresses.
Context `{Platform}.

Lemma ip4_scan_cons (c : ascii) (rest : string) (val val2 : Z) :
  ip4_scan (String c rest) val val2
  = if Ascii.eqb c NUL then Z.lor (Z.shiftl val 8 mod 2 ^ 32) val2
    else if Ascii.eqb c "."%char then
      ip4_scan rest (Z.lor (Z.shiftl val 8 mod 2 ^ 32) val2) 0
    else if (code "0"%char <=? code c) && (code c <=? code "9"%char)
    then ip4_scan rest val ((val2 * 10 + (code c - code "0"%char))
                            mod 2 ^ 8)
    else ip4_scan rest val val2.
Proof. reflexivity. Qed.

Lemma code_inj (c d : ascii) : code c = code d -> c = d.
Proof.
  unfold code. intros E. apply (f_equal Z.to_N) in E.
  rewrite !N2Z.id in E. apply (f_equal ascii_of_N) in E.
  rewrite !ascii_N_embedding in E. exact E.
Qed.

Lemma ip4_scan_digits (ds rest : string) (val acc : Z) :
  all_digits ds ->
  ip4_scan (ds +:+ rest) val (acc mod 2 ^ 8)
  = ip4_scan rest val (decimal ds acc mod 2 ^ 8).
Proof.
  revert acc. induction ds as [|c ds IH]; intros acc Hds.
  - reflexivity.
  - destruct Hds as [Hc Hds].
    change (String c ds +:+ rest) with (String c (ds +:+ rest)).
    rewrite ip4_scan_cons.
    change (code "0") with 48 in *. change (code "9") with 57 in *.
    destruct (Ascii.eqb c NUL) eqn:E0.
    { apply Ascii.eqb_eq in E0. subst c. change (code NUL) with 0 in Hc.
      lia. }
    destruct (Ascii.eqb c ".") eqn:E1.
    { apply Ascii.eqb_eq in E1. subst c. change (code ".") with 46 in Hc.
      lia. }
    replace ((48 <=? code c) && (code c <=? 57)) with true by lia.
    cbn [decimal]. change (code "0") with 48.
    rewrite <- IH by exact Hds. f_equal.
    rewrite <- (Z.add_mod_idemp_l (acc mod 2 ^ 8 * 10)) by lia.
    rewrite Z.mul_mod_idemp_l by lia.
    rewrite Z.add_mod_idemp_l by lia. reflexivity.
Qed.

(** Shifting a 32-bit accumulator by a byte and putting a byte in. *)
Lemma push_byte (val b : Z) :
  0 <= b < 2 ^ 8 ->
  Z.lor (Z.shiftl val 8 mod 2 ^ 32) b = (val * 2 ^ 8) mod 2 ^ 32 + b.
Proof.
  intros Hb. rewrite Z.shiftl_mul_pow2 by lia.
  change (2 ^ 32) with (2 ^ 24 * 2 ^ 8).
  rewrite Z.mul_mod_distr_r by lia.
  rewrite <- Z.add_lor_land.
  assert (Z.land (val mod 2 ^ 24 * 2 ^ 8) b = 0) as ->; [|lia].
  rewrite <- (Z.mod_small b (2 ^ 8)) by lia.
  rewrite <- (Z.land_ones b 8) by lia.
  rewrite (Z.land_comm b), Z.land_assoc.
  rewrite (Z.land_ones _ 8) by lia.
  rewrite Z.mod_mul by lia. reflexivity.
Qed.

Lemma append_nil_r (s : string) : s +:+ EmptyString = s.
Proof.
  induction s as [|c s IH]; [reflexivity|].
  change (String c s +:+ EmptyString) with (String c (s +:+ EmptyString)).
  rewrite IH. reflexivity.
Qed.

Lemma ip4_scan_dot (rest : string) (val b : Z) :
  0 <= b < 2 ^ 8 ->
  ip4_scan ("." +:+ rest) val b
  = ip4_scan rest ((val * 2 ^ 8) mod 2 ^ 32 + b) (0 mod 2 ^ 8).
Proof.
  intros Hb. change ("." +:+ rest) with (String "."%char rest).
  rewrite ip4_scan_cons. change (Ascii.eqb "." NUL) with false.
  change (Ascii.eqb "." ".") with true. cbv iota.
  rewrite push_byte by exact Hb. reflexivity.
Qed.

(** One field and the dot behind it. *)
Lemma ip4_scan_field (ds rest : string) (val : Z) :
  all_digits ds ->
  ip4_scan (ds +:+ "." +:+ rest) val 0
  = ip4_scan rest ((val * 2 ^ 8) mod 2 ^ 32 + decimal ds 0 mod 2 ^ 8) 0.
Proof.
  intros Hds.
  change (ip4_scan (ds +:+ "." +:+ rest) val 0)
    with (ip4_scan (ds +:+ "." +:+ rest) val (0 mod 2 ^ 8)).
  rewrite ip4_scan_digits by exact Hds.
  rewrite ip4_scan_dot by (apply Z.mod_pos_bound; lia).
  reflexivity.
Qed.

(** The last field. *)
Lemma ip4_scan_last (ds : string) (val : Z) :
  all_digits ds ->
  ip4_scan ds val 0 = (val * 2 ^ 8) mod 2 ^ 32 + decimal ds 0 mod 2 ^ 8.
Proof.
  intros Hds.
  change (ip4_scan ds val 0) with (ip4_scan ds val (0 mod 2 ^ 8)).
  rewrite <- (append_nil_r ds) at 1.
  rewrite ip4_scan_digits by exact Hds.
  cbn [ip4_scan]. apply push_byte. apply Z.mod_pos_bound. lia.
Qed.

(** Four bytes shifted in one after the other do not overflow. *)
Lemma quad_value (A B C D : Z) :
  0 <= A < 2 ^ 8 -> 0 <= B < 2 ^ 8 -> 0 <= C < 2 ^ 8 ->
  0 <= D < 2 ^ 8 ->
  ((((0 * 2 ^ 8) mod 2 ^ 32 + A) * 2 ^ 8 mod 2 ^ 32 + B) * 2 ^ 8
   mod 2 ^ 32 + C) * 2 ^ 8 mod 2 ^ 32 + D
  = A * 2 ^ 24 + B * 2 ^ 16 + C * 2 ^ 8 + D.
Proof.
  intros HA HB HC HD.
  change (0 * 2 ^ 8) with 0. change (0 mod 2 ^ 32) with 0.
  rewrite (Z.mod_small ((0 + A) * 2 ^ 8)) by lia.
  rewrite (Z.mod_small (((0 + A) * 2 ^ 8 + B) * 2 ^ 8)) by lia.
  rewrite Z.mod_small by lia. lia.
Qed.

(** X10: how [cliSetVar] reads an IPv4 address.  For four fields of
    decimal digits separated by dots the loop arrives at the 32-bit
    word with the first field in its most significant byte; each field
    counts modulo 256, so [256] reads as [0] and an empty field as
    [0]. *)
Theorem ip4_scan_dotted_quad (a b c d : string) :
  all_digits a -> all_digits b -> all_digits c -> all_digits d ->
  ip4_scan (a +:+ "." +:+ b +:+ "." +:+ c +:+ "." +:+ d) 0 0
  = decimal a 0 mod 2 ^ 8 * 2 ^ 24 + decimal b 0 mod 2 ^ 8 * 2 ^ 16
    + decimal c 0 mod 2 ^ 8 * 2 ^ 8 + decimal d 0 mod 2 ^ 8.
Proof.
  intros Ha Hb Hc Hd.
  rewrite (ip4_scan_field a) by exact Ha.
  rewrite (ip4_scan_field b) by exact Hb.
  rewrite (ip4_scan_field c) by exact Hc.
  rewrite (ip4_scan_last d) by exact Hd.
  apply quad_value; apply Z.mod_pos_bound; lia.
Qed.

Lemma all_digitsb_true (s : string) :
  all_digitsb s = true -> all_digits s.
Proof.
  induction s as [|c s IH]; cbn [all_digitsb all_digits]; [auto|].
  intros E. apply andb_true_iff in E as [E Hs].
  apply andb_true_iff in E as [Hlo Hhi].
  split; [lia | auto].
Qed.

Lemma fmt_d_byte (b : Z) :
  0 <= b < 2 ^ 8 ->
  all_digits (fmt_d b) /\ decimal (fmt_d b) 0 mod 2 ^ 8 = b.
Proof.
  intros Hb.
  assert (forallb (fun n => all_digitsb (fmt_d (Z.of_nat n))
                            && (decimal (fmt_d (Z.of_nat n)) 0
                                =? Z.of_nat n))
            (seq 0 256) = true) as Hall by (vm_compute; reflexivity).
  rewrite forallb_forall in Hall.
  specialize (Hall (Z.to_nat b)).
  rewrite Z2Nat.id in Hall by lia.
  destruct (proj1 (andb_true_iff _ _)
              (Hall ltac:(apply in_seq; lia))) as [Hd Hv].
  split; [apply all_digitsb_true; exact Hd|].
  apply Z.eqb_eq in Hv. rewrite Hv. apply Z.mod_small. exact Hb.
Qed.

Lemma byte_at_range (w k : Z) : 0 <= byte_at w k < 2 ^ 8.
Proof.
  unfold byte_at. change 255 with (Z.ones 8).
  rewrite Z.land_ones by lia. apply Z.mod_pos_bound. lia.
Qed.

(** X11: what [cliPrintVar] prints for an IPv4 variable, [cliSetVar]
    reads back as the same four bytes: the scan of the printed text is
    the word whose most significant byte is the first byte in memory
    (the address in network byte order). *)
Theorem ip4_print_scan (var : clivalue_t) (c : cfg_t) :
  var_type var = VAR_IP4 ->
  ip4_scan (var_text var c) 0 0
  = byte_at (load_u32 (var_ptr var) c) 0 * 2 ^ 24
    + byte_at (load_u32 (var_ptr var) c) 1 * 2 ^ 16
    + byte_at (load_u32 (var_ptr var) c) 2 * 2 ^ 8
    + byte_at (load_u32 (var_ptr var) c) 3.
Proof.
  intros Hty. unfold var_text. rewrite Hty. cbv zeta.
  remember (load_u32 (var_ptr var) c) as w eqn:Ew. clear Ew.
  destruct (fmt_d_byte _ (byte_at_range w 0)) as [D0 V0].
  destruct (fmt_d_byte _ (byte_at_range w 1)) as [D1 V1].
  destruct (fmt_d_byte _ (byte_at_range w 2)) as [D2 V2].
  destruct (fmt_d_byte _ (byte_at_range w 3)) as [D3 V3].
  rewrite (ip4_scan_field (fmt_d (byte_at w 0))) by exact D0.
  rewrite (ip4_scan_field (fmt_d (byte_at w 1))) by exact D1.
  rewrite (ip4_scan_field (fmt_d (byte_at w 2))) by exact D2.
  rewrite (ip4_scan_last (fmt_d (byte_at w 3))) by exact D3.
  rewrite V0, V1, V2, V3.
  apply quad_value; apply byte_at_range.
Qed.

End Addresses.

Section Port.
Context `{Platform}.

Lemma port_step_refl (st : state) : port_step st st.
Proof. split; [reflexivity|]. exists []. rewrite app_nil_r. auto. Qed.

Lemma port_step_trans (a b c : state) :
  port_step a b -> port_step b c -> port_step a c.
Proof.
  intros (O1 & n1 & H1 & F1) (O2 & n2 & H2 & F2).
  split; [congruence|]. exists (n1 ++ n2).
  rewrite H2, H1, <- app_assoc. split; [reflexivity|].
  apply List.Forall_app. split; [exact F1|]. rewrite <- O1. exact F2.
Qed.

Ltac port_leaf :=
  intros; split; [reflexivity|]; first
    [ exists []; split; [cbn; rewrite app_nil_r; reflexivity | constructor]
    | eexists [_]; split; [reflexivity | repeat constructor] ].

Ltac ports := frame_steps port_step_refl port_step_trans port_leaf.

Lemma port_cliPrintVar (var : clivalue_t) (full : Z) :
  respects port_step (cliPrintVar var full).
Proof. unfold cliPrintVar. ports. Qed.

Lemma port_cliSet_list (tbl : list clivalue_t) (len : Z) :
  respects port_step (cliSet_list tbl len).
Proof.
  induction tbl as [|v tbl IH]; cbn [cliSet_list];
    unfold uartPrint, serial_puts; ports; auto using port_cliPrintVar.
Qed.

Lemma port_cliSet_assign (tbl : list clivalue_t) (a b : string) :
  respects port_step (cliSet_assign tbl a b).
Proof.
  induction tbl as [|v tbl IH]; cbn [cliSet_assign];
    unfold uartPrint, serial_puts, cliSetVar; ports;
    auto using port_cliPrintVar.
Qed.

Lemma port_cliWriteConfig : respects port_step cliWriteConfig.
Proof.
  unfold cliWriteConfig, uartPrint, serial_puts, CoTickDelay, write_AIRCR.
  ports. intros st0 r st1 [= _ <-]. port_leaf.
Qed.

Lemma port_call_func (f : cmd_func) (off : nat) :
  respects port_step (call_func f off).
Proof.
  destruct f; cbn [call_func].
  - unfold cliDefaults. ports. apply port_cliWriteConfig.
  - unfold cliExit, uartPrint, serial_puts. ports.
  - unfold cliHelp, uartPrint, serial_puts, cmd_table.
    cbn [cliHelp_loop]. ports.
  - unfold cliInfo, cliVersion, cli_print_hwaddr, cliUptime, uartPrint,
      serial_puts. ports.
  - apply port_cliWriteConfig.
  - unfold cliSet, uartPrint, serial_puts. ports;
      auto using port_cliSet_list, port_cliSet_assign.
  - unfold cliUptime, uartPrint, serial_puts. ports.
  - unfold cliVersion, uartPrint, serial_puts. ports.
Qed.

Lemma port_cli_feed_eol (c : ascii) : respects port_step (cli_feed_eol c).
Proof. unfold cli_feed_eol, cliPrompt, uartPrint, serial_puts. ports. Qed.

Lemma port_cli_feed_enter : respects port_step cli_feed_enter.
Proof.
  unfold cli_feed_enter, uartPrint, serial_puts. ports.
  apply port_call_func.
Qed.

Lemma port_cli_feed (c : ascii) : respects port_step (cli_feed c).
Proof.
  intros st [] st' Hrun.
  assert (forall (m : M unit) (s : state),
             respects port_step m -> port_step st s ->
             m s = Ok (tt, st') -> port_step st st') as Hvia.
  { intros m s Hm Hs Hms. apply (port_step_trans st s st' Hs).
    apply (Hm _ _ _ Hms). }
  assert (port_step st (set_cl_enabled 1 st)) as Hen by port_leaf.
  unfold cli_feed in Hrun.
  destruct ((cl_enabled st =? 0) && negb (Ascii.eqb c CR)
            && negb (Ascii.eqb c LF)).
  { injection Hrun as <-. apply port_step_refl. }
  revert Hrun. apply Hvia; [|apply port_step_refl].
  unfold cliExit, cliPrompt, uartPrint, serial_puts, serial_putc.
  ports;
    auto using port_cli_feed_enter, port_cli_feed_eol.
  all: intros s0 x s1; unfold buf_load;
    destruct (cl_buf s0 !! Z.to_nat 0); [|done];
    cbn; intros [= _ <-]; apply port_step_refl.
Qed.

Lemma port_cli_feed_all (bytes : list ascii) :
  respects port_step (cli_feed_all bytes).
Proof.
  induction bytes as [|c bytes IH]; cbn [cli_feed_all]; ports;
    auto using port_cli_feed.
Qed.

(** A stream with short lines is processed to the end. *)
Lemma cli_feed_all_returns (room : nat) (bytes : list ascii)
    (st : state) :
  wf st -> last_clear st -> cl_count st + Z.of_nat room <= 63 ->
  short_lines room bytes ->
  exists st', cli_feed_all bytes st = Ok (tt, st').
Proof.
  revert room st.
  induction bytes as [|c bytes IH]; intros room st Hwf Hlast Hn Hfit.
  - exists st. reflexivity.
  - destruct (cli_feed_short_step room c bytes st Hwf Hlast Hn Hfit)
      as (s1 & room' & Hrun & Hwf1 & Hl1 & Hn1 & Hfit1).
    destruct (IH room' s1 Hwf1 Hl1 Hn1 Hfit1) as (st' & Hrest).
    exists st'. cbn [cli_feed_all]. unfold bind. rewrite Hrun.
    exact Hrest.
Qed.

(** X12: the console port.  [cli_set_output] chooses the port; the
    banner and everything [cli_feed] does afterwards, command handlers
    included, write to that port and to no other, and leave the choice
    as it is.  This holds of every run that comes to its end; and from
    a state that satisfies the invariant with NUL in the last cell, a
    stream in which no run between two line ends is longer than 63
    bytes does come to its end. *)
Theorem output_on_chosen_port (p : serial_t) (room : nat)
    (bytes : list ascii) (st : state) :
  (forall st',
      (cli_set_output p ;; cli_banner ;; cli_feed_all bytes) st
      = Ok (tt, st') ->
      cl_out st' = p
      /\ exists new,
           trace st' = trace st ++ new /\ List.Forall (on_port p) new)
  /\ (wf st -> last_clear st -> cl_count st + Z.of_nat room <= 63 ->
      short_lines room bytes ->
      exists st',
        (cli_set_output p ;; cli_banner ;; cli_feed_all bytes) st
        = Ok (tt, st')
        /\ cl_out st' = p
        /\ exists new,
             trace st' = trace st ++ new
             /\ List.Forall (on_port p) new).
Proof.
  assert (forall st',
             (cli_set_output p ;; cli_banner ;; cli_feed_all bytes) st
             = Ok (tt, st') ->
             cl_out st' = p
             /\ exists new,
                  trace st' = trace st ++ new
                  /\ List.Forall (on_port p) new) as Hport.
  { intros st'. unfold bind at 1. unfold cli_set_output, modify at 1.
    intros Hrun.
    assert (respects port_step (cli_banner ;; cli_feed_all bytes)) as Hp.
    { unfold cli_banner, cliVersion, cli_print_hwaddr, uartPrint,
        serial_puts. ports. apply port_cli_feed_all. }
    destruct (Hp _ _ _ Hrun) as (Hout & new & Htr & Hall).
    split; [exact Hout|]. exists new. split; [exact Htr | exact Hall]. }
  split; [exact Hport|].
  intros Hwf Hlast Hn Hfit.
  assert (exists s0,
             (forall k : M unit,
                 (cli_set_output p ;; cli_banner ;; k) st = k s0)
             /\ cl_buf s0 = cl_buf st /\ cl_count s0 = cl_count st
             /\ cl_enabled s0 = cl_enabled st)
    as (s0 & Hs0 & Hb0 & Hc0 & He0).
  { eexists. split; [intros k; reflexivity|]. cbn. auto. }
  assert (wf s0) as Hwf0.
  { destruct Hwf as [Hl Hc Hd].
    split; [rewrite Hb0; exact Hl | rewrite Hc0; exact Hc
           | rewrite He0, Hc0; exact Hd]. }
  assert (last_clear s0) as Hlast0
    by (unfold last_clear; rewrite Hb0; exact Hlast).
  destruct (cli_feed_all_returns room bytes s0 Hwf0 Hlast0)
    as (st' & Hrun); [rewrite Hc0; exact Hn | exact Hfit |].
  exists st'. rewrite Hs0. split; [exact Hrun|].
  apply Hport. rewrite Hs0. exact Hrun.
Qed.

End Port.

Section Info.
Context `{Platform}.

Lemma clock_line_short (v : Z) :
  printf_text ("System clock:   " +:+ fmt_d v +:+ " Hz (nominal)" +:+ crlf)
  = "System clock:   " +:+ fmt_d v +:+ " Hz (nominal)" +:+ crlf.
Proof.
  apply printf_text_short.
  - apply (nul_free_app "System clock:   ");
      [repeat split; discriminate|].
    apply nul_free_app; [apply fmt_d_nul_free|].
    repeat split; discriminate.
  - rewrite (length_app_str "System clock:   "), length_app_str.
    pose proof (fmt_d_length v). cbn [String.length String.append crlf].
    change (String.length (" Hz (nominal)" +:+ crlf)) with 15%nat. lia.
Qed.

(** X13: [info] always returns and sends seven pieces of text in this
    order: the hardware and software versions, the (empty) MAC address
    line, the uptime as [uptime_format] gives it at that moment, and the
    system clock.  The clock line fits the format buffer whatever the
    frequency is, so it is never cut.  Nothing but the trace and the
    format buffer changes. *)
Theorem cliInfo_report (off : nat) (st : state) :
  exists st',
    cliInfo off st = Ok (tt, st')
    /\ trace st'
       = trace st
         ++ info_report (cl_out st)
              (uptime_format (trace st ++ info_head (cl_out st)))
    /\ cfg st' = cfg st /\ cl_buf st' = cl_buf st
    /\ cl_count st' = cl_count st /\ cl_enabled st' = cl_enabled st
    /\ cl_out st' = cl_out st.
Proof.
  set (s1 := emit (Ev_serial_puts (cl_out st)
                     ("Hardware:       " +:+ BOARD_REV +:+ crlf
                      +:+ "Software:       " +:+ VERSION +:+ crlf)) st).
  set (s2 := emit (Ev_serial_puts (cl_out st) "MAC Address:    ") s1).
  set (s3 := emit (Ev_serial_puts (cl_out st) crlf) s2).
  set (s4 := emit (Ev_serial_puts (cl_out st) "Uptime:         ") s3).
  set (s5 := emit (Ev_serial_puts (cl_out st) (uptime_format (trace s4)))
               s4).
  set (s6 := emit (Ev_serial_puts (cl_out st) crlf) s5).
  assert (cliInfo off st
          = uart_printf ("System clock:   "
                         +:+ fmt_d (to_int32 system_frequency)
                         +:+ " Hz (nominal)" +:+ crlf) s6) as ->
    by reflexivity.
  rewrite uart_printf_eq, clock_line_short.
  eexists. split; [reflexivity|].
  cbn [trace cfg cl_buf cl_count cl_enabled cl_out emit set_fmt_buf
         s1 s2 s3 s4 s5 s6].
  repeat split. unfold info_report, info_head. cbn [app].
  rewrite <- !app_assoc. reflexivity.
Qed.

End Info.

Section CaseBlind.
Context `{Platform}.

Lemma tolower_zero_iff (c : ascii) : tolower c = 0 <-> code c = 0.
Proof.
  split; [apply tolower_zero_code|].
  intros E. unfold tolower. rewrite E. reflexivity.
Qed.

Lemma strncasecmp_folded (a b x : string) (n : nat) :
  folded a = folded b -> strncasecmp a x n = strncasecmp b x n.
Proof.
  revert a b x. induction n as [|n IH]; intros a b x Hab; [reflexivity|].
  destruct a as [|ca ta], b as [|cb tb]; try discriminate Hab;
    [reflexivity|].
  unfold folded in Hab. cbn [list_ascii_of_string map] in Hab.
  injection Hab as Hc Ht.
  cbn [strncasecmp hd_char tl_str]. rewrite Hc.
  destruct (tolower cb - tolower (hd_char x) =? 0); [|reflexivity].
  assert ((code ca =? 0) = (code cb =? 0)) as ->.
  { destruct (code cb =? 0) eqn:E.
    - apply Z.eqb_eq. apply tolower_zero_iff. rewrite Hc.
      apply tolower_zero_iff. lia.
    - apply Z.eqb_neq. intros E0. apply tolower_zero_iff in E0.
      rewrite Hc in E0. apply tolower_zero_iff in E0. lia. }
  destruct (code cb =? 0); [reflexivity|].
  apply IH. exact Ht.
Qed.

Lemma bsearch_loop_ext {A : Type} (f g : A -> Z) (base : list A)
    (fuel lower upper : nat) :
  (forall x, f x = g x) ->
  bsearch_loop fuel f base lower upper
  = bsearch_loop fuel g base lower upper.
Proof.
  intros Hfg. revert lower upper.
  induction fuel as [|fuel IH]; intros lower upper; [reflexivity|].
  cbn [bsearch_loop].
  destruct (lower <? upper)%nat; [|reflexivity].
  destruct (nth_error base ((lower + upper) / 2)) as [cur|];
    [|reflexivity].
  rewrite Hfg, !IH. reflexivity.
Qed.

Lemma find_ext {A : Type} (f g : A -> bool) (l : list A) :
  (forall x, f x = g x) -> find f l = find g l.
Proof.
  intros Hfg. induction l as [|x l IH]; [reflexivity|].
  cbn [find]. rewrite Hfg, IH. reflexivity.
Qed.

(** X14: names are matched without regard to case.  Two texts that
    differ only in the case of their letters compare alike with every
    command, are resolved by the search to the same entry of
    [cmd_table], and select the same variable of [value_table]. *)
Theorem lookup_case_blind (a b : string) :
  folded a = folded b ->
  (forall cmd, cliCompare a cmd = cliCompare b cmd)
  /\ bsearch (cliCompare a) cmd_table = bsearch (cliCompare b) cmd_table
  /\ (forall val, var_matches a val = var_matches b val)
  /\ find (var_matches a) value_table = find (var_matches b) value_table.
Proof.
  intros Hab.
  assert (forall cmd, cliCompare a cmd = cliCompare b cmd) as Hcmp.
  { intros cmd. unfold cliCompare. apply strncasecmp_folded. exact Hab. }
  assert (forall val, var_matches a val = var_matches b val) as Hvar.
  { intros val. unfold var_matches.
    rewrite (strncasecmp_folded a b) by exact Hab. reflexivity. }
  split; [exact Hcmp|]. split.
  - unfold bsearch. apply bsearch_loop_ext. exact Hcmp.
  - split; [exact Hvar|]. apply find_ext. exact Hvar.
Qed.

End CaseBlind.

Section Edges.
Context `{Platform}.

(** X15: [defaults] replaces the configuration in memory before it
    writes: the image handed to the EEPROM driver is the zeroed record
    with the current version number, and the record in memory is that
    image afterwards whatever the driver answers.  When the answer is
    not [EERR_OK] there is no reset, so the firmware runs on with the
    zeroed configuration. *)
Theorem cliDefaults_wipes_memory (off : nat) (st : state) :
  exists st' r rest,
    cliDefaults off st = Ok (tt, st')
    /\ cfg st' = cfg_defaults (cfg st)
    /\ version (cfg st') = CFG_VERSION
    /\ trace st'
       = trace st
         ++ Ev_serial_puts (cl_out st) ("Writing EEPROM..." +:+ crlf)
         :: Ev_eeprom_write_cfg (cfg_defaults (cfg st)) r :: rest
    /\ (r <> EERR_OK -> List.Forall serial_event rest).
Proof.
  unfold cliDefaults. unfold bind at 1. unfold modify at 1.
  unfold cliWriteConfig.
  set (s0 := set_cfg (cfg_defaults (cfg st)) st).
  set (notice := emit (Ev_serial_puts (cl_out st)
                         ("Writing EEPROM..." +:+ crlf)) s0).
  set (r := eeprom_write_cfg (trace notice) (cfg s0)).
  set (called := emit (Ev_eeprom_write_cfg (cfg s0) r) notice).
  assert (forall k : Z -> M unit,
             (uartPrint ("Writing EEPROM..." +:+ crlf) ;;
              result <- call_eeprom_write_cfg ;; k result) s0
             = k r called) as Hrun by reflexivity.
  rewrite Hrun.
  destruct (r =? EERR_TIMEOUT) eqn:E1;
    [|destruct (r =? EERR_NACK) eqn:E2;
      [|destruct (r =? EERR_FAULT) eqn:E3;
        [|destruct (r =? EERR_OK) eqn:E4; cbn [negb]]]];
    eexists _, r, _; (split; [reflexivity|]);
    cbn [trace cfg version emit called notice s0 set_cfg cfg_defaults];
    rewrite <- ?app_assoc;
    (split; [reflexivity|]); (split; [reflexivity|]);
    (split; [reflexivity|]); intros Hr;
    try (repeat constructor; fail).
  apply Z.eqb_eq in E4. contradiction.
Qed.

(** X16: [set] with an argument that is neither empty nor [*] and holds
    no [=] does nothing at all: no variable is printed or changed and
    nothing is written to the console, not even an error. *)
Theorem cliSet_without_equals_silent (off : nat) (text : string)
    (st : state) :
  cstr_at (drop off (cl_buf st)) = Some text ->
  text <> EmptyString -> text <> "*"%string ->
  strstr text "=" = None ->
  cliSet off st = Ok (tt, st).
Proof.
  intros Htext Hne Hstar Heq.
  pose proof (cstr_at_nul_free _ _ Htext) as Hnf.
  unfold cliSet. unfold bind at 1. unfold buf_cstr. rewrite Htext.
  rewrite (nul_free_strlen text Hnf).
  assert ((Z.of_nat (String.length text) =? 0)
          || (Z.of_nat (String.length text) =? 1)
             && Ascii.eqb (hd_char text) "*" = false) as ->.
  { apply orb_false_iff. split.
    - apply Z.eqb_neq. destruct text; [contradiction|].
      cbn [String.length]. lia.
    - apply andb_false_iff.
      destruct text as [|c [|d t]]; [contradiction | right | left].
      + apply Ascii.eqb_neq. cbn [hd_char]. intros ->.
        apply Hstar. reflexivity.
      + apply Z.eqb_neq. cbn [String.length]. lia. }
  rewrite Heq. reflexivity.
Qed.

(** X17: the bytes [cli_feed] has no use for.  With the session
    enabled, a tab, a question mark, an end-of-file byte while
    characters are held, any other control byte that is not a line end,
    a backspace or a form feed, and any byte above 127 are dropped: no
    echo, no change of buffer, count or configuration. *)
Theorem cli_feed_ignored (c : ascii) (st : state) :
  cl_enabled st <> 0 ->
  c = TAB \/ c = "?"%char \/ (c = EOT /\ cl_count st <> 0)
  \/ (code c < 32 /\ c <> EOT /\ c <> BS /\ c <> LF /\ c <> FF
      /\ c <> CR)
  \/ 127 < code c ->
  cli_feed c st = Ok (tt, set_cl_enabled 1 st).
Proof.
  intros He Hc. unfold cli_feed.
  rewrite (proj2 (Z.eqb_neq _ _) He). cbn [andb].
  unfold bind at 1 2. unfold modify at 1, get at 1.
  cbn [cl_count set_cl_enabled].
  destruct (Ascii.eqb c TAB || Ascii.eqb c "?") eqn:Etab; [reflexivity|].
  apply orb_false_iff in Etab as [Ht Hq].
  apply Ascii.eqb_neq in Ht, Hq.
  destruct Hc as [Hc|[Hc|Hc]]; try contradiction.
  assert (code c < 32 \/ 127 <= code c) as Hrange.
  { destruct Hc as [[-> _]|[(Hlo & _)|Hhi]];
      [left; unfold code; simpl; lia | lia | lia]. }
  assert ((cl_count st =? 0) && Ascii.eqb c EOT = false) as ->.
  { destruct Hc as [[-> Hn]|[(_ & Hn & _)|Hhi]].
    - rewrite (proj2 (Z.eqb_neq _ _) Hn). reflexivity.
    - rewrite (proj2 (Ascii.eqb_neq _ _) Hn). apply andb_false_r.
    - destruct (Ascii.eqb c EOT) eqn:E; [|apply andb_false_r].
      apply Ascii.eqb_eq in E. subst c. unfold code in Hhi.
      simpl in Hhi. lia. }
  assert (Ascii.eqb c FF = false /\ Ascii.eqb c LF = false
          /\ Ascii.eqb c CR = false /\ Ascii.eqb c BS = false
          /\ Ascii.eqb c DEL = false) as (-> & -> & -> & -> & ->).
  { destruct Hc as [[-> _]|[(Hlo & _ & Hbs & Hlf & Hff & Hcr)|Hhi]].
    - repeat split; reflexivity.
    - repeat split; apply Ascii.eqb_neq; try assumption.
      intros ->. unfold code in Hlo. simpl in Hlo. lia.
    - repeat split; apply Ascii.eqb_neq; intros ->;
        unfold code in Hhi; simpl in Hhi; lia. }
  cbn [orb].
  destruct ((cl_count st <? CL_BUF_SIZE) && (32 <=? code c)
            && (code c <=? 126)) eqn:Epr; [|reflexivity].
  apply andb_true_iff in Epr as [Epr H126].
  apply andb_true_iff in Epr as [_ H32]. lia.
Qed.

End Edges.

(** ** The further properties on the demonstration board *)

Lemma last_clear_demo_prompt : last_clear demo_prompt.
Proof. reflexivity. Qed.

Lemma line_ok_demo_prompt : line_ok demo_prompt.
Proof. split; [constructor | cbn; lia]. Qed.

Lemma tail_clear_demo_prompt : tail_clear demo_prompt.
Proof.
  intros i _ H1 Hl. cbn [cl_buf demo_prompt] in *.
  destruct i as [|i]; [lia|]. cbn [lookup list_lookup].
  apply lookup_replicate_2. cbn [length] in Hl.
  rewrite length_replicate in Hl. lia.
Qed.

Lemma wf_demo_save_line : wf demo_save_line.
Proof.
  split; [reflexivity | cbn; unfold CL_BUF_SIZE; lia | cbn; discriminate].
Qed.

Lemma cli_feed_side_effects_witness :
  wf demo_save_line
  /\ @dispatched demo_board CR demo_save_line = Some F_cliSave
  /\ exists st' new,
       @cli_feed demo_board CR demo_save_line = Ok (tt, st')
       /\ trace st' = trace demo_save_line ++ new
       /\ new = [Ev_serial_puts 0 crlf;
                 Ev_serial_puts 0 ("Writing EEPROM..." +:+ crlf);
                 Ev_eeprom_write_cfg demo_cfg 0;
                 Ev_serial_puts 0 ("OK" +:+ crlf);
                 Ev_CoTickDelay 1000;
                 Ev_AIRCR 0x05FA0004;
                 Ev_serial_puts 0 (crlf +:+ "# ")]
       /\ cfg st' = demo_cfg
       /\ forall pre v post,
            new = pre ++ Ev_AIRCR v :: post ->
            exists img, In (Ev_eeprom_write_cfg img 0) pre.
Proof.
  split; [exact wf_demo_save_line|].
  split; [vm_compute; reflexivity|].
  destruct (@cli_feed demo_board CR demo_save_line)
    as [[[] st']|f] eqn:Hrun; [|vm_compute in Hrun; discriminate Hrun].
  destruct (@cli_feed_side_effects demo_board CR demo_save_line st'
              wf_demo_save_line Hrun) as (new & Htr & _ & Hcfg & Hres).
  exists st', new. split; [reflexivity|]. split; [exact Htr|].
  split.
  - vm_compute in Hrun. injection Hrun as <-.
    cbn [trace demo_save_line app] in Htr. symmetry. exact Htr.
  - split; [|exact Hres]. apply Hcfg; vm_compute; discriminate.
Defined.

Lemma cli_feed_all_safe_witness :
  wf demo_prompt /\ last_clear demo_prompt
  /\ short_lines 63 (list_ascii_of_string "help" ++ [CR; LF]
                     ++ list_ascii_of_string "set" ++ [CR])
  /\ exists st',
       @cli_feed_all demo_board
         (list_ascii_of_string "help" ++ [CR; LF]
          ++ list_ascii_of_string "set" ++ [CR]) demo_prompt
       = Ok (tt, st')
       /\ wf st' /\ last_clear st'.
Proof.
  split; [exact wf_demo_prompt|]. split; [exact last_clear_demo_prompt|].
  split; [exact I|].
  apply (@cli_feed_all_safe demo_board 63
           (list_ascii_of_string "help" ++ [CR; LF]
            ++ list_ascii_of_string "set" ++ [CR])
           demo_prompt wf_demo_prompt last_clear_demo_prompt);
    [cbn; lia | exact I].
Defined.

Lemma value_table_unambiguous_witness :
  let ip := {| var_name := "ip_addr"; var_type := VAR_IP4;
               var_ptr := P_ip_addr |} in
  var_matches "IP_ADDR=10.0.0.1" ip = true
  /\ find (var_matches "IP_ADDR=10.0.0.1") value_table = Some ip.
Proof.
  split; [reflexivity|].
  apply (value_table_unambiguous "IP_ADDR=10.0.0.1" _ _
           ltac:(right; left; reflexivity) ltac:(right; left; reflexivity)
           eq_refl eq_refl).
Defined.

Lemma lf_after_cr_swallowed_witness :
  wf demo_prompt
  /\ exists st1,
       @cli_feed demo_board CR demo_prompt = Ok (tt, st1)
       /\ @cli_feed demo_board LF st1 = Ok (tt, set_cl_enabled 1 st1).
Proof.
  split; [exact wf_demo_prompt|].
  destruct (@cli_feed demo_board CR demo_prompt) as [[[] st1]|f] eqn:Hrun;
    [|vm_compute in Hrun; discriminate Hrun].
  exists st1. split; [reflexivity|].
  apply (@lf_after_cr_swallowed demo_board demo_prompt st1 wf_demo_prompt
           Hrun).
Defined.

Lemma exit_crlf_enabled_again_witness :
  exists st' st'',
    @cli_feed_all demo_board (list_ascii_of_string "exit" ++ [CR; LF])
      demo_prompt
    = Ok (tt, st')
    /\ cl_enabled st' = 1 /\ cl_count st' = 0
    /\ trace st'
       = trace demo_prompt
         ++ map (Ev_serial_putc 0) (list_ascii_of_string "exit")
         ++ [Ev_serial_puts 0 crlf; Ev_serial_puts 0 exit_notice]
    /\ @cli_feed demo_board "x" st' = Ok (tt, st'')
    /\ cl_count st'' = 1
    /\ trace st'' = trace st' ++ [Ev_serial_putc 0 "x"].
Proof.
  apply (@exit_crlf_enabled_again demo_board "x"%char demo_prompt
           wf_demo_prompt);
    [ cbn; lia | reflexivity | unfold code; simpl; lia
    | discriminate | discriminate ].
Defined.

Lemma type_then_backspace_witness :
  exists st',
    @cli_feed_all demo_board ["x"%char; BS] demo_typed = Ok (tt, st')
    /\ cl_count st' = 2 /\ held_line st' = "hi"%string
    /\ cl_buf st' = cl_buf demo_typed.
Proof.
  destruct (@type_then_backspace demo_board "x"%char BS demo_typed
              wf_demo_typed)
    as (st' & Hrun & Hn & Hheld & Hbuf & _);
    [ cbn; lia | cbn; unfold CL_BUF_SIZE; lia | unfold code; simpl; lia
    | discriminate | cbn; intros [? _]; lia | left; reflexivity | ].
  exists st'. split; [exact Hrun|]. split; [exact Hn|].
  split; [exact Hheld|]. exact Hbuf.
Defined.

Lemma held_line_printable_witness :
  wf demo_prompt /\ line_ok demo_prompt
  /\ exists st',
       @cli_feed_all demo_board (list_ascii_of_string "hi") demo_prompt
       = Ok (tt, st')
       /\ line_ok st'
       /\ Z.of_nat (String.length (held_line st')) = cl_count st'.
Proof.
  split; [exact wf_demo_prompt|]. split; [exact line_ok_demo_prompt|].
  destruct (@cli_feed_all demo_board (list_ascii_of_string "hi")
              demo_prompt) as [[[] st']|f] eqn:Hrun;
    [|vm_compute in Hrun; discriminate Hrun].
  exists st'. split; [reflexivity|].
  destruct (@held_line_printable demo_board (list_ascii_of_string "hi")
              demo_prompt st' wf_demo_prompt line_ok_demo_prompt Hrun)
    as (Hok & _ & Hlen).
  split; [exact Hok | exact Hlen].
Defined.

Lemma tail_clear_without_form_feed_witness :
  wf demo_prompt /\ tail_clear demo_prompt
  /\ exists st',
       @cli_feed_all demo_board (list_ascii_of_string "set") demo_prompt
       = Ok (tt, st')
       /\ tail_clear st'
       /\ forall k : nat,
            (Z.to_nat (cl_count st') <= k)%nat -> (1 <= k < 64)%nat ->
            cstr_at (drop k (<[Z.to_nat (cl_count st') := NUL]>
                               (cl_buf st')))
            = Some EmptyString.
Proof.
  split; [exact wf_demo_prompt|]. split; [exact tail_clear_demo_prompt|].
  destruct (@cli_feed_all demo_board (list_ascii_of_string "set")
              demo_prompt) as [[[] st']|f] eqn:Hrun;
    [|vm_compute in Hrun; discriminate Hrun].
  exists st'. split; [reflexivity|].
  apply (@tail_clear_without_form_feed demo_board
           (list_ascii_of_string "set") demo_prompt st' wf_demo_prompt
           tail_clear_demo_prompt);
    [cbn; intros [E|[E|[E|[]]]]; discriminate E | exact Hrun].
Defined.

Lemma form_feed_keeps_text_witness :
  wf demo_prompt /\ tail_clear demo_prompt
  /\ exists held : state,
       @cli_feed_all demo_board
         (list_ascii_of_string "set gps_baud_rate=9600" ++ [FF]
          ++ list_ascii_of_string "set" ++ [CR]) demo_prompt
       = (@cliSet demo_board 4 ;;
          modify (set_cl_buf (replicate (Z.to_nat CL_BUF_SIZE) NUL)) ;;
          cli_feed_eol CR) held
       /\ buf_cstr 4 held = Ok ("gps_baud_rate=9600"%string, held)
       /\ cfg held = demo_cfg.
Proof.
  split; [exact wf_demo_prompt|]. split; [exact tail_clear_demo_prompt|].
  apply (@form_feed_keeps_text demo_board
           (list_ascii_of_string "set gps_baud_rate=9600") CR demo_prompt);
    [ apply (printable_letters "set gps_baud_rate=9600"); reflexivity
    | exact wf_demo_prompt | exact tail_clear_demo_prompt
    | cbn; lia | reflexivity | cbn; lia | cbn; discriminate
    | left; reflexivity ].
Defined.

Lemma ip4_scan_dotted_quad_witness :
  all_digits "192" /\ all_digits "168" /\ all_digits "1"
  /\ all_digits "300"
  /\ ip4_scan "192.168.1.300" 0 0
     = 192 * 2 ^ 24 + 168 * 2 ^ 16 + 1 * 2 ^ 8 + 44.
Proof.
  assert (all_digits "192" /\ all_digits "168" /\ all_digits "1"
          /\ all_digits "300") as (Ha & Hb & Hc & Hd)
    by (repeat split; unfold code; simpl; lia).
  split; [exact Ha|]. split; [exact Hb|]. split; [exact Hc|].
  split; [exact Hd|].
  exact (ip4_scan_dotted_quad "192" "168" "1" "300" Ha Hb Hc Hd).
Defined.

Lemma ip4_print_scan_witness :
  let ip := {| var_name := "ip_addr"; var_type := VAR_IP4;
               var_ptr := P_ip_addr |} in
  let c := store_u32 P_ip_addr 0x0100000A demo_cfg in
  var_text ip c = "10.0.0.1"%string
  /\ ip4_scan (var_text ip c) 0 0
     = byte_at 0x0100000A 0 * 2 ^ 24 + byte_at 0x0100000A 1 * 2 ^ 16
       + byte_at 0x0100000A 2 * 2 ^ 8 + byte_at 0x0100000A 3.
Proof.
  split; [reflexivity|].
  exact (ip4_print_scan
           {| var_name := "ip_addr"; var_type := VAR_IP4;
              var_ptr := P_ip_addr |}
           (store_u32 P_ip_addr 0x0100000A demo_cfg) eq_refl).
Defined.

Lemma last_clear_init (c : cfg_t) : last_clear (init_state c).
Proof. reflexivity. Qed.

Lemma output_on_chosen_port_witness :
  wf (init_state demo_cfg) /\ last_clear (init_state demo_cfg)
  /\ short_lines 63 (CR :: list_ascii_of_string "help" ++ [CR])
  /\ exists st',
       (cli_set_output 1 ;; @cli_banner demo_board ;;
        @cli_feed_all demo_board
          (CR :: list_ascii_of_string "help" ++ [CR]))
         (init_state demo_cfg)
       = Ok (tt, st')
       /\ cl_out st' = 1
       /\ exists new,
            trace st' = trace (init_state demo_cfg) ++ new
            /\ List.Forall (on_port 1) new.
Proof.
  split; [apply wf_init|]. split; [apply last_clear_init|].
  split; [exact I|].
  apply (@output_on_chosen_port demo_board 1 63
           (CR :: list_ascii_of_string "help" ++ [CR])
           (init_state demo_cfg));
    [apply wf_init | apply last_clear_init | cbn; lia | exact I].
Defined.

Lemma lookup_case_blind_witness :
  folded "HeLp" = folded "help"
  /\ bsearch (cliCompare "HeLp") cmd_table
     = bsearch (cliCompare "help") cmd_table.
Proof.
  split; [reflexivity|].
  apply (lookup_case_blind "HeLp" "help" eq_refl).
Defined.

Lemma cliSet_without_equals_silent_witness :
  cstr_at (drop 4 (cl_buf demo_noeq_line)) = Some "gps_baud_rate"%string
  /\ strstr "gps_baud_rate" "=" = None
  /\ @cliSet demo_board 4 demo_noeq_line = Ok (tt, demo_noeq_line).
Proof.
  split; [reflexivity|]. split; [reflexivity|].
  apply (@cliSet_without_equals_silent demo_board 4 "gps_baud_rate"
           demo_noeq_line eq_refl); [discriminate | discriminate |].
  reflexivity.
Defined.

Lemma cli_feed_ignored_witness :
  @cli_feed demo_board EOT demo_typed
  = Ok (tt, set_cl_enabled 1 demo_typed).
Proof.
  apply (@cli_feed_ignored demo_board EOT demo_typed);
    [cbn; lia | right; right; left; split; [reflexivity | cbn; lia]].
Defined.
